(** * HBnB backend (part4/Backend/run_simple.py): identity, authorization
      gate and relational integrity of users, places and reviews.

    The Flask handlers are embedded as computations in a small request monad
    [App] that threads the SQLAlchemy session (the committed database and the
    transaction's view of it), the verified JWT of the request and a counter
    of the write statements issued, and that can raise Python exceptions.

    Modelling conventions.
    - A Python [str] is the Rocq [string] of its UTF-8 bytes. [strip] removes
      the white space of Python's [str.strip()], the characters outside ASCII
      included, and [len] counts characters, not bytes. [lower] is
      [str.lower()] on the ASCII letters only: a statement whose conclusion
      depends on it is made of ASCII text ([isascii]).
    - A number of a request body is a JSON number, as [json.loads] reads it:
      a Python int of any size or a float. [int()] truncates a float, and
      sqlite3 refuses an integer outside the signed 64-bit range.
    - A table is the list of its rows, in insertion order ([.first()] is the
      first row that matches).
    - A request body is taken at the field types the front end sends: a field
      that is absent or [null] is [None].
    - The JWT library, the password hashing primitives, the storage engine's
      failures and the other requests are outside the repository: they are
      the fields of an environment [Env]. The [uuid4] drawn for a new row is
      an argument of the handler that inserts it. *)

From Stdlib Require Import List String Ascii ZArith Bool Arith Lia.
From Stdlib Require Floats.SpecFloat.
Import ListNotations.
Local Open Scope string_scope.
Local Open Scope Z_scope.

(* ------------------------------------------------------------------ *)
(** ** Exceptions and numbers *)

Inductive exn : Type :=
| IntegrityError        (* sqlalchemy.exc.IntegrityError *)
| OperationalError      (* any other failure of the storage engine *)
| NoAuthorizationError  (* no bearer token in the request *)
| InvalidTokenError     (* the token does not verify *)
| RuntimeError          (* get_jwt() before verify_jwt_in_request() *)
| ValueError            (* int(nan) *)
| OverflowError.        (* int(inf); an integer that sqlite3 cannot bind *)

  (** a JSON number as [json.loads] reads it *)
Inductive number : Type :=
| Int (z : Z)                          (* a Python int, of any size *)
| Float (f : SpecFloat.spec_float).    (* a Python float (binary64) *)

(* ------------------------------------------------------------------ *)
(** ** Python primitives used by the handlers *)

Module Py.

  (** [str.isspace()] on a character of one byte: space, \t \n \v \f \r and
      the separators \x1c..\x1f. *)
Definition isspace (c : ascii) : bool :=
  let n := nat_of_ascii c in
  (Nat.eqb n 32 || (Nat.leb 9 n && Nat.leb n 13) || (Nat.leb 28 n && Nat.leb n 31))%bool.

  (** the white-space characters of two bytes: U+0085 (C2 85) and U+00A0
      (C2 A0) *)
Definition isspace2 (c d : ascii) : bool :=
  let n := nat_of_ascii d in
  if Nat.eqb (nat_of_ascii c) 194 then (Nat.eqb n 133 || Nat.eqb n 160)%bool else false.

  (** the white-space characters of three bytes: U+1680 (E1 9A 80),
      U+2000..U+200A (E2 80 80..8A), U+2028, U+2029 and U+202F (E2 80 A8, A9,
      AF), U+205F (E2 81 9F) and U+3000 (E3 80 80) *)
Definition isspace3 (c d e : ascii) : bool :=
  let m := nat_of_ascii c in
  let n := nat_of_ascii d in
  let k := nat_of_ascii e in
  if Nat.eqb m 225 then (if Nat.eqb n 154 then Nat.eqb k 128 else false)
  else if Nat.eqb m 226
  then (if Nat.eqb n 128
        then ((Nat.leb 128 k && Nat.leb k 138) || Nat.eqb k 168 || Nat.eqb k 169
              || Nat.eqb k 175)%bool
        else if Nat.eqb n 129 then Nat.eqb k 159 else false)
  else if Nat.eqb m 227 then (if Nat.eqb n 128 then Nat.eqb k 128 else false)
  else false.

  (** the string after its first character, when that is white space *)
Definition skip_space (s : string) : option string :=
  match s with
  | String c r =>
      if isspace c then Some r
      else match r with
           | String d r1 =>
               if isspace2 c d then Some r1
               else match r1 with
                    | String e r2 => if isspace3 c d e then Some r2 else None
                    | EmptyString => None
                    end
           | EmptyString => None
           end
  | EmptyString => None
  end.

Fixpoint lstrip (s : string) : string :=
  match s with
  | String c r =>
      if isspace c then lstrip r
      else match r with
           | String d r1 =>
               if isspace2 c d then lstrip r1
               else match r1 with
                    | String e r2 => if isspace3 c d e then lstrip r2 else s
                    | EmptyString => s
                    end
           | EmptyString => s
           end
  | EmptyString => EmptyString
  end.

  (** [s.isspace() or s == ''] *)
Definition blank (s : string) : bool :=
  match lstrip s with
  | EmptyString => true
  | String _ _ => false
  end.

  (** the string is cut where what follows is white space only *)
Fixpoint rstrip (s : string) : string :=
  match s with
  | EmptyString => EmptyString
  | String c r => if blank (String c r) then EmptyString else String c (rstrip r)
  end.

Definition strip (s : string) : string := rstrip (lstrip s).

  (** [len(s)]: the bytes that do not continue a character (10xxxxxx) *)
Fixpoint len (s : string) : nat :=
  match s with
  | EmptyString => O
  | String c r =>
      let n := nat_of_ascii c in
      if (Nat.leb 128 n && Nat.leb n 191)%bool then len r else S (len r)
  end.

  (** [s.isascii()] *)
Fixpoint isascii (s : string) : bool :=
  match s with
  | EmptyString => true
  | String c r => (Nat.leb (nat_of_ascii c) 127 && isascii r)%bool
  end.

  (** [str.lower()] on ASCII: the letters A..Z *)
Definition lower_char (c : ascii) : ascii :=
  let n := nat_of_ascii c in
  if (Nat.leb 65 n && Nat.leb n 90)%bool then ascii_of_nat (n + 32) else c.

Fixpoint lower (s : string) : string :=
  match s with
  | EmptyString => EmptyString
  | String c r => String (lower_char c) (lower r)
  end.

  (** [needle in hay] *)
Fixpoint contains (needle hay : string) : bool :=
  (String.prefix needle hay ||
   match hay with
   | EmptyString => false
   | String _ r => contains needle r
   end)%bool.

  (** truthiness of a string and of an optional value ([None] is falsy) *)
Definition truthy (s : string) : bool := negb (s =? "")%string.

Definition truthy_opt (o : option string) : bool :=
  match o with
  | None => false
  | Some s => truthy s
  end.

  (** [o or ''] *)
Definition or_empty (o : option string) : string :=
  match o with
  | None => ""
  | Some s => s
  end.

  (** [int(x)]: a float is truncated towards zero; [inf] and [nan] raise *)
Definition int (x : number) : exn + Z :=
  match x with
  | Int z => inr z
  | Float (SpecFloat.S754_zero _) => inr 0
  | Float (SpecFloat.S754_infinity _) => inl OverflowError
  | Float SpecFloat.S754_nan => inl ValueError
  | Float (SpecFloat.S754_finite s m e) =>
      let a := Z.shiftl (Z.pos m) e in
      inr (if s then - a else a)
  end.

End Py.
Arguments Py.strip : simpl never.
Arguments Py.lower : simpl never.
Arguments Py.len : simpl never.

(* ------------------------------------------------------------------ *)
(** ** JSON values of the responses *)

#[local] Set Warnings "-register-all".
Inductive json : Type :=
| JNull
| JBool (b : bool)
| JInt (z : Z)
| JStr (s : string)
| JList (l : list json)
| JObj (fields : list (string * json)).

Definition jopt_str (o : option string) : json :=
  match o with
  | None => JNull
  | Some s => JStr s
  end.

Definition jopt_int (o : option Z) : json :=
  match o with
  | None => JNull
  | Some z => JInt z
  end.

Definition keys (d : list (string * json)) : list string := map fst d.

(* ------------------------------------------------------------------ *)
(** ** The three tables *)

Module User.
Record t : Type := mk
  { id : string;
    first_name : string;
    last_name : string;
    email : string;
    password : string;
    is_admin : bool }.

Definition to_dict (self : t) : list (string * json) :=
  [ ("id", JStr (id self));
    ("first_name", JStr (first_name self));
    ("last_name", JStr (last_name self));
    ("email", JStr (email self));
    ("is_admin", JBool (is_admin self)) ].
End User.

Module Place.
Record t : Type := mk
  { id : string;
    title : string;
    description : option string;
    price : option Z;
    owner_id : option string }.

Definition amenities (self : t) : list string :=
  let title_lower := Py.lower (title self) in
  if Py.contains "beach" title_lower then ["WiFi"; "Sea view"; "Air conditioning"]
  else if Py.contains "cabin" title_lower then ["Fireplace"; "Kitchen"]
  else if (Py.contains "apartment" title_lower || Py.contains "modern" title_lower)%bool
       then ["WiFi"; "Elevator"]
  else [].

Definition to_dict (self : t) : list (string * json) :=
  [ ("id", JStr (id self));
    ("title", JStr (title self));
    ("description", jopt_str (description self));
    ("price", jopt_int (price self));
    ("owner_id", jopt_str (owner_id self));
    ("amenities", JList (map JStr (amenities self))) ].

Definition set_owner_id (o : option string) (self : t) : t :=
  mk (id self) (title self) (description self) (price self) o.
End Place.

Module Review.
Record t : Type := mk
  { id : string;
    user_id : string;
    place_id : string;
    text : string;
    rating : Z }.

Definition to_dict (self : t) : list (string * json) :=
  [ ("id", JStr (id self));
    ("user_id", JStr (user_id self));
    ("place_id", JStr (place_id self));
    ("text", JStr (text self));
    ("rating", JInt (rating self)) ].

  (** the content of a review: everything but its id *)
Definition content (self : t) : string * string * string * Z :=
  (user_id self, place_id self, text self, rating self).
End Review.

Record Store : Type := mkStore
  { user_table : list User.t;
    place_table : list Place.t;
    review_table : list Review.t }.

Definition with_users (l : list User.t) (s : Store) : Store :=
  mkStore l (place_table s) (review_table s).
Definition with_places (l : list Place.t) (s : Store) : Store :=
  mkStore (user_table s) l (review_table s).
Definition with_reviews (l : list Review.t) (s : Store) : Store :=
  mkStore (user_table s) (place_table s) l.

(* ------------------------------------------------------------------ *)
(** ** Requests, responses and the JWT payload *)

Module Jwt.
  (** payload of an access token: [sub] is the [identity] it was created
      with, the rest are the [additional_claims] *)
Record t : Type := mk
  { sub : string;
    user_id : string;
    email : string;
    is_admin : bool }.
End Jwt.

Inductive http_method : Type := GET | POST | PUT | DELETE.

Record Request (B : Type) : Type := mkRequest
  { method : http_method;
    authorization : option string;   (* the bearer token, when one is sent *)
    get_json : B }.
Arguments mkRequest {B}.
Arguments method {B}.
Arguments authorization {B}.
Arguments get_json {B}.

  (** what a response carries: the JSON that [jsonify] serialises, or the
      HTML page that Flask and werkzeug render for an exception that escapes
      the view (the debugger's page under [debug=True]; its text is theirs) *)
Inductive content : Type :=
| Json (j : json)
| Html.
Coercion Json : json >-> content.

Record Response : Type := mkResponse
  { body : content;
    status : Z }.

Definition jsonify_error (msg : string) : json := JObj [("error", JStr msg)].
Definition jsonify_message (msg : string) : json := JObj [("message", JStr msg)].

(* ------------------------------------------------------------------ *)
(** ** What lies outside the repository *)

Record Env : Type := mkEnv
  { (** [fails n]: the storage engine raises on the [n]-th write statement
        of the request (statements are counted from 0) *)
    fails : nat -> bool;
    (** what the other requests commit between this request's reads and its
        commit; the identity when the request runs alone *)
    race : Store -> Store;
    (** flask_jwt_extended: signing, and verification with decoding *)
    encode_token : Jwt.t -> string;
    decode_token : string -> option Jwt.t;
    (** werkzeug.security *)
    generate_password_hash : string -> string;
    check_password_hash : string -> string -> bool }.

(* ------------------------------------------------------------------ *)
(** ** The request monad: session state and exceptions *)

Inductive row : Type :=
| RUser (u : User.t)
| RPlace (p : Place.t)
| RReview (r : Review.t).

Record Ctx : Type := mkCtx
  { committed : Store;        (* the database *)
    txn : Store -> Store;     (* the statements of the open transaction *)
    added : list row;         (* session.new and session.dirty: the rows the
                                 flush writes *)
    tick : nat;               (* write statements issued so far *)
    jwt : option Jwt.t }.     (* set by verify_jwt_in_request *)

  (** the database as the open transaction sees it *)
Definition view (c : Ctx) : Store := txn c (committed c).

Definition App (A : Type) : Type := Ctx -> (exn + A) * Ctx.

Definition ret {A} (a : A) : App A := fun c => (inr a, c).

Definition bind {A B} (m : App A) (k : A -> App B) : App B :=
  fun c =>
    match m c with
    | (inl e, c') => (inl e, c')
    | (inr a, c') => k a c'
    end.

Definition raise {A} (e : exn) : App A := fun c => (inl e, c).

  (** the value of an expression that may raise *)
Definition eval {A} (r : exn + A) : App A := fun c => (r, c).

  (** [try: m  except Exception as e: h e] *)
Definition try_except {A} (m : App A) (h : exn -> App A) : App A :=
  fun c =>
    match m c with
    | (inl e, c') => h e c'
    | r => r
    end.

Declare Scope app_scope.
Delimit Scope app_scope with app.
Notation "x <- m ;; k" := (bind m (fun x => k))
  (at level 61, m at next level, right associativity) : app_scope.
Notation "m ;; k" := (bind m (fun _ => k))
  (at level 61, right associativity) : app_scope.
Local Open Scope app_scope.

  (** a handler either returns early or goes on with a value *)
Definition or_return {A} (m : App (Response + A)) (k : A -> App Response)
  : App Response :=
  r <- m ;;
  match r with
  | inl resp => ret resp
  | inr a => k a
  end.

Notation "x <-? m ;; k" := (or_return m (fun x => k))
  (at level 61, m at next level, right associativity) : app_scope.

(* ------------------------------------------------------------------ *)
(** ** Queries *)

Definition eqb_opt (o : option string) (s : string) : bool :=
  match o with
  | None => false
  | Some x => (x =? s)%string
  end.

Module Query.
  (** [User.query.get(id)], [User.query.filter_by(email=e).first()] *)
Definition get_user (i : string) (s : Store) : option User.t :=
  find (fun u => (User.id u =? i)%string) (user_table s).
Definition user_by_email (e : string) (s : Store) : option User.t :=
  find (fun u => (User.email u =? e)%string) (user_table s).

Definition get_place (i : string) (s : Store) : option Place.t :=
  find (fun p => (Place.id p =? i)%string) (place_table s).

Definition get_review (i : string) (s : Store) : option Review.t :=
  find (fun r => (Review.id r =? i)%string) (review_table s).

Definition same_content (u p t : string) (n : Z) (r : Review.t) : bool :=
  ((Review.user_id r =? u)%string && (Review.place_id r =? p)%string
   && (Review.text r =? t)%string && (Review.rating r =? n)%Z)%bool.

  (** [Review.query.filter_by(user_id=u, place_id=p, text=t, rating=n).first()] *)
Definition review_by_content (u p t : string) (n : Z) (s : Store) : option Review.t :=
  find (same_content u p t n) (review_table s).

  (** [Review.query.filter_by(place_id=p).delete()] *)
Definition delete_reviews_of_place (p : string) (s : Store) : Store :=
  with_reviews (filter (fun r => negb (Review.place_id r =? p)%string) (review_table s)) s.

  (** [Review.query.filter_by(user_id=u).delete()] *)
Definition delete_reviews_of_user (u : string) (s : Store) : Store :=
  with_reviews (filter (fun r => negb (Review.user_id r =? u)%string) (review_table s)) s.

  (** [Place.query.filter_by(owner_id=u).update({Place.owner_id: None})] *)
Definition disown_places (u : string) (s : Store) : Store :=
  with_places
    (map (fun p => if eqb_opt (Place.owner_id p) u then Place.set_owner_id None p else p)
         (place_table s)) s.

  (** the UPDATE a flush emits for a place whose attributes were assigned *)
Definition update_place (p : Place.t) (s : Store) : Store :=
  with_places
    (map (fun q => if (Place.id q =? Place.id p)%string then p else q) (place_table s)) s.

  (** the DELETE a flush emits for [db.session.delete(obj)]: by primary key *)
Definition delete_row (x : row) (s : Store) : Store :=
  match x with
  | RUser u => with_users (filter (fun v => negb (User.id v =? User.id u)%string) (user_table s)) s
  | RPlace p => with_places (filter (fun q => negb (Place.id q =? Place.id p)%string) (place_table s)) s
  | RReview r => with_reviews (filter (fun q => negb (Review.id q =? Review.id r)%string) (review_table s)) s
  end.

  (** the INSERT a flush emits for [db.session.add(obj)] *)
Definition insert_row (x : row) (s : Store) : Store :=
  match x with
  | RUser u => with_users (user_table s ++ [u]) s
  | RPlace p => with_places (place_table s ++ [p]) s
  | RReview r => with_reviews (review_table s ++ [r]) s
  end.

  (** sqlite3 binds a Python int as a signed 64-bit INTEGER, and raises
      OverflowError ("Python int too large to convert to SQLite INTEGER") for
      any other *)
Definition fits_integer (z : Z) : bool :=
  ((-9223372036854775808 <=? z) && (z <=? 9223372036854775807))%bool.

  (** the integers a row binds when it is written *)
Definition row_fits (x : row) : bool :=
  match x with
  | RUser _ => true
  | RPlace p =>
      match Place.price p with
      | Some z => fits_integer z
      | None => true
      end
  | RReview r => fits_integer (Review.rating r)
  end.

  (** the constraints the schema declares on a written row: the primary key
      of every table and [unique=True] on [User.email]. (SQLite does not
      enforce the foreign keys unless asked to, and the application does not
      ask.) *)
Definition count {A} (f : A -> bool) (l : list A) : nat := List.length (filter f l).

Definition row_ok (s : Store) (x : row) : bool :=
  match x with
  | RUser u =>
      (Nat.eqb (count (fun v => (User.id v =? User.id u)%string) (user_table s)) 1
       && Nat.eqb (count (fun v => (User.email v =? User.email u)%string) (user_table s)) 1)%bool
  | RPlace p => Nat.eqb (count (fun q => (Place.id q =? Place.id p)%string) (place_table s)) 1
  | RReview r => Nat.eqb (count (fun q => (Review.id q =? Review.id r)%string) (review_table s)) 1
  end.
End Query.
Arguments Query.count : simpl never.

(* ------------------------------------------------------------------ *)
(** ** Request bodies *)

Module LoginData.
Record t : Type := mk
  { email : option string;
    password : option string }.
End LoginData.

Module RegisterData.
Record t : Type := mk
  { first_name : option string;
    last_name : option string;
    email : option string;
    password : option string }.
End RegisterData.

Module PlaceData.
Record t : Type := mk
  { title : option string;
    description : option string;
    price : option number }.
End PlaceData.

  (** the body of a PUT: for [title] and [description] an absent key is
      [None] and a key whose value is [null] is [Some None] *)
Module PlacePatch.
Record t : Type := mk
  { title : option (option string);
    description : option (option string);
    price : option number }.
End PlacePatch.

Module ReviewData.
Record t : Type := mk
  { place_id : option string;
    text : option string;
    rating : option number }.
End ReviewData.

(* ------------------------------------------------------------------ *)
(** ** The session and the JWT context *)

Section Backend.

Variable env : Env.

  (** one write statement of the open transaction *)
Definition statement (f : Store -> Store) (new : list row) : App unit :=
  fun c =>
    if fails env (tick c)
    then (inl OperationalError,
          mkCtx (committed c) (txn c) (added c) (S (tick c)) (jwt c))
    else (inr tt,
          mkCtx (committed c) (fun s => f (txn c s)) (new ++ added c)
                (S (tick c)) (jwt c)).

Definition db_session_add (x : row) : App unit :=
  statement (Query.insert_row x) [x].

Definition db_session_delete (x : row) : App unit :=
  statement (Query.delete_row x) [].

  (** [db.session.commit()]: what the other requests committed meanwhile is
      in the database by now; the transaction's statements are flushed on
      top of it, the integers of the written rows are bound and the rows are
      checked against the constraints, and the result becomes the
      database. *)
Definition db_session_commit : App unit :=
  fun c =>
    let base := race env (committed c) in
    let c' := mkCtx base (txn c) (added c) (S (tick c)) (jwt c) in
    if fails env (tick c) then (inl OperationalError, c')
    else if negb (forallb Query.row_fits (added c)) then (inl OverflowError, c')
    else if forallb (Query.row_ok (txn c base)) (added c)
    then (inr tt, mkCtx (txn c base) (fun s => s) [] (S (tick c)) (jwt c))
    else (inl IntegrityError, c').

Definition db_session_rollback : App unit :=
  fun c => (inr tt, mkCtx (committed c) (fun s => s) [] (tick c) (jwt c)).

Definition query {A} (q : Store -> A) : App A :=
  fun c => (inr (q (view c)), c).

  (** a query that binds the integer [z] *)
Definition query_binding {A} (z : Z) (q : Store -> A) : App A :=
  if Query.fits_integer z then query q else raise OverflowError.

  (** flask_jwt_extended *)
Definition verify_jwt_in_request {B} (req : Request B) : App unit :=
  match authorization req with
  | None => raise NoAuthorizationError
  | Some tok =>
      match decode_token env tok with
      | None => raise InvalidTokenError
      | Some payload =>
          fun c => (inr tt, mkCtx (committed c) (txn c) (added c) (tick c) (Some payload))
      end
  end.

Definition get_jwt : App Jwt.t :=
  fun c =>
    match jwt c with
    | None => (inl RuntimeError, c)
    | Some payload => (inr payload, c)
    end.

Definition get_jwt_identity : App string :=
  payload <- get_jwt ;; ret (Jwt.sub payload).

Definition create_access_token (identity user_id email : string) (is_admin : bool)
  : string :=
  encode_token env (Jwt.mk identity user_id email is_admin).

  (** What Flask does around a view function: the session starts on the
      database, an exception that escapes the view is answered 500 with an
      HTML page, and the session is discarded when the request ends. *)
Definition internal_server_error : Response :=
  mkResponse Html 500.

Definition serve (h : App Response) (s : Store) : Response * Store :=
  match h (mkCtx s (fun x => x) [] 0%nat None) with
  | (inr resp, c) => (resp, committed c)
  | (inl _, c) => (internal_server_error, committed c)
  end.

(* ------------------------------------------------------------------ *)
(** ** The handlers of run_simple.py *)

Definition admin_required {B A} (fn : Request B -> A -> App Response)
  (req : Request B) (args : A) : App Response :=
  claims <-? try_except
               (verify_jwt_in_request req ;;
                claims <- get_jwt ;;
                ret (inr claims))
               (fun _ => ret (inl (mkResponse (jsonify_error "Authentication required") 401))) ;;
  if negb (Jwt.is_admin claims)
  then ret (mkResponse (jsonify_error "Admin privileges required") 403)
  else fn req args.

Definition login (req : Request LoginData.t) (_ : unit) : App Response :=
  let data := get_json req in
  let email := Py.lower (Py.strip (Py.or_empty (LoginData.email data))) in
  let password := Py.or_empty (LoginData.password data) in
  if (negb (Py.truthy email) || negb (Py.truthy password))%bool
  then ret (mkResponse (jsonify_error "email and password required") 400)
  else
    user <- query (Query.user_by_email email) ;;
    match user with
    | None => ret (mkResponse (jsonify_error "Invalid email or password") 401)
    | Some user =>
        if negb (check_password_hash env (User.password user) password)
        then ret (mkResponse (jsonify_error "Invalid email or password") 401)
        else
          let token := create_access_token (User.id user) (User.id user)
                         (User.email user) (User.is_admin user) in
          ret (mkResponse (JObj [("access_token", JStr token)]) 200)
    end.

  (** [new_id] is the [uuid4] the column default draws for the new row *)
Definition register (new_id : string) (req : Request RegisterData.t) (_ : unit)
  : App Response :=
  let data := get_json req in
  let email := Py.lower (Py.strip (Py.or_empty (RegisterData.email data))) in
  if (negb (Py.truthy email) || negb (Py.truthy_opt (RegisterData.password data))
      || negb (Py.truthy_opt (RegisterData.first_name data))
      || negb (Py.truthy_opt (RegisterData.last_name data)))%bool
  then ret (mkResponse (jsonify_error "Missing fields") 400)
  else
    existing <- query (Query.user_by_email email) ;;
    match existing with
    | Some _ => ret (mkResponse (jsonify_error "Email already registered") 400)
    | None =>
        let pw_hash := generate_password_hash env (Py.or_empty (RegisterData.password data)) in
        let user := User.mk new_id (Py.or_empty (RegisterData.first_name data))
                      (Py.or_empty (RegisterData.last_name data)) email pw_hash false in
        db_session_add (RUser user) ;;
        _ <-? try_except
                (db_session_commit ;; ret (inr tt))
                (fun e =>
                   db_session_rollback ;;
                   match e with
                   | IntegrityError =>
                       ret (inl (mkResponse (jsonify_error "Email already registered") 400))
                   | _ =>
                       ret (inl (mkResponse (jsonify_error "Failed to create user") 500))
                   end) ;;
        let token := create_access_token (User.id user) (User.id user)
                       (User.email user) (User.is_admin user) in
        ret (mkResponse (JObj [("user", JObj (User.to_dict user));
                               ("access_token", JStr token)]) 201)
    end.

Definition list_places (req : Request unit) (_ : unit) : App Response :=
  places <- query place_table ;;
  ret (mkResponse (JList (map (fun p => JObj (Place.to_dict p)) places)) 200).

Definition create_place_view (new_id : string) (req : Request PlaceData.t) (_ : unit)
  : App Response :=
  let data := get_json req in
  let title := PlaceData.title data in
  let description := PlaceData.description data in
  match PlaceData.price data with
  | None => ret (mkResponse (jsonify_error "Missing fields") 400)
  | Some price =>
      if negb (Py.truthy_opt title)
      then ret (mkResponse (jsonify_error "Missing fields") 400)
      else
        price <- eval (Py.int price) ;;
        let place := Place.mk new_id (Py.or_empty title) description (Some price) None in
        db_session_add (RPlace place) ;;
        db_session_commit ;;
        ret (mkResponse (JObj (Place.to_dict place)) 201)
  end.

Definition update_place_view (req : Request PlacePatch.t) (place_id : string)
  : App Response :=
  p <- query (Query.get_place place_id) ;;
  match p with
  | None => ret (mkResponse (jsonify_error "Place not found") 404)
  | Some p =>
      let data := get_json req in
      let title :=
        match PlacePatch.title data with
        | None => Some (Place.title p)
        | Some t => t
        end in
      let description :=
        match PlacePatch.description data with
        | None => Place.description p
        | Some d => d
        end in
      price <- match PlacePatch.price data with
               | None => ret (Place.price p)
               | Some x => z <- eval (Py.int x) ;; ret (Some z)
               end ;;
      match title with
      | None =>
          (* [title] is [nullable=False]: the flush of the commit raises *)
          raise IntegrityError
      | Some title =>
          let p := Place.mk (Place.id p) title description price (Place.owner_id p) in
          statement (Query.update_place p) [RPlace p] ;;
          db_session_commit ;;
          ret (mkResponse (JObj (Place.to_dict p)) 200)
      end
  end.

Definition update_place : Request PlacePatch.t -> string -> App Response :=
  admin_required update_place_view.

Definition delete_place_view (req : Request unit) (place_id : string) : App Response :=
  p <- query (Query.get_place place_id) ;;
  match p with
  | None => ret (mkResponse (jsonify_error "Place not found") 404)
  | Some p =>
      _ <-? try_except
              (statement (Query.delete_reviews_of_place place_id) [] ;;
               db_session_delete (RPlace p) ;;
               db_session_commit ;;
               ret (inr tt))
              (fun _ =>
                 db_session_rollback ;;
                 ret (inl (mkResponse (jsonify_error "Failed to delete place") 500))) ;;
      ret (mkResponse (jsonify_message "Place deleted successfully") 200)
  end.

Definition delete_place : Request unit -> string -> App Response :=
  admin_required delete_place_view.

Definition create_place (new_id : string) : Request PlaceData.t -> unit -> App Response :=
  admin_required (create_place_view new_id).

Definition get_place (req : Request unit) (place_id : string) : App Response :=
  p <- query (Query.get_place place_id) ;;
  match p with
  | None => ret (mkResponse (jsonify_error "Place not found") 404)
  | Some p => ret (mkResponse (JObj (Place.to_dict p)) 200)
  end.

Definition reviews (new_id : string) (req : Request ReviewData.t) (_ : unit)
  : App Response :=
  match method req with
  | GET =>
      all_reviews <- query review_table ;;
      ret (mkResponse (JList (map (fun r => JObj (Review.to_dict r)) all_reviews)) 200)
  | _ =>
      identity <-? try_except
                     (verify_jwt_in_request req ;;
                      identity <- get_jwt_identity ;;
                      ret (inr identity))
                     (fun _ => ret (inl (mkResponse (jsonify_error "Authentication required") 401))) ;;
      let data := get_json req in
      let place_id := ReviewData.place_id data in
      let text := ReviewData.text data in
      match ReviewData.rating data with
      | None => ret (mkResponse (jsonify_error "Missing fields") 400)
      | Some rating =>
          if (negb (Py.truthy_opt place_id) || negb (Py.truthy_opt text))%bool
          then ret (mkResponse (jsonify_error "Missing fields") 400)
          else
            let place_id := Py.or_empty place_id in
            place <- query (Query.get_place place_id) ;;
            match place with
            | None => ret (mkResponse (jsonify_error "Place not found") 404)
            | Some _ =>
                let clean_text := Py.strip (Py.or_empty text) in
                rating <- eval (Py.int rating) ;;
                existing <- query_binding rating
                              (Query.review_by_content identity place_id clean_text rating) ;;
                match existing with
                | Some _ => ret (mkResponse (jsonify_error "Duplicate review detected") 409)
                | None =>
                    let review := Review.mk new_id identity place_id clean_text rating in
                    db_session_add (RReview review) ;;
                    db_session_commit ;;
                    ret (mkResponse (JObj (Review.to_dict review)) 201)
                end
            end
      end
  end.

Definition reviews_by_place (req : Request unit) (place_id : string) : App Response :=
  place <- query (Query.get_place place_id) ;;
  match place with
  | None => ret (mkResponse (jsonify_error "Place not found") 404)
  | Some _ =>
      rs <- query (fun s => filter (fun r => (Review.place_id r =? place_id)%string) (review_table s)) ;;
      ret (mkResponse (JList (map (fun r => JObj (Review.to_dict r)) rs)) 200)
  end.

Definition delete_review (req : Request unit) (review_id : string) : App Response :=
  ic <-? try_except
           (verify_jwt_in_request req ;;
            identity <- get_jwt_identity ;;
            claims <- get_jwt ;;
            ret (inr (identity, claims)))
           (fun _ => ret (inl (mkResponse (jsonify_error "Authentication required") 401))) ;;
  let '(identity, claims) := ic in
  review <- query (Query.get_review review_id) ;;
  match review with
  | None => ret (mkResponse (jsonify_error "Review not found") 404)
  | Some review =>
      let is_admin := Jwt.is_admin claims in
      if (negb is_admin && negb (Review.user_id review =? identity)%string)%bool
      then ret (mkResponse (jsonify_error "Unauthorized action") 403)
      else
        _ <-? try_except
                (db_session_delete (RReview review) ;;
                 db_session_commit ;;
                 ret (inr tt))
                (fun _ =>
                   db_session_rollback ;;
                   ret (inl (mkResponse (jsonify_error "Failed to delete review") 500))) ;;
        ret (mkResponse (jsonify_message "Review deleted successfully") 200)
  end.

Definition get_user (req : Request unit) (user_id : string) : App Response :=
  user <- query (Query.get_user user_id) ;;
  match user with
  | None => ret (mkResponse (jsonify_error "User not found") 404)
  | Some user => ret (mkResponse (JObj (User.to_dict user)) 200)
  end.

Definition list_users_view (req : Request unit) (_ : unit) : App Response :=
  users <- query user_table ;;
  ret (mkResponse (JList (map (fun u => JObj (User.to_dict u)) users)) 200).

Definition list_users : Request unit -> unit -> App Response :=
  admin_required list_users_view.

Definition delete_user_view (req : Request unit) (user_id : string) : App Response :=
  user <- query (Query.get_user user_id) ;;
  match user with
  | None => ret (mkResponse (jsonify_error "User not found") 404)
  | Some user =>
      _ <-? try_except
              (statement (Query.delete_reviews_of_user user_id) [] ;;
               statement (Query.disown_places user_id) [] ;;
               db_session_delete (RUser user) ;;
               db_session_commit ;;
               ret (inr tt))
              (fun _ =>
                 db_session_rollback ;;
                 ret (inl (mkResponse (jsonify_error "Failed to delete user") 500))) ;;
      ret (mkResponse (jsonify_message "User deleted successfully") 200)
  end.

Definition delete_user : Request unit -> string -> App Response :=
  admin_required delete_user_view.

End Backend.

(* ------------------------------------------------------------------ *)
(** ** A concrete environment, to run the handlers *)

Module Demo.

  (** a length-prefixed packing of a string: as many ["1"] as it has
      characters, a ["0"], then the string *)
Fixpoint ones (n : nat) (rest : string) : string :=
  match n with
  | O => rest
  | S n' => String "1" (ones n' rest)
  end.

Definition pack (s : string) : string :=
  ones (String.length s) (String "0" s).

Fixpoint tally (s : string) : option (nat * string) :=
  match s with
  | String "1" r =>
      match tally r with
      | Some (n, rest) => Some (S n, rest)
      | None => None
      end
  | String "0" r => Some (O, r)
  | _ => None
  end.

Fixpoint split_at (n : nat) (s : string) : option (string * string) :=
  match n, s with
  | O, _ => Some (EmptyString, s)
  | S n', String c r =>
      match split_at n' r with
      | Some (a, b) => Some (String c a, b)
      | None => None
      end
  | S _, EmptyString => None
  end.

Definition unpack (s : string) : option (string * string) :=
  match tally s with
  | Some (n, rest) => split_at n rest
  | None => None
  end.

Definition secret : string := "dev-secret".

  (** a token: the three packed claims, the admin flag and the tag *)
Definition encode (j : Jwt.t) : string :=
  pack (Jwt.sub j) ++ pack (Jwt.user_id j) ++ pack (Jwt.email j)
  ++ (if Jwt.is_admin j then "1" else "0") ++ secret.

Definition decode (tok : string) : option Jwt.t :=
  match unpack tok with
  | Some (sub, r1) =>
      match unpack r1 with
      | Some (uid, r2) =>
          match unpack r2 with
          | Some (email, String flag tag) =>
              if (tag =? secret)%string
              then if (flag =? "1")%char then Some (Jwt.mk sub uid email true)
                   else if (flag =? "0")%char then Some (Jwt.mk sub uid email false)
                   else None
              else None
          | _ => None
          end
      | None => None
      end
  | None => None
  end.

Definition hash (p : string) : string := "plain$" ++ p.
Definition check (h p : string) : bool := (h =? hash p)%string.

  (** the request runs alone and the storage engine does not fail *)
Definition quiet : Env :=
  mkEnv (fun _ => false) (fun s => s) encode decode hash check.

  (** the storage engine fails on statement [k] *)
Definition failing (k : nat) : Env :=
  mkEnv (Nat.eqb k) (fun s => s) encode decode hash check.

  (** another request commits [u] in the window before this one's commit *)
Definition racing (u : User.t) : Env :=
  mkEnv (fun _ => false) (fun s => with_users (user_table s ++ [u]) s)
        encode decode hash check.

  (** another request commits the review [r] in that window *)
Definition racing_review (r : Review.t) : Env :=
  mkEnv (fun _ => false) (fun s => with_reviews (review_table s ++ [r]) s)
        encode decode hash check.

Definition admin : User.t :=
  User.mk "u-admin" "Admin" "User" "admin@example.com" (hash "AdminPass123") true.
Definition demo : User.t :=
  User.mk "u-demo" "Demo" "User" "demo@example.com" (hash "DemoPass123") false.
Definition alice : User.t :=
  User.mk "u-alice" "Alice" "Doe" "alice@example.com" (hash "alice-pw") false.

Definition beach : Place.t :=
  Place.mk "p-beach" "Beautiful Beach House"
           (Some "A beautiful beach house with amazing views.") (Some 150) (Some "u-demo").
Definition cabin : Place.t :=
  Place.mk "p-cabin" "Cozy Cabin" (Some "Small cozy cabin in the woods.") (Some 100) None.

Definition r1 : Review.t := Review.mk "r-1" "u-demo" "p-cabin" "Lovely" 5.
Definition r2 : Review.t := Review.mk "r-2" "u-alice" "p-beach" "Too windy" 2.
Definition r3 : Review.t := Review.mk "r-3" "u-demo" "p-beach" "Great" 4.

Definition store : Store :=
  mkStore [admin; demo; alice] [beach; cabin] [r1; r2; r3].

Definition token_of (u : User.t) : string :=
  encode (Jwt.mk (User.id u) (User.id u) (User.email u) (User.is_admin u)).

Definition bare {B} (b : B) (m : http_method) (tok : option string) : Request B :=
  mkRequest m tok b.

End Demo.

(* ------------------------------------------------------------------ *)
(** ** Vocabulary of the statements *)

  (** the claims of the request's bearer token, when it carries one that
      verifies *)
Definition verified {B} (env : Env) (req : Request B) : option Jwt.t :=
  match authorization req with
  | None => None
  | Some tok => decode_token env tok
  end.

Definition with_jwt (claims : Jwt.t) (c : Ctx) : Ctx :=
  mkCtx (committed c) (txn c) (added c) (tick c) (Some claims).

  (** the request runs alone: no other request commits before it does *)
Definition alone (env : Env) : Prop := forall s, race env s = s.

  (** none of the first [n] write statements of the request fails *)
Definition reliable (env : Env) (n : nat) : Prop :=
  forall k, (k < n)%nat -> fails env k = false.

  (** the constraints of the schema hold in the database: primary keys and
      the unique e-mail column *)
Definition consistent (s : Store) : Prop :=
  NoDup (map User.id (user_table s)) /\
  NoDup (map User.email (user_table s)) /\
  NoDup (map Place.id (place_table s)) /\
  NoDup (map Review.id (review_table s)).

  (** no two reviews with the same user, place, text and rating *)
Definition no_duplicate_reviews (s : Store) : Prop :=
  NoDup (map Review.content (review_table s)).

  (** [email.strip().lower()] *)
Definition normalized (email : string) : string := Py.lower (Py.strip email).

Definition claims_of (u : User.t) : Jwt.t :=
  Jwt.mk (User.id u) (User.id u) (User.email u) (User.is_admin u).

  (** one call of the API *)
Inductive call : Type :=
| Login (req : Request LoginData.t)
| Register (new_id : string) (req : Request RegisterData.t)
| ListPlaces (req : Request unit)
| CreatePlace (new_id : string) (req : Request PlaceData.t)
| UpdatePlace (req : Request PlacePatch.t) (place_id : string)
| DeletePlace (req : Request unit) (place_id : string)
| GetPlace (req : Request unit) (place_id : string)
| Reviews (new_id : string) (req : Request ReviewData.t)
| ReviewsByPlace (req : Request unit) (place_id : string)
| DeleteReview (req : Request unit) (review_id : string)
| GetUser (req : Request unit) (user_id : string)
| ListUsers (req : Request unit)
| DeleteUser (req : Request unit) (user_id : string).

Definition route (env : Env) (c : call) : App Response :=
  match c with
  | Login req => login env req tt
  | Register new_id req => register env new_id req tt
  | ListPlaces req => list_places req tt
  | CreatePlace new_id req => create_place env new_id req tt
  | UpdatePlace req place_id => update_place env req place_id
  | DeletePlace req place_id => delete_place env req place_id
  | GetPlace req place_id => get_place req place_id
  | Reviews new_id req => reviews env new_id req tt
  | ReviewsByPlace req place_id => reviews_by_place req place_id
  | DeleteReview req review_id => delete_review env req review_id
  | GetUser req user_id => get_user req user_id
  | ListUsers req => list_users env req tt
  | DeleteUser req user_id => delete_user env req user_id
  end.

Definition run (env : Env) (c : call) (s : Store) : Store :=
  snd (serve (route env c) s).

Fixpoint run_all (env : Env) (cs : list call) (s : Store) : Store :=
  match cs with
  | [] => s
  | c :: cs' => run_all env cs' (run env c s)
  end.

  (** the ways one call can change the database *)
Inductive evolves (s : Store) : Store -> Prop :=
| ev_same : evolves s s
| ev_insert x :
    Query.row_ok (Query.insert_row x s) x = true ->
    match x with
    | RReview r =>
        Query.review_by_content (Review.user_id r) (Review.place_id r)
          (Review.text r) (Review.rating r) s = None
    | _ => True
    end ->
    evolves s (Query.insert_row x s)
| ev_update_place p :
    evolves s (Query.update_place p s)
| ev_delete_place p :
    evolves s (Query.delete_row (RPlace p) (Query.delete_reviews_of_place (Place.id p) s))
| ev_delete_review r :
    evolves s (Query.delete_row (RReview r) s)
| ev_delete_user u :
    evolves s (Query.delete_row (RUser u)
                 (Query.disown_places (User.id u)
                    (Query.delete_reviews_of_user (User.id u) s))).

Definition unauthenticated : Response :=
  mkResponse (jsonify_error "Authentication required") 401.
Definition forbidden : Response :=
  mkResponse (jsonify_error "Admin privileges required") 403.

(* ------------------------------------------------------------------ *)
(** ** The authorization gate *)

Section Gate.

Variable env : Env.
Context {B A : Type}.
Variable fn : Request B -> A -> App Response.
Variable req : Request B.
Variable args : A.

Lemma admin_required_eq (c : Ctx) :
  admin_required env fn req args c =
  match verified env req with
  | None => (inr unauthenticated, c)
  | Some claims =>
      if Jwt.is_admin claims then fn req args (with_jwt claims c)
      else (inr forbidden, with_jwt claims c)
  end.
Proof.
  unfold admin_required, verified, or_return, bind, try_except,
    verify_jwt_in_request, get_jwt, raise, ret.
  destruct (authorization req) as [tok|]; [|reflexivity].
  destruct (decode_token env tok) as [claims|]; [|reflexivity].
  cbn. destruct (Jwt.is_admin claims); reflexivity.
Qed.

(** C5. The gate of an admin-only operation: a request whose bearer token is
    absent or does not verify is answered 401 "Authentication required", a
    request whose token verifies with [is_admin] false is answered 403, and
    in both cases the answer and the resulting state are the same whatever
    the wrapped operation is, so it is not invoked; otherwise the wrapped
    operation runs, on the request and with the verified claims in the
    request context. *)
Theorem admin_required_gate (c : Ctx) :
  (verified env req = None ->
   admin_required env fn req args c = (inr unauthenticated, c)) /\
  (forall claims,
     verified env req = Some claims -> Jwt.is_admin claims = false ->
     admin_required env fn req args c = (inr forbidden, with_jwt claims c)) /\
  (forall claims,
     verified env req = Some claims -> Jwt.is_admin claims = true ->
     admin_required env fn req args c = fn req args (with_jwt claims c)
     /\ jwt (with_jwt claims c) = Some claims).
Proof.
  rewrite admin_required_eq.
  split; [|split].
  - intros ->. reflexivity.
  - intros claims -> ->. reflexivity.
  - intros claims -> ->. split; reflexivity.
Qed.

End Gate.

(* ------------------------------------------------------------------ *)
(** ** Seeding the database: init_db *)

Module Seed.
  (** the ids [uuid4] draws for the rows [init_db] may insert *)
Record ids : Type := mk
  { p1 : string; p2 : string; p3 : string; p4 : string;
    admin : string; demo : string; p_extra : string }.

Definition admin_email : string := "admin@example.com".
Definition admin_pw : string := "AdminPass123".
Definition demo_email : string := "demo@example.com".
Definition demo_pw : string := "DemoPass123".

Definition place1 (i : ids) : Place.t :=
  Place.mk (p1 i) "Beautiful Beach House"
    (Some "A beautiful beach house with amazing views.") (Some 150) None.
Definition place2 (i : ids) : Place.t :=
  Place.mk (p2 i) "Cozy Cabin" (Some "Small cozy cabin in the woods.") (Some 100) None.
Definition place3 (i : ids) : Place.t :=
  Place.mk (p3 i) "Modern Apartment" (Some "Central apartment, modern amenities.")
    (Some 200) None.
Definition place4 (i : ids) : Place.t :=
  Place.mk (p4 i) "Beautiful Beach"
    (Some "A second beautiful beach apartment with amazing views.") (Some 150) None.
Definition place_extra (i : ids) : Place.t :=
  Place.mk (p_extra i) "Beautiful Beach"
    (Some "A second beautiful beach apartment with amazing views.") (Some 150) None.

  (** [User.query.update({User.is_admin: False})] *)
Definition revoke_all (s : Store) : Store :=
  with_users
    (map (fun u => User.mk (User.id u) (User.first_name u) (User.last_name u)
                     (User.email u) (User.password u) false) (user_table s)) s.

  (** the UPDATE a flush emits after [admin_row.is_admin = True] *)
Definition grant (admin_row : User.t) (s : Store) : Store :=
  with_users
    (map (fun u => if (User.id u =? User.id admin_row)%string
                   then User.mk (User.id u) (User.first_name u) (User.last_name u)
                          (User.email u) (User.password u) true
                   else u) (user_table s)) s.

  (** [Place.query.filter_by(title='Beautiful Beach', price=150).first()] *)
Definition beach_exists (s : Store) : option Place.t :=
  find (fun p => ((Place.title p =? "Beautiful Beach")%string
                  && match Place.price p with
                     | Some z => (z =? 150)%Z
                     | None => false
                     end)%bool) (place_table s).
End Seed.

Section Seeding.

Variable env : Env.
Variable i : Seed.ids.

  (** [init_db] is one function of four blocks, each introduced by a comment
      of the source; they are named here after those comments. *)

  (** "seed places" *)
Definition seed_places : App unit :=
  n <- query (fun s => List.length (place_table s)) ;;
  if Nat.eqb n 0
  then
    statement env (fun s => with_places
                          (place_table s ++ [Seed.place1 i; Seed.place2 i;
                                             Seed.place3 i; Seed.place4 i]) s)
              [RPlace (Seed.place1 i); RPlace (Seed.place2 i);
               RPlace (Seed.place3 i); RPlace (Seed.place4 i)] ;;
    db_session_commit env
  else ret tt.

  (** "Ensure admin and demo accounts exist; leave existing users untouched" *)
Definition ensure_accounts : App unit :=
  admin_user <- query (Query.user_by_email Seed.admin_email) ;;
  match admin_user with
  | None =>
      let pw_hash := generate_password_hash env Seed.admin_pw in
      db_session_add env
        (RUser (User.mk (Seed.admin i) "Admin" "User" Seed.admin_email pw_hash true))
  | Some _ => ret tt
  end ;;
  demo_user <- query (Query.user_by_email Seed.demo_email) ;;
  match demo_user with
  | None =>
      let demo_hash := generate_password_hash env Seed.demo_pw in
      db_session_add env
        (RUser (User.mk (Seed.demo i) "Demo" "User" Seed.demo_email demo_hash false))
  | Some _ => ret tt
  end ;;
  db_session_commit env.

  (** "Ensure admin is the only admin: revoke is_admin for all other users" *)
Definition only_admin : App unit :=
  try_except
    (statement env Seed.revoke_all [] ;;
     db_session_commit env ;;
     admin_row <- query (Query.user_by_email Seed.admin_email) ;;
     match admin_row with
     | Some admin_row =>
         statement env (Seed.grant admin_row) [] ;;
         db_session_commit env
     | None => ret tt
     end)
    (fun _ => db_session_rollback).

  (** "Ensure the requested extra seeded place exists (idempotent)" *)
Definition ensure_extra_place : App unit :=
  try_except
    (beach_exists <- query Seed.beach_exists ;;
     match beach_exists with
     | None =>
         db_session_add env (RPlace (Seed.place_extra i)) ;;
         db_session_commit env
     | Some _ => ret tt
     end)
    (fun _ => db_session_rollback).

  (** The writing of users_list.txt, between the last two blocks, is left
      out: it is best effort, inside its own try, and touches neither the
      session nor the database. *)
Definition init_db : App unit :=
  seed_places ;;
  ensure_accounts ;;
  only_admin ;;
  ensure_extra_place.

  (** running [init_db] on a database: the exception that escapes it, if
      any, and the database it leaves *)
Definition boot (s : Store) : option exn * Store :=
  match init_db (mkCtx s (fun x => x) [] 0%nat None) with
  | (inr _, c) => (None, committed c)
  | (inl e, c) => (Some e, committed c)
  end.

End Seeding.

(* ------------------------------------------------------------------ *)
(** ** part 4/server_simple.py: the in-memory comment server *)

Module ServerSimple.

  (** a row of [reviews_db] *)
Record review : Type := mkReview
  { id : Z;
    place_id : string;
    user_name : string;
    comment : string;
    rating : Z;
    timestamp : Z }.

Definition review_to_json (r : review) : json :=
  JObj [ ("id", JInt (id r));
         ("place_id", JStr (place_id r));
         ("user_name", JStr (user_name r));
         ("comment", JStr (comment r));
         ("rating", JInt (rating r));
         ("timestamp", JInt (timestamp r)) ].

  (** the parsed body of POST /api/reviews *)
Record review_data : Type := mkReviewData
  { d_place_id : option string;
    d_comment : option string;
    d_rating : option Z;
    d_user_name : option string }.

  (** truthiness of an optional integer: [None] and 0 are falsy *)
Definition truthy_int (o : option Z) : bool :=
  match o with
  | None => false
  | Some z => negb (z =? 0)%Z
  end.

Definition error (msg : string) (code : Z) : Response :=
  mkResponse (JObj [("error", JStr msg)]) code.

  (** [handle_add_review], from the parsed body on; [now] is
      [int(time.time())] *)
Definition handle_add_review (now : Z) (data : review_data) (reviews_db : list review)
  : Response * list review :=
  let place_id := d_place_id data in
  let comment := d_comment data in
  let rating := d_rating data in
  let user_name := d_user_name data in
  if negb (Py.truthy_opt place_id && Py.truthy_opt comment
           && truthy_int rating && Py.truthy_opt user_name)%bool
  then (error "Tous les champs sont requis" 400, reviews_db)
  else
    match place_id, comment, rating, user_name with
    | Some place_id, Some comment, Some rating, Some user_name =>
        if ((rating <? 1)%Z || (rating >? 5)%Z)%bool
        then (error "La note doit être entre 1 et 5" 400, reviews_db)
        else if Nat.ltb (Py.len (Py.strip comment)) 10
        then (error "Le commentaire doit contenir au moins 10 caractères" 400, reviews_db)
        else
          let new_review :=
            mkReview (Z.of_nat (List.length reviews_db) + 1) place_id user_name
                     (Py.strip comment) rating now in
          (mkResponse (JObj [ ("success", JBool true);
                              ("message", JStr "Commentaire ajouté avec succès");
                              ("review", review_to_json new_review) ]) 201,
           (reviews_db ++ [new_review])%list)
    | _, _, _, _ => (error "Tous les champs sont requis" 400, reviews_db)
    end.

  (** [handle_api_get] for a path under /api/reviews, from the parsed query
      on: [place_id_filter] is the first value of the [place_id] parameter *)
Definition handle_api_get (place_id_filter : option string) (reviews_db : list review)
  : Response :=
  let filtered_reviews :=
    if Py.truthy_opt place_id_filter
    then filter (fun r => (place_id r =? Py.or_empty place_id_filter)%string) reviews_db
    else reviews_db in
  mkResponse (JObj [ ("success", JBool true);
                     ("reviews", JList (map review_to_json filtered_reviews));
                     ("count", JInt (Z.of_nat (List.length filtered_reviews))) ]) 200.

  (** [str.replace(old, new)] for one-character [old] and [new] *)
Fixpoint replace_char (old new : ascii) (s : string) : string :=
  match s with
  | EmptyString => EmptyString
  | String c r => String (if (c =? old)%char then new else c) (replace_char old new r)
  end.

  (** an entry of [users_db] *)
Record account : Type := mkAccount
  { password : string;
    name : string }.

Definition users_db : list (string * account) :=
  [ ("test@hbnb.com", mkAccount "password123" "Utilisateur Test");
    ("demo@hbnb.com", mkAccount "demo123" "Demo User");
    ("admin@hbnb.com", mkAccount "admin123" "Administrateur");
    ("user@example.com", mkAccount "user123" "John Doe");
    ("guest@hbnb.com", mkAccount "guest123" "Invité");
    ("marie@hbnb.com", mkAccount "marie123" "Marie Dubois");
    ("pierre@hbnb.com", mkAccount "pierre123" "Pierre Martin") ].

Definition lookup (db : list (string * account)) (email : string) : option account :=
  match find (fun kv => (fst kv =? email)%string) db with
  | Some kv => Some (snd kv)
  | None => None
  end.

  (** [handle_login], from the parsed body on, over a table of accounts *)
Definition handle_login (db : list (string * account)) (email password : option string)
  : Response :=
  match email with
  | Some email =>
      match lookup db email with
      | Some acc =>
          if eqb_opt password (ServerSimple.password acc)
          then
            let user_name := name acc in
            let token := "token_" ++ replace_char "." "_" (replace_char "@" "_" email) in
            mkResponse (JObj [ ("success", JBool true);
                               ("token", JStr token);
                               ("user_name", JStr user_name);
                               ("message", JStr ("Bienvenue, " ++ user_name ++ "!")) ]) 200
          else error "Email ou mot de passe incorrect" 401
      | None => error "Email ou mot de passe incorrect" 401
      end
  | None => error "Email ou mot de passe incorrect" 401
  end.

End ServerSimple.

(* ------------------------------------------------------------------ *)
(** ** part4/Backend/mock_server.py: the reviews of the mock server *)

From Stdlib Require DecimalString DecimalNat.

Module MockServer.

  (** an element of [REVIEWS] *)
Record review : Type := mkReview
  { id : string;
    text : string;
    rating : Z;
    user_id : string;
    place_id : string }.

Definition review_to_json (r : review) : json :=
  JObj [ ("id", JStr (id r));
         ("text", JStr (text r));
         ("rating", JInt (rating r));
         ("user_id", JStr (user_id r));
         ("place_id", JStr (place_id r)) ].

  (** the body of POST /api/v1/reviews/ *)
Record review_data : Type := mkReviewData
  { d_text : option string;
    d_rating : option Z;
    d_user_id : option string;
    d_place_id : option string }.

  (** [str(n)] for a natural number *)
Definition str_nat (n : nat) : string :=
  DecimalString.NilZero.string_of_uint (Nat.to_uint n).

  (** the loop over [REVIEWS] that looks for a review of the same user on
      the same place *)
Definition already_reviewed (user_id place_id : string) (REVIEWS : list review) : bool :=
  existsb (fun r => ((MockServer.user_id r =? user_id)%string
                     && (MockServer.place_id r =? place_id)%string)%bool) REVIEWS.

Definition reviews_list (method : http_method) (data : review_data) (REVIEWS : list review)
  : Response * list review :=
  match method with
  | GET => (mkResponse (JList (map review_to_json REVIEWS)) 200, REVIEWS)
  | _ =>
      match d_text data, d_rating data, d_user_id data, d_place_id data with
      | Some text, Some rating, Some user_id, Some place_id =>
          if negb (Py.truthy text && ServerSimple.truthy_int (Some rating)
                   && Py.truthy user_id && Py.truthy place_id)%bool
          then (mkResponse (jsonify_error "Missing fields") 400, REVIEWS)
          else if already_reviewed user_id place_id REVIEWS
          then (mkResponse (jsonify_error "You have already reviewed this place") 400,
                REVIEWS)
          else
            let new := mkReview ("r" ++ str_nat (List.length REVIEWS + 1))
                                text rating user_id place_id in
            (mkResponse (review_to_json new) 201, (REVIEWS ++ [new])%list)
      | _, _, _, _ => (mkResponse (jsonify_error "Missing fields") 400, REVIEWS)
      end
  end.

  (** [reviews_by_place]; of a place only its id is read, so [PLACES] is the
      list of the ids *)
Definition reviews_by_place (place_id : string) (PLACES : list string)
  (REVIEWS : list review) : Response :=
  match find (fun x => (x =? place_id)%string) PLACES with
  | None => mkResponse (jsonify_error "Place not found") 404
  | Some _ =>
      mkResponse
        (JList (map review_to_json
                  (filter (fun r => (MockServer.place_id r =? place_id)%string) REVIEWS)))
        200
  end.

End MockServer.

(* ------------------------------------------------------------------ *)
(** ** part4/Backend/app/models/user.py: passwords of the User model *)

Module UserModel.

  (** What the model reads of the [bcrypt] object it was given: Flask-Bcrypt
      has [generate_password_hash] and [check_password_hash], the plain
      bcrypt module has [hashpw], [gensalt] and [checkpw]; [hasattr] tells
      which. A method that the object lacks and the model calls raises
      [AttributeError]. *)
Record bcrypt : Type := mkBcrypt
  { generate_password_hash : option (string -> string);
    check_password_hash : option (string -> string -> bool);
    hashpw : option (string -> string -> string);
    gensalt : option string;              (* the salt the next call draws *)
    checkpw : option (string -> string -> bool) }.

Inductive outcome (A : Type) : Type :=
| Returned (a : A)
| AttributeError.
Arguments Returned {A}.
Arguments AttributeError {A}.

  (** [hash_password]: the new value of [self.password] *)
Definition hash_password (b : bcrypt) (password : string) : outcome string :=
  match generate_password_hash b with
  | Some generate => Returned (generate password)
  | None =>
      match hashpw b, gensalt b with
      | Some hashpw, Some salt => Returned (hashpw password salt)
      | _, _ => AttributeError
      end
  end.

  (** [verify_password], on [self.password] ([None] when it is not set) *)
Definition verify_password (b : bcrypt) (self_password : option string)
  (password : string) : outcome bool :=
  if negb (Py.truthy_opt self_password) then Returned false
  else
    match check_password_hash b with
    | Some check => Returned (check (Py.or_empty self_password) password)
    | None =>
        match checkpw b with
        | Some checkpw => Returned (checkpw password (Py.or_empty self_password))
        | None => AttributeError
        end
    end.

Definition check_password (b : bcrypt) (self_password : option string)
  (password : string) : outcome bool :=
  verify_password b self_password password.

  (** [to_dict]: [result] is what the base model's [to_dict] returned, a
      dictionary as the list of its items *)
Definition to_dict (result : list (string * json)) : list (string * json) :=
  filter (fun kv => negb (fst kv =? "password")%string) result.

End UserModel.

(* ------------------------------------------------------------------ *)
(** ** Further vocabulary: callers and the steps of the API *)

  (** the storage engine never fails *)
Definition never_fails (env : Env) : Prop := forall k, fails env k = false.

  (** the bearer token a call carries *)
Definition bearer (c : call) : option string :=
  match c with
  | Login req => authorization req
  | Register _ req => authorization req
  | ListPlaces req => authorization req
  | CreatePlace _ req => authorization req
  | UpdatePlace req _ => authorization req
  | DeletePlace req _ => authorization req
  | GetPlace req _ => authorization req
  | Reviews _ req => authorization req
  | ReviewsByPlace req _ => authorization req
  | DeleteReview req _ => authorization req
  | GetUser req _ => authorization req
  | ListUsers req => authorization req
  | DeleteUser req _ => authorization req
  end.

  (** the verified claims of the caller, when there are some *)
Definition caller (env : Env) (c : call) : option Jwt.t :=
  match bearer c with
  | None => None
  | Some tok => decode_token env tok
  end.

Definition is_register (c : call) : bool :=
  match c with
  | Register _ _ => true
  | _ => false
  end.

  (** the calls that only read *)
Definition reads (c : call) : bool :=
  match c with
  | Login _ | ListPlaces _ | GetPlace _ _ | ReviewsByPlace _ _
  | GetUser _ _ | ListUsers _ => true
  | Reviews _ req =>
      match method req with
      | GET => true
      | _ => false
      end
  | _ => false
  end.

  (** every review is on a stored place *)
Definition references_ok (s : Store) : Prop :=
  forall r, In r (review_table s) ->
            exists p, In p (place_table s) /\ Place.id p = Review.place_id r.

  (** one call of the API changes the database in one of these ways *)
Inductive changes (s : Store) : Store -> Prop :=
| ch_same : changes s s
| ch_register u :
    Query.row_ok (Query.insert_row (RUser u) s) (RUser u) = true ->
    User.is_admin u = false ->
    normalized (User.email u) = User.email u ->
    changes s (Query.insert_row (RUser u) s)
| ch_create_place p :
    Query.row_ok (Query.insert_row (RPlace p) s) (RPlace p) = true ->
    Place.owner_id p = None ->
    changes s (Query.insert_row (RPlace p) s)
| ch_create_review r p :
    Query.row_ok (Query.insert_row (RReview r) s) (RReview r) = true ->
    Query.get_place (Review.place_id r) s = Some p ->
    Py.strip (Review.text r) = Review.text r ->
    changes s (Query.insert_row (RReview r) s)
| ch_update_place old p :
    Query.get_place (Place.id p) s = Some old ->
    Place.id old = Place.id p ->
    Place.owner_id p = Place.owner_id old ->
    changes s (Query.update_place p s)
| ch_delete_place p :
    changes s (Query.delete_row (RPlace p) (Query.delete_reviews_of_place (Place.id p) s))
| ch_delete_review r :
    changes s (Query.delete_row (RReview r) s)
| ch_delete_user u :
    changes s (Query.delete_row (RUser u)
                 (Query.disown_places (User.id u)
                    (Query.delete_reviews_of_user (User.id u) s))).

(* ------------------------------------------------------------------ *)
(** ** Sequences of requests to the in-memory servers *)

  (** the comments held by server_simple.py after the POSTs of [posts], each
      with the time at which it is handled, on an empty [reviews_db] *)
Fixpoint simple_posts (posts : list (Z * ServerSimple.review_data))
  (reviews_db : list ServerSimple.review) : list ServerSimple.review :=
  match posts with
  | [] => reviews_db
  | (now, data) :: rest =>
      simple_posts rest (snd (ServerSimple.handle_add_review now data reviews_db))
  end.

  (** the reviews held by mock_server.py after a sequence of requests to
      its reviews route *)
Fixpoint mock_requests (reqs : list (http_method * MockServer.review_data))
  (REVIEWS : list MockServer.review) : list MockServer.review :=
  match reqs with
  | [] => REVIEWS
  | (m, data) :: rest => mock_requests rest (snd (MockServer.reviews_list m data REVIEWS))
  end.

  (** what server_simple.py accepts of a comment *)
Definition simple_valid (r : ServerSimple.review) : Prop :=
  (1 <= ServerSimple.rating r <= 5)%Z /\
  (10 <= Py.len (ServerSimple.comment r))%nat /\
  Py.strip (ServerSimple.comment r) = ServerSimple.comment r /\
  ServerSimple.place_id r <> "" /\
  ServerSimple.user_name r <> "".

(* ------------------------------------------------------------------ *)
(** ** The primitives on examples *)

Example strip_blanks : Py.strip "  a b	 " = "a b".
Proof. reflexivity. Qed.

Example strip_only_blanks : Py.strip "   " = "".
Proof. reflexivity. Qed.

Example normalized_email : normalized " Demo@Example.COM " = "demo@example.com".
Proof. reflexivity. Qed.

  (** [int(12.5)] and [int(-12.5)] (12.5 is 25 * 2^-1), [int(inf)],
      [int(nan)], and the integers sqlite3 binds *)
Example int_truncates :
  Py.int (Float (SpecFloat.S754_finite false 25 (-1))) = inr 12 /\
  Py.int (Float (SpecFloat.S754_finite true 25 (-1))) = inr (-12) /\
  Py.int (Float (SpecFloat.S754_infinity false)) = inl OverflowError /\
  Py.int (Float SpecFloat.S754_nan) = inl ValueError /\
  Query.fits_integer 9223372036854775807 = true /\
  Query.fits_integer 9223372036854775808 = false /\
  Query.fits_integer (-9223372036854775808) = true.
Proof. repeat split. Qed.

Example amenities_beach :
  Place.amenities Demo.beach = ["WiFi"; "Sea view"; "Air conditioning"].
Proof. reflexivity. Qed.

Example amenities_none :
  Place.amenities (Place.mk "p" "Studio" None (Some 35) None) = [].
Proof. reflexivity. Qed.

  (** the demonstration codec decodes what it encodes, and nothing whose tag
      is not the secret *)
Lemma tally_ones (n : nat) (rest : string) :
  Demo.tally (Demo.ones n (String "0" rest)) = Some (n, rest).
Proof. induction n as [|n IH]; cbn; [reflexivity | now rewrite IH]. Qed.

Lemma ones_append (n : nat) (a b : string) :
  (Demo.ones n a ++ b)%string = Demo.ones n (a ++ b).
Proof. induction n as [|n IH]; cbn; [reflexivity | now rewrite IH]. Qed.

Lemma split_at_append (a b : string) :
  Demo.split_at (String.length a) (a ++ b) = Some (a, b).
Proof. induction a as [|c a IH]; cbn; [reflexivity | now rewrite IH]. Qed.

Lemma unpack_pack (a rest : string) :
  Demo.unpack (Demo.pack a ++ rest) = Some (a, rest).
Proof.
  unfold Demo.unpack, Demo.pack. rewrite ones_append. cbn.
  rewrite tally_ones. apply split_at_append.
Qed.

Lemma demo_codec_round_trip (j : Jwt.t) : Demo.decode (Demo.encode j) = Some j.
Proof.
  destruct j as [sub uid email adm].
  unfold Demo.decode, Demo.encode. cbn [Jwt.sub Jwt.user_id Jwt.email Jwt.is_admin].
  rewrite !unpack_pack. destruct adm; cbn; reflexivity.
Qed.

Example demo_codec_rejects_forged_tag :
  Demo.decode "10a10a10a1forged" = None.
Proof. reflexivity. Qed.

(* ------------------------------------------------------------------ *)
(** ** Rows, keys and counts *)

Lemma get_place_of_In (P : Place.t) (s : Store) :
  In P (place_table s) ->
  exists p, Query.get_place (Place.id P) s = Some p /\ Place.id p = Place.id P.
Proof.
  unfold Query.get_place. intros HIn.
  destruct (find (fun p => (Place.id p =? Place.id P)%string) (place_table s))
    as [p|] eqn:Hfind.
  - exists p. split; [reflexivity|].
    apply find_some in Hfind. now apply String.eqb_eq.
  - exfalso. apply (find_none _ _ Hfind) in HIn.
    now rewrite String.eqb_refl in HIn.
Qed.

Lemma store_eta (s : Store) :
  mkStore (user_table s) (place_table s) (review_table s) = s.
Proof. now destruct s. Qed.

Lemma get_user_of_In (U : User.t) (s : Store) :
  In U (user_table s) ->
  exists u, Query.get_user (User.id U) s = Some u /\ User.id u = User.id U.
Proof.
  unfold Query.get_user. intros HIn.
  destruct (find (fun u => (User.id u =? User.id U)%string) (user_table s))
    as [u|] eqn:Hfind.
  - exists u. split; [reflexivity|].
    apply find_some in Hfind. now apply String.eqb_eq.
  - exfalso. apply (find_none _ _ Hfind) in HIn.
    now rewrite String.eqb_refl in HIn.
Qed.

Section Keys.

Context {A : Type}.
Variable key : A -> string.

Lemma find_by_key (l : list A) (x : A) :
  NoDup (map key l) -> In x l ->
  find (fun y => (key y =? key x)%string) l = Some x.
Proof.
  induction l as [|a l IH]; cbn; [easy|].
  intros Hnd [-> | HIn].
  - now rewrite String.eqb_refl.
  - inversion Hnd as [|? ? Hnotin Hnd']; subst.
    destruct (String.eqb_spec (key a) (key x)) as [E|_]; [|now apply IH].
    exfalso. apply Hnotin. rewrite E. now apply in_map.
Qed.

Lemma filter_out_key (l : list A) (x y : A) :
  NoDup (map key l) -> In x l ->
  In y (filter (fun q => negb (key q =? key x)%string) l) <-> In y l /\ y <> x.
Proof.
  intros Hnd Hx. rewrite filter_In. split; intros [Hy H]; split; trivial.
  - intros ->. now rewrite String.eqb_refl in H.
  - destruct (String.eqb_spec (key y) (key x)) as [E|_]; [|reflexivity].
    exfalso. apply H. clear H.
    induction l as [|a l IH]; [easy|].
    cbn in Hnd. inversion Hnd as [|? ? Hnotin Hnd']; subst.
    destruct Hx as [-> | Hx], Hy as [-> | Hy]; trivial.
    + exfalso. apply Hnotin. rewrite <- E. now apply in_map.
    + exfalso. apply Hnotin. rewrite E. now apply in_map.
    + now apply IH.
Qed.

End Keys.

Section Counting.

Context {A : Type}.
Variable key : A -> string.

Lemma count_unique (l : list A) (x : A) :
  NoDup (map key l) -> In x l ->
  Query.count (fun q => (key q =? key x)%string) l = 1%nat.
Proof.
  unfold Query.count. induction l as [|a l IH]; [easy|].
  cbn. intros Hnd HIn. inversion Hnd as [|? ? Hnotin Hnd']; subst.
  destruct (String.eqb_spec (key a) (key x)) as [E|N].
  - cbn. f_equal.
    replace (filter (fun q => (key q =? key x)%string) l) with (@nil A); [reflexivity|].
    symmetry. clear IH HIn Hnd Hnd'. induction l as [|b l IH]; [reflexivity|]. cbn.
    destruct (String.eqb_spec (key b) (key x)) as [E'|_].
    + exfalso. apply Hnotin. left. congruence.
    + apply IH. intros H. apply Hnotin. now right.
  - destruct HIn as [-> | HIn]; [contradiction|]. now apply IH.
Qed.

Lemma count_app_last (l : list A) (x : A) (k : string) :
  key x = k ->
  Query.count (fun q => (key q =? k)%string) (l ++ [x])
  = S (Query.count (fun q => (key q =? k)%string) l).
Proof.
  unfold Query.count. intros <-. rewrite filter_app, length_app. cbn.
  rewrite String.eqb_refl. cbn. lia.
Qed.

End Counting.

Lemma count_fresh {A : Type} (key : A -> string) (l : list A) (x : A) (k : string) :
  key x = k ->
  (forall y, In y l -> key y <> k) ->
  Query.count (fun q => (key q =? k)%string) (l ++ [x]) = 1%nat.
Proof.
  unfold Query.count. intros <- Hfresh. rewrite filter_app, length_app. cbn.
  rewrite String.eqb_refl. cbn.
  replace (filter (fun q => (key q =? key x)%string) l) with (@nil A); [reflexivity|].
  symmetry. induction l as [|a l IH]; [reflexivity|]. cbn.
  destruct (String.eqb_spec (key a) (key x)) as [E|_].
  - exfalso. apply (Hfresh a); [now left | exact E].
  - apply IH. intros y Hy. apply Hfresh. now right.
Qed.

Lemma review_by_content_some (u p t : string) (n : Z) (s : Store) :
  (exists r, In r (review_table s) /\ Review.content r = (u, p, t, n)) ->
  exists r, Query.review_by_content u p t n s = Some r.
Proof.
  unfold Query.review_by_content. intros (r & HIn & Hc).
  destruct (find (Query.same_content u p t n) (review_table s)) as [r'|] eqn:F.
  - now exists r'.
  - exfalso. apply (find_none _ _ F) in HIn.
    unfold Query.same_content, Review.content in *.
    injection Hc as E1 E2 E3 E4. rewrite E1, E2, E3, E4 in HIn.
    now rewrite !String.eqb_refl, Z.eqb_refl in HIn.
Qed.

Lemma review_by_content_none (u p t : string) (n : Z) (s : Store) :
  Query.review_by_content u p t n s = None <->
  (forall r, In r (review_table s) -> Review.content r <> (u, p, t, n)).
Proof.
  unfold Query.review_by_content. split.
  - intros F r HIn Hc. apply (find_none _ _ F) in HIn.
    unfold Query.same_content, Review.content in *.
    injection Hc as E1 E2 E3 E4. rewrite E1, E2, E3, E4 in HIn.
    now rewrite !String.eqb_refl, Z.eqb_refl in HIn.
  - intros H.
    destruct (find (Query.same_content u p t n) (review_table s)) as [r|] eqn:F;
      [|reflexivity].
    apply find_some in F. destruct F as [HIn E]. exfalso. apply (H r HIn).
    unfold Query.same_content, Review.content in *.
    apply andb_prop in E. destruct E as [E E4].
    apply andb_prop in E. destruct E as [E E3].
    apply andb_prop in E. destruct E as [E1 E2].
    apply String.eqb_eq in E1, E2, E3. apply Z.eqb_eq in E4. congruence.
Qed.

(* ------------------------------------------------------------------ *)
(** ** What every call keeps true of the database *)

Section ListFacts.

Context {A K : Type}.
Variable key : A -> K.

Lemma NoDup_map_filter (f : A -> bool) (l : list A) :
  NoDup (map key l) -> NoDup (map key (filter f l)).
Proof.
  induction l as [|a l IH]; cbn; [easy|].
  intros Hnd. inversion Hnd as [|? ? Hnotin Hnd']; subst.
  destruct (f a); cbn; [constructor|]; auto.
  intros HIn. apply Hnotin.
  apply in_map_iff in HIn. destruct HIn as (y & Hy & HIn).
  apply filter_In in HIn. rewrite <- Hy. apply in_map. tauto.
Qed.

End ListFacts.

Lemma count_zero_fresh {A : Type} (key : A -> string) (l : list A) (k : string) :
  Query.count (fun q => (key q =? k)%string) l = 0%nat -> ~ In k (map key l).
Proof.
  unfold Query.count. induction l as [|a l IH]; cbn; [tauto|].
  destruct (String.eqb_spec (key a) k) as [E|N]; cbn; [discriminate|].
  intros H [Ha | HIn]; [contradiction | now apply IH].
Qed.

Lemma NoDup_insert {A : Type} (key : A -> string) (l : list A) (x : A) :
  Nat.eqb (Query.count (fun q => (key q =? key x)%string) (l ++ [x])) 1 = true ->
  NoDup (map key l) -> NoDup (map key (l ++ [x])).
Proof.
  intros Hcount Hnd. apply Nat.eqb_eq in Hcount.
  rewrite (count_app_last key l x (key x) eq_refl) in Hcount.
  injection Hcount as Hcount. apply count_zero_fresh in Hcount.
  rewrite map_app. cbn. apply NoDup_app; [exact Hnd | repeat constructor; easy |].
  intros k Hk [<- | []]. contradiction.
Qed.

Lemma evolves_consistent (s s' : Store) :
  evolves s s' -> consistent s -> consistent s'.
Proof.
  intros Hev (Hu & He & Hp & Hr).
  destruct Hev as [ | x Hok _ | p | p | r | u ]; unfold consistent; cbn.
  - tauto.
  - destruct x as [u | p | r]; cbn in *.
    + apply andb_prop in Hok. destruct Hok as [Hid Hemail].
      repeat split; trivial; now apply NoDup_insert.
    + repeat split; trivial; now apply NoDup_insert.
    + repeat split; trivial; now apply NoDup_insert.
  - repeat split; trivial.
    rewrite map_map.
    replace (map _ (place_table s)) with (map Place.id (place_table s)); [exact Hp|].
    apply map_ext_in. intros q _.
    destruct (String.eqb_spec (Place.id q) (Place.id p)); congruence.
  - repeat split; trivial; now apply NoDup_map_filter.
  - repeat split; trivial; now apply NoDup_map_filter.
  - repeat split; try (now apply NoDup_map_filter).
    rewrite map_map.
    replace (map _ (place_table s)) with (map Place.id (place_table s)); [exact Hp|].
    apply map_ext. intros q. now destruct (eqb_opt _ _).
Qed.

Lemma evolves_no_duplicates (s s' : Store) :
  evolves s s' -> no_duplicate_reviews s -> no_duplicate_reviews s'.
Proof.
  unfold no_duplicate_reviews.
  intros Hev Hnd.
  destruct Hev as [ | x _ Hnew | p | p | r | u ]; cbn; trivial;
    try (now apply NoDup_map_filter).
  destruct x as [u | p | r]; cbn; trivial.
  rewrite map_app. cbn. apply NoDup_app; [exact Hnd | repeat constructor; easy |].
  intros c Hc [<- | []].
  apply in_map_iff in Hc. destruct Hc as (q & Hq & HIn).
  now apply (proj1 (review_by_content_none _ _ _ _ _) Hnew q HIn).
Qed.

Ltac unfold_app :=
  unfold or_return, bind, try_except, verify_jwt_in_request, get_jwt_identity,
    get_jwt, bind, query_binding, query, view, db_session_add, db_session_delete,
    db_session_commit, db_session_rollback, statement, eval, raise, ret, with_jwt.

  (** the constraint check of a row that an UPDATE wrote *)
Ltac split_update :=
  match goal with
  | |- context [(Nat.eqb ?a 1 && true)%bool] => destruct (Nat.eqb a 1 && true)%bool
  end.

Ltac split_run :=
  repeat (cbn;
          match goal with
          | |- context [match ?x with _ => _ end] =>
              lazymatch x with
              | context [match _ with _ => _ end] => fail
              | _ => destruct x eqn:?
              end
          end).

Section Evolution.

Variable env : Env.
Hypothesis Halone : alone env.

Lemma admin_required_evolves {B A} (fn : Request B -> A -> App Response)
  (req : Request B) (args : A) (s : Store) :
  (forall claims,
     evolves s (snd (let (r, c) := fn req args (mkCtx s (fun x => x) [] 0%nat (Some claims)) in
                     match r with
                     | inr resp => (resp, committed c)
                     | inl _ => (internal_server_error, committed c)
                     end))) ->
  evolves s (snd (serve (admin_required env fn req args) s)).
Proof.
  intros H. unfold serve. rewrite admin_required_eq.
  destruct (verified env req) as [claims|]; [|constructor].
  destruct (Jwt.is_admin claims); [apply H | constructor].
Qed.

Lemma get_place_id place_id s p :
  Query.get_place place_id s = Some p -> Place.id p = place_id.
Proof. intros H. apply find_some in H. now apply String.eqb_eq. Qed.

Lemma get_user_id user_id s u :
  Query.get_user user_id s = Some u -> User.id u = user_id.
Proof. intros H. apply find_some in H. now apply String.eqb_eq. Qed.

Lemma delete_place_evolves req place_id s :
  evolves s (snd (serve (delete_place env req place_id) s)).
Proof.
  apply admin_required_evolves. intros claims.
  unfold delete_place_view. unfold_app. split_run; rewrite ?Halone; try constructor.
  cbn. match goal with H : Query.get_place _ _ = Some _ |- _ =>
    rewrite <- (get_place_id _ _ _ H) end.
  apply ev_delete_place.
Qed.

Lemma delete_user_evolves req user_id s :
  evolves s (snd (serve (delete_user env req user_id) s)).
Proof.
  apply admin_required_evolves. intros claims.
  unfold delete_user_view. unfold_app. split_run; rewrite ?Halone; try constructor.
  cbn. match goal with H : Query.get_user _ _ = Some _ |- _ =>
    rewrite <- (get_user_id _ _ _ H) end.
  apply ev_delete_user.
Qed.

Lemma update_place_evolves req place_id s :
  evolves s (snd (serve (update_place env req place_id) s)).
Proof.
  apply admin_required_evolves. intros claims.
  unfold update_place_view. unfold_app. split_run; rewrite ?Halone; try constructor.
  all: split_update; cbn; constructor.
Qed.

Lemma create_place_evolves new_id req s :
  evolves s (snd (serve (create_place env new_id req tt) s)).
Proof.
  apply admin_required_evolves. intros claims.
  unfold create_place_view. unfold_app. split_run; rewrite ?Halone in *; try constructor.
  match goal with |- evolves _ (snd (_, committed (mkCtx (with_places (_ ++ [?p]) _) _ _ _ _))) =>
    apply (ev_insert s (RPlace p)) end; [|exact I].
  cbn in *. now rewrite andb_true_r in *.
Qed.

Lemma delete_review_evolves req review_id s :
  evolves s (snd (serve (delete_review env req review_id) s)).
Proof.
  unfold serve, delete_review. unfold_app. split_run; rewrite ?Halone; try constructor.
Qed.

Lemma reviews_evolves new_id req s :
  evolves s (snd (serve (reviews env new_id req tt) s)).
Proof.
  unfold serve, reviews. unfold_app. split_run; rewrite ?Halone in *; try constructor.
  all: match goal with |- evolves _ (snd (_, committed (mkCtx (with_reviews (_ ++ [?r]) _) _ _ _ _))) =>
    apply (ev_insert s (RReview r)) end; cbn in *; try assumption;
    now rewrite andb_true_r in *.
Qed.

Lemma register_evolves new_id req s :
  evolves s (snd (serve (register env new_id req tt) s)).
Proof.
  unfold serve, register. unfold_app. split_run; rewrite ?Halone in *; try constructor.
  all: match goal with |- evolves _ (snd (_, committed (mkCtx (with_users (_ ++ [?u]) _) _ _ _ _))) =>
    apply (ev_insert s (RUser u)) end; cbn in *; try exact I;
    now rewrite andb_true_r in *.
Qed.

  (** every call of the API changes the database in one of the ways of
      [evolves] *)
Lemma run_evolves (c : call) (s : Store) : evolves s (run env c s).
Proof.
  destruct c; unfold run, route.
  - unfold serve, login. unfold_app. split_run; constructor.
  - apply register_evolves.
  - constructor.
  - apply create_place_evolves.
  - apply update_place_evolves.
  - apply delete_place_evolves.
  - unfold serve, get_place. unfold_app. split_run; constructor.
  - apply reviews_evolves.
  - unfold serve, reviews_by_place. unfold_app. split_run; constructor.
  - apply delete_review_evolves.
  - unfold serve, get_user. unfold_app. split_run; constructor.
  - apply admin_required_evolves. intros claims. constructor.
  - apply delete_user_evolves.
Qed.

Lemma run_all_consistent (cs : list call) (s : Store) :
  consistent s -> consistent (run_all env cs s).
Proof.
  revert s. induction cs as [|c cs IH]; intros s Hs; [exact Hs|].
  cbn. apply IH. exact (evolves_consistent _ _ (run_evolves c s) Hs).
Qed.

Lemma run_all_no_duplicates (cs : list call) (s : Store) :
  no_duplicate_reviews s -> no_duplicate_reviews (run_all env cs s).
Proof.
  revert s. induction cs as [|c cs IH]; intros s Hs; [exact Hs|].
  cbn. apply IH. exact (evolves_no_duplicates _ _ (run_evolves c s) Hs).
Qed.

End Evolution.

(* ------------------------------------------------------------------ *)
(** ** Deleting a place *)

Section DeletePlace.

Variable env : Env.
Variable req : Request unit.
Variable claims : Jwt.t.
Variable P : Place.t.
Variable s : Store.

Hypothesis Halone : alone env.
Hypothesis Hverified : verified env req = Some claims.
Hypothesis Hadmin : Jwt.is_admin claims = true.
Hypothesis HP : In P (place_table s).

(** C1. An admin's Delete Place on the id of a stored place [P]: when no
    statement fails the answer is 200, [P] is gone and so is every review
    whose [place_id] is [P]'s id, all other rows being kept (also when no
    review refers to [P]); when a statement of the deletion fails (the bulk
    delete of the reviews, the delete of the place or the commit) the answer
    is 500 and the database is what it was. *)
Theorem delete_place_cascade_atomic :
  let out := serve (delete_place env req (Place.id P)) s in
  (reliable env 3 ->
   fst out = mkResponse (jsonify_message "Place deleted successfully") 200 /\
   place_table (snd out)
     = filter (fun q => negb (Place.id q =? Place.id P)%string) (place_table s) /\
   review_table (snd out)
     = filter (fun r => negb (Review.place_id r =? Place.id P)%string) (review_table s) /\
   user_table (snd out) = user_table s /\
   ~ In P (place_table (snd out)) /\
   (forall r, In r (review_table (snd out)) -> Review.place_id r <> Place.id P)) /\
  ((exists k, (k < 3)%nat /\ fails env k = true) ->
   fst out = mkResponse (jsonify_error "Failed to delete place") 500 /\
   snd out = s).
Proof.
  destruct (get_place_of_In P s HP) as (p & Hget & Hid).
  unfold serve, delete_place. rewrite admin_required_eq, Hverified, Hadmin.
  unfold delete_place_view, or_return, bind, try_except, query, view,
    db_session_delete, db_session_commit, db_session_rollback, statement, ret.
  cbn. rewrite Hget. cbn.
  destruct (fails env 0) eqn:F0; cbn.
  { split; [intros R; now rewrite (R 0%nat) in F0 by lia | intros _; now split]. }
  destruct (fails env 1) eqn:F1; cbn.
  { split; [intros R; now rewrite (R 1%nat) in F1 by lia | intros _; now split]. }
  destruct (fails env 2) eqn:F2; cbn.
  { rewrite Halone.
    split; [intros R; now rewrite (R 2%nat) in F2 by lia | intros _; now split]. }
  rewrite Halone, Hid. split.
  - intros _. repeat split.
    + intros HIn. apply filter_In in HIn. destruct HIn as [_ HIn].
      now rewrite String.eqb_refl in HIn.
    + intros r HIn Heq. apply filter_In in HIn. destruct HIn as [_ HIn].
      rewrite Heq, String.eqb_refl in HIn. discriminate.
  - intros (k & Hk & Fk).
    assert (k = 0 \/ k = 1 \/ k = 2)%nat as [-> | [-> | ->]] by lia; congruence.
Qed.

End DeletePlace.

(* ------------------------------------------------------------------ *)
(** ** Deleting an identity *)

Section DeleteUser.

Variable env : Env.
Variable req : Request unit.
Variable claims : Jwt.t.
Variable U : User.t.
Variable s : Store.

Hypothesis Halone : alone env.
Hypothesis Hverified : verified env req = Some claims.
Hypothesis Hadmin : Jwt.is_admin claims = true.
Hypothesis HU : In U (user_table s).

(** C2. An admin's Delete Identity on the id of a stored identity [U]: when
    no statement fails the answer is 200, every review whose [user_id] is
    [U]'s id is gone, every place whose [owner_id] is [U]'s id is kept with
    [owner_id] null and its other fields as they were, the other places are
    untouched, and [U] is gone; when one of the four statements (the two
    bulk statements, the delete of the identity, the commit) fails the
    answer is 500 and the database is what it was. *)
Theorem delete_user_cascade_atomic :
  let out := serve (delete_user env req (User.id U)) s in
  (reliable env 4 ->
   fst out = mkResponse (jsonify_message "User deleted successfully") 200 /\
   review_table (snd out)
     = filter (fun r => negb (Review.user_id r =? User.id U)%string) (review_table s) /\
   place_table (snd out)
     = map (fun p => if eqb_opt (Place.owner_id p) (User.id U)
                     then Place.mk (Place.id p) (Place.title p) (Place.description p)
                                   (Place.price p) None
                     else p) (place_table s) /\
   user_table (snd out)
     = filter (fun u => negb (User.id u =? User.id U)%string) (user_table s) /\
   (forall r, In r (review_table (snd out)) -> Review.user_id r <> User.id U) /\
   map Place.id (place_table (snd out)) = map Place.id (place_table s) /\
   (forall p, In p (place_table (snd out)) -> Place.owner_id p <> Some (User.id U)) /\
   ~ In U (user_table (snd out))) /\
  ((exists k, (k < 4)%nat /\ fails env k = true) ->
   fst out = mkResponse (jsonify_error "Failed to delete user") 500 /\
   snd out = s).
Proof.
  destruct (get_user_of_In U s HU) as (u & Hget & Hid).
  unfold serve, delete_user. rewrite admin_required_eq, Hverified, Hadmin.
  unfold delete_user_view, or_return, bind, try_except, query, view,
    db_session_delete, db_session_commit, db_session_rollback, statement, ret.
  cbn. rewrite Hget. cbn.
  destruct (fails env 0) eqn:F0; cbn.
  { split; [intros R; now rewrite (R 0%nat) in F0 by lia | intros _; now split]. }
  destruct (fails env 1) eqn:F1; cbn.
  { split; [intros R; now rewrite (R 1%nat) in F1 by lia | intros _; now split]. }
  destruct (fails env 2) eqn:F2; cbn.
  { split; [intros R; now rewrite (R 2%nat) in F2 by lia | intros _; now split]. }
  destruct (fails env 3) eqn:F3; cbn.
  { rewrite Halone.
    split; [intros R; now rewrite (R 3%nat) in F3 by lia | intros _; now split]. }
  rewrite Halone, Hid. split.
  - intros _. repeat split.
    + intros r HIn Heq. apply filter_In in HIn. destruct HIn as [_ HIn].
      rewrite Heq, String.eqb_refl in HIn. discriminate.
    + rewrite map_map. apply map_ext. intros p.
      now destruct (eqb_opt (Place.owner_id p) (User.id U)).
    + intros p HIn Hown. apply in_map_iff in HIn. destruct HIn as (q & Hq & _).
      destruct (eqb_opt (Place.owner_id q) (User.id U)) eqn:E; subst p.
      * discriminate.
      * rewrite Hown in E. cbn in E. now rewrite String.eqb_refl in E.
    + intros HIn. apply filter_In in HIn. destruct HIn as [_ HIn].
      now rewrite String.eqb_refl in HIn.
  - intros (k & Hk & Fk).
    assert (k = 0 \/ k = 1 \/ k = 2 \/ k = 3)%nat as [-> | [-> | [-> | ->]]] by lia;
      congruence.
Qed.

End DeleteUser.

(* ------------------------------------------------------------------ *)
(** ** Creating a review *)

(** C3, counterexample. The store holds the review ("u-demo", "p-beach",
    "Great", 4); the same user submits, for the same place and with the same
    rating, the text "Great " (one trailing blank). The submitted tuple
    differs in its text from every stored one, and yet the request is
    answered 409 and nothing is stored. *)
Lemma reviews_rejects_trimmed_duplicate :
  let req := Demo.bare (ReviewData.mk (Some "p-beach") (Some "Great ") (Some (Int 4))) POST
               (Some (Demo.token_of Demo.demo)) in
  let out := serve (reviews Demo.quiet "r-4" req tt) Demo.store in
  (forall r, In r (review_table Demo.store) ->
             Review.content r <> ("u-demo", "p-beach", "Great ", 4)) /\
  out = (mkResponse (jsonify_error "Duplicate review detected") 409, Demo.store).
Proof.
  split; [|reflexivity].
  intros r [<- | [<- | [<- | []]]]; discriminate.
Qed.

Section CreateReview.

Variable env : Env.
Variable req : Request ReviewData.t.
Variable claims : Jwt.t.
Variable new_id : string.
Variable s : Store.
Variables place_id text : string.
Variable rating : number.

Hypothesis Hpost : method req = POST.
Hypothesis Hverified : verified env req = Some claims.
Hypothesis Hplace_id : ReviewData.place_id (get_json req) = Some place_id.
Hypothesis Htext : ReviewData.text (get_json req) = Some text.
Hypothesis Hrating : ReviewData.rating (get_json req) = Some rating.
Hypothesis Hpresent : place_id <> "" /\ text <> "".
Hypothesis Hplace : exists p, In p (place_table s) /\ Place.id p = place_id.

Lemma reviews_post_eq :
  serve (reviews env new_id req tt) s =
  let identity := Jwt.sub claims in
  let clean_text := Py.strip text in
  match Py.int rating with
  | inl _ => (internal_server_error, s)
  | inr n =>
      if negb (Query.fits_integer n) then (internal_server_error, s)
      else
        match Query.review_by_content identity place_id clean_text n s with
        | Some _ => (mkResponse (jsonify_error "Duplicate review detected") 409, s)
        | None =>
            let review := Review.mk new_id identity place_id clean_text n in
            let base := race env s in
            if fails env 0 then (internal_server_error, s)
            else if fails env 1 then (internal_server_error, base)
            else if Nat.eqb (Query.count (fun q => (Review.id q =? new_id)%string)
                               (review_table base ++ [review])) 1
            then (mkResponse (JObj (Review.to_dict review)) 201,
                  mkStore (user_table base) (place_table base)
                          (review_table base ++ [review]))
            else (internal_server_error, base)
        end
  end.
Proof.
  destruct Hpresent as [Hp Ht].
  destruct Hplace as (p & HIn & Hid).
  assert (exists p', Query.get_place place_id s = Some p') as [p' Hget].
  { subst place_id. destruct (get_place_of_In p s HIn) as (p' & H & _). now exists p'. }
  unfold serve, reviews. rewrite Hpost.
  unfold or_return, bind, try_except, verify_jwt_in_request, get_jwt_identity,
    get_jwt, bind, query_binding, query, view, db_session_add, db_session_commit,
    statement, eval, raise, ret.
  unfold verified in Hverified.
  destruct (authorization req) as [tok|]; [|discriminate].
  rewrite Hverified, Hrating, Hplace_id, Htext. cbn. unfold Py.truthy.
  destruct (String.eqb_spec place_id "") as [E|_]; [contradiction|].
  destruct (String.eqb_spec text "") as [E|_]; [contradiction|].
  cbn. rewrite Hget. cbn.
  destruct (Py.int rating) as [e|n]; [reflexivity|].
  destruct (Query.fits_integer n) eqn:Hfits; [|reflexivity]. cbn.
  destruct (Query.review_by_content (Jwt.sub claims) place_id (Py.strip text) n s);
    [reflexivity|].
  cbn. destruct (fails env 0); [reflexivity|]. cbn.
  destruct (fails env 1); cbn; [reflexivity|].
  rewrite Hfits. cbn. rewrite andb_true_r.
  now destruct (Nat.eqb _ 1).
Qed.

(** C3, as the code has it. Create Review compares the content of the review
    it is about to store: the submitted text without its leading and
    trailing white space, and the rating as [int()] gives it. For an
    authenticated caller and a request with its three fields, the id of a
    stored place and a rating that [int()] turns into an integer [n] of the
    signed 64-bit range:
    - when a stored review has the caller's subject, the place, the trimmed
      text and [n], the answer is 409 "Duplicate review detected" and nothing
      is stored;
    - when no stored review has that content (it may differ in any one
      component, so the same user may review the same place again with
      another text or rating), the request running alone, the storage engine
      not failing and the id being fresh, the answer is 201 and exactly that
      review is added;
    - when another request commits a review of that very content between
      this request's check and its commit, the answer is 201 all the same and
      the database holds the content twice: no constraint of the schema
      forbids it and the check is not repeated.
    A rating that [int()] refuses (inf, nan) or that does not fit in 64 bits
    is answered 500 and nothing is stored. And whatever calls of the API are
    made, each running alone, one after the other, on a database without
    two reviews of the same content, none is ever stored. *)
Theorem create_review_duplicate_guard :
  let out := serve (reviews env new_id req tt) s in
  (forall n,
     Py.int rating = inr n -> Query.fits_integer n = true ->
     let tuple := (Jwt.sub claims, place_id, Py.strip text, n) in
     let review := Review.mk new_id (Jwt.sub claims) place_id (Py.strip text) n in
     ((exists r, In r (review_table s) /\ Review.content r = tuple) ->
      out = (mkResponse (jsonify_error "Duplicate review detected") 409, s)) /\
     ((forall r, In r (review_table s) -> Review.content r <> tuple) ->
      alone env -> reliable env 2 ->
      (forall r, In r (review_table s) -> Review.id r <> new_id) ->
      out = (mkResponse (JObj (Review.to_dict review)) 201,
             mkStore (user_table s) (place_table s) (review_table s ++ [review]))) /\
     (forall twin,
        (forall r, In r (review_table s) -> Review.content r <> tuple) ->
        race env s = with_reviews (review_table s ++ [twin]) s ->
        Review.content twin = tuple -> Review.id twin <> new_id ->
        reliable env 2 ->
        (forall r, In r (review_table s) -> Review.id r <> new_id) ->
        out = (mkResponse (JObj (Review.to_dict review)) 201,
               mkStore (user_table s) (place_table s)
                       (review_table s ++ [twin; review])) /\
        ~ no_duplicate_reviews (snd out))) /\
  ((forall n, Py.int rating = inr n -> Query.fits_integer n = false) ->
   out = (internal_server_error, s)) /\
  (alone env ->
   forall calls s0,
     no_duplicate_reviews s0 -> no_duplicate_reviews (run_all env calls s0)).
Proof.
  cbn zeta. rewrite reviews_post_eq. cbn zeta.
  split; [|split].
  - intros n -> Hfits. rewrite Hfits. cbn [negb].
    split; [|split].
    + intros Hdup. apply review_by_content_some in Hdup. destruct Hdup as [r ->].
      reflexivity.
    + intros Hnone Halone Hrel Hfresh. apply review_by_content_none in Hnone.
      rewrite Hnone, (Hrel 0%nat), (Hrel 1%nat), Halone by lia.
      erewrite (count_fresh Review.id); [reflexivity | reflexivity | exact Hfresh].
    + intros twin Hnone Hrace Htwin Hid Hrel Hfresh.
      apply review_by_content_none in Hnone.
      rewrite Hnone, (Hrel 0%nat), (Hrel 1%nat), Hrace by lia.
      cbn [review_table user_table place_table with_reviews].
      erewrite (count_fresh Review.id); [|reflexivity|].
      * rewrite <- app_assoc. cbn [app Nat.eqb snd]. split; [reflexivity|].
        unfold no_duplicate_reviews. cbn [review_table].
        rewrite map_app. cbn [map]. intros Hnd.
        apply NoDup_remove_2 in Hnd. apply Hnd.
        apply in_or_app. right. left. unfold Review.content at 1. cbn.
        now rewrite Htwin.
      * intros y Hy. apply in_app_or in Hy.
        destruct Hy as [Hy | [<- | []]]; [now apply Hfresh | exact Hid].
  - intros Hout. destruct (Py.int rating) as [e|n]; [reflexivity|].
    now rewrite (Hout n eq_refl).
  - intros Halone calls s0. now apply run_all_no_duplicates.
Qed.

End CreateReview.

(* ------------------------------------------------------------------ *)
(** ** Registering an identity *)

Section Register.

Variable env : Env.
Variable req : Request RegisterData.t.
Variable new_id : string.
Variable s : Store.

Hypothesis Hfields :
  Py.truthy_opt (RegisterData.password (get_json req)) = true /\
  Py.truthy_opt (RegisterData.first_name (get_json req)) = true /\
  Py.truthy_opt (RegisterData.last_name (get_json req)) = true.

(** C4. A register request with its four fields, whose e-mail, trimmed and
    lowercased, is the e-mail of a stored identity [u], is answered 400
    "Email already registered"; nothing is stored, and [u] is still the only
    identity with that e-mail. When the pre-check finds no such identity but
    another request has committed one by the time this request commits, the
    unique constraint raises at the commit, the transaction is rolled back,
    and the answer is again 400 "Email already registered", not 500 "Failed
    to create user"; the database is what the other request left, with one
    identity of that e-mail. *)
Theorem register_duplicate_email :
  let email := normalized (Py.or_empty (RegisterData.email (get_json req))) in
  let out := serve (register env new_id req tt) s in
  let duplicate := mkResponse (jsonify_error "Email already registered") 400 in
  (forall u,
     In u (user_table s) -> User.email u = email -> email <> "" ->
     NoDup (map User.email (user_table s)) ->
     out = (duplicate, s) /\
     Query.count (fun v => (User.email v =? email)%string) (user_table (snd out)) = 1%nat) /\
  (forall u,
     (forall v, In v (user_table s) -> User.email v <> email) ->
     In u (user_table (race env s)) -> User.email u = email -> email <> "" ->
     NoDup (map User.email (user_table (race env s))) ->
     reliable env 2 ->
     out = (duplicate, race env s) /\
     Query.count (fun v => (User.email v =? email)%string) (user_table (snd out)) = 1%nat).
Proof.
  cbn zeta. unfold normalized.
  set (email := Py.lower (Py.strip (Py.or_empty (RegisterData.email (get_json req))))).
  destruct Hfields as (Hpw & Hfn & Hln).
  assert (email <> "" ->
            serve (register env new_id req tt) s =
            match Query.user_by_email email s with
            | Some _ => (mkResponse (jsonify_error "Email already registered") 400, s)
            | None => serve (register env new_id req tt) s
            end) as Hpre.
  { intros Hne. destruct (Query.user_by_email email s) eqn:F; [|reflexivity].
    unfold serve, register. fold email. rewrite Hpw, Hfn, Hln.
    unfold Py.truthy. destruct (String.eqb_spec email "") as [E|_]; [contradiction|].
    cbn. unfold bind, query, view. cbn. now rewrite F. }
  split.
  - intros u HIn Hemail Hne Hnd.
    assert (Query.user_by_email email s = Some u) as F.
    { unfold Query.user_by_email. rewrite <- Hemail.
      now apply (find_by_key User.email). }
    rewrite (Hpre Hne), F. cbn.
    split; [reflexivity|]. rewrite <- Hemail. now apply (count_unique User.email).
  - intros u Hnone HIn Hemail Hne Hnd Hrel.
    assert (Query.user_by_email email s = None) as F.
    { unfold Query.user_by_email.
      destruct (find (fun v => (User.email v =? email)%string) (user_table s))
        as [v|] eqn:F; [|reflexivity].
      apply find_some in F. destruct F as [Hv E]. apply String.eqb_eq in E.
      now apply Hnone in Hv. }
    unfold serve, register. fold email. rewrite Hpw, Hfn, Hln.
    unfold Py.truthy. destruct (String.eqb_spec email "") as [E|_]; [contradiction|].
    cbn. unfold or_return, bind, try_except, query, view, db_session_add,
      db_session_commit, db_session_rollback, statement, ret. cbn.
    rewrite F. cbn.
    rewrite (Hrel 0%nat) by lia; cbn.
    rewrite (Hrel 1%nat) by lia; cbn.
    erewrite (count_app_last User.email); [|reflexivity].
    pose proof (count_unique User.email _ u Hnd HIn) as Hc.
    rewrite Hemail in Hc. rewrite Hc. cbn.
    rewrite andb_false_r. cbn.
    split; [reflexivity|]. rewrite <- Hemail. now apply (count_unique User.email).
Qed.

End Register.

(* ------------------------------------------------------------------ *)
(** ** Deleting a review *)

Section DeleteReview.

Variable env : Env.
Variable req : Request unit.
Variable claims : Jwt.t.
Variable R : Review.t.
Variable s : Store.

Hypothesis Halone : alone env.
Hypothesis Hreliable : reliable env 2.
Hypothesis Hverified : verified env req = Some claims.
Hypothesis Hs : consistent s.
Hypothesis HR : In R (review_table s).

(** C6. Delete Review by an authenticated caller on a stored review [R],
    the storage engine not failing: the deletion succeeds exactly when the
    caller's subject is [R]'s [user_id] or the caller's claims say admin;
    it then removes [R] and no other row; a caller who is neither is
    answered 403 and the database is what it was. *)
Theorem delete_review_owner_or_admin :
  let out := serve (delete_review env req (Review.id R)) s in
  let allowed := Jwt.sub claims = Review.user_id R \/ Jwt.is_admin claims = true in
  (allowed ->
   fst out = mkResponse (jsonify_message "Review deleted successfully") 200 /\
   (forall r, In r (review_table (snd out)) <-> In r (review_table s) /\ r <> R) /\
   review_table (snd out)
     = filter (fun r => negb (Review.id r =? Review.id R)%string) (review_table s) /\
   user_table (snd out) = user_table s /\
   place_table (snd out) = place_table s) /\
  (~ allowed ->
   fst out = mkResponse (jsonify_error "Unauthorized action") 403 /\
   snd out = s) /\
  (status (fst out) = 200 <-> allowed).
Proof.
  destruct Hs as (_ & _ & _ & Hnd).
  pose proof (find_by_key Review.id _ _ Hnd HR) as Hget.
  unfold serve, delete_review.
  unfold or_return, bind, try_except, verify_jwt_in_request, get_jwt_identity,
    get_jwt, bind, query, view, db_session_delete, db_session_commit,
    db_session_rollback, statement, raise, ret.
  unfold verified in Hverified.
  destruct (authorization req) as [tok|]; [|discriminate].
  rewrite Hverified. cbn. unfold Query.get_review. rewrite Hget. cbn.
  destruct (Jwt.is_admin claims) eqn:Hadm; cbn.
  - rewrite (Hreliable 0%nat) by lia; cbn.
    rewrite (Hreliable 1%nat) by lia; cbn. rewrite Halone.
    split; [|split].
    + intros _. split; [reflexivity|].
      split; [intros r; now apply (filter_out_key Review.id)|].
      now repeat split.
    + intros H. exfalso. apply H. now right.
    + split; [now right | reflexivity].
  - destruct (String.eqb_spec (Review.user_id R) (Jwt.sub claims)) as [E|N]; cbn.
    + rewrite (Hreliable 0%nat) by lia; cbn.
    rewrite (Hreliable 1%nat) by lia; cbn. rewrite Halone.
      split; [|split].
      * intros _. split; [reflexivity|].
        split; [intros r; now apply (filter_out_key Review.id)|].
        now repeat split.
      * intros H. exfalso. apply H. now left.
      * split; [now left | reflexivity].
    + split; [|split].
      * intros [H|H]; [now symmetry in H | discriminate].
      * intros _. now split.
      * split; [discriminate|]. intros [H|H]; [now symmetry in H | discriminate].
Qed.

End DeleteReview.

(* ------------------------------------------------------------------ *)
(** ** Creating a place *)

(** C7, counterexample. An admin's Create Place with title "Hut" and price
    -5 is not rejected: it is answered 201 and the place is stored with the
    negative price. *)
Lemma create_place_accepts_negative_price :
  let req := Demo.bare (PlaceData.mk (Some "Hut") None (Some (Int (-5)))) POST
               (Some (Demo.token_of Demo.admin)) in
  let out := serve (create_place Demo.quiet "p-hut" req tt) Demo.store in
  status (fst out) = 201 /\
  In (Place.mk "p-hut" "Hut" None (Some (-5)) None) (place_table (snd out)).
Proof. vm_compute. split; [reflexivity | tauto]. Qed.

Section CreatePlace.

Variable env : Env.
Variable req : Request PlaceData.t.
Variable claims : Jwt.t.
Variable new_id : string.
Variable s : Store.

Hypothesis Halone : alone env.
Hypothesis Hverified : verified env req = Some claims.
Hypothesis Hadmin : Jwt.is_admin claims = true.

  (** what an admin's Create Place answers to a body with a title and a
      price *)
Lemma create_place_eq (title : string) (price : number) :
  PlaceData.title (get_json req) = Some title -> title <> "" ->
  PlaceData.price (get_json req) = Some price ->
  serve (create_place env new_id req tt) s =
  match Py.int price with
  | inl _ => (internal_server_error, s)
  | inr z =>
      let place := Place.mk new_id title (PlaceData.description (get_json req))
                     (Some z) None in
      if fails env 0 then (internal_server_error, s)
      else if fails env 1 then (internal_server_error, s)
      else if negb (Query.fits_integer z) then (internal_server_error, s)
      else if Nat.eqb (Query.count (fun q => (Place.id q =? new_id)%string)
                         (place_table s ++ [place])) 1
      then (mkResponse (JObj (Place.to_dict place)) 201,
            mkStore (user_table s) (place_table s ++ [place]) (review_table s))
      else (internal_server_error, s)
  end.
Proof.
  intros Ht Hne Hp. unfold serve, create_place.
  rewrite admin_required_eq, Hverified, Hadmin.
  unfold create_place_view, bind, db_session_add, db_session_commit, statement, eval,
    ret, with_jwt.
  rewrite Hp, Ht. cbn. unfold Py.truthy.
  destruct (String.eqb_spec title "") as [E|_]; [contradiction|]. cbn.
  destruct (Py.int price) as [e|z]; [reflexivity|].
  destruct (fails env 0); [reflexivity|]. cbn.
  destruct (fails env 1); cbn; rewrite Halone; [reflexivity|].
  rewrite !andb_true_r.
  destruct (Query.fits_integer z); cbn; [|reflexivity].
  now destruct (Nat.eqb _ 1).
Qed.

(** C7, as the code has it. An admin's Create Place is rejected with 400
    "Missing fields", and no place is added, when the title is missing or
    empty or the price is missing. Otherwise the price is stored as [int()]
    gives it, whatever its sign: when that is an integer of the signed
    64-bit range (an integer price is taken as given, a fractional one is
    truncated), the request running alone, the storage engine not failing
    and the id being fresh, the answer is 201 and one place is added, with
    the given title and description, that price and no owner; when [int()]
    refuses the price (inf, nan) or the integer does not fit in 64 bits, the
    answer is 500 and no place is added. *)
Theorem create_place_validation :
  let data := get_json req in
  let out := serve (create_place env new_id req tt) s in
  ((Py.truthy_opt (PlaceData.title data) = false \/ PlaceData.price data = None) ->
   out = (mkResponse (jsonify_error "Missing fields") 400, s)) /\
  (forall title price z,
     PlaceData.title data = Some title -> title <> "" ->
     PlaceData.price data = Some price ->
     Py.int price = inr z -> Query.fits_integer z = true ->
     reliable env 2 ->
     (forall p, In p (place_table s) -> Place.id p <> new_id) ->
     let place := Place.mk new_id title (PlaceData.description data) (Some z) None in
     out = (mkResponse (JObj (Place.to_dict place)) 201,
            mkStore (user_table s) (place_table s ++ [place]) (review_table s))) /\
  (forall title price,
     PlaceData.title data = Some title -> title <> "" ->
     PlaceData.price data = Some price ->
     (forall z, Py.int price = inr z -> Query.fits_integer z = false) ->
     out = (internal_server_error, s)).
Proof.
  cbn zeta. split; [|split].
  - unfold serve, create_place.
    rewrite admin_required_eq, Hverified, Hadmin.
    unfold create_place_view, ret, with_jwt.
    intros [Ht | Hp].
    + destruct (PlaceData.price (get_json req)); [|reflexivity].
      now rewrite Ht.
    + now rewrite Hp.
  - intros title price z Ht Hne Hp Hz Hfits Hrel Hfresh.
    rewrite (create_place_eq title price Ht Hne Hp), Hz. cbn zeta.
    rewrite (Hrel 0%nat), (Hrel 1%nat), Hfits by lia. cbn [negb].
    erewrite (count_fresh Place.id); [reflexivity | reflexivity | exact Hfresh].
  - intros title price Ht Hne Hp Hbad.
    rewrite (create_place_eq title price Ht Hne Hp).
    destruct (Py.int price) as [e|z]; [reflexivity|]. cbn zeta.
    rewrite (Hbad z eq_refl). cbn [negb].
    destruct (fails env 0); [reflexivity|]. now destruct (fails env 1).
Qed.

End CreatePlace.

(** C8. The code stores what the claim excludes. A review with rating 10 is
    answered 201 and stored as submitted: the handler checks that a rating
    is present, not that it lies between 1 and 5. A review whose text is
    three blanks, with rating 0, is answered 201 and stored with the empty
    text: the handler tests the text before it trims it. *)
Theorem reviews_stores_unchecked_rating_and_text :
  let demo := Some (Demo.token_of Demo.demo) in
  let loud := Demo.bare (ReviewData.mk (Some "p-cabin") (Some "Nice") (Some (Int 10))) POST demo in
  let blank := Demo.bare (ReviewData.mk (Some "p-cabin") (Some "   ") (Some (Int 0))) POST demo in
  serve (reviews Demo.quiet "r-4" loud tt) Demo.store
    = (mkResponse (JObj (Review.to_dict (Review.mk "r-4" "u-demo" "p-cabin" "Nice" 10))) 201,
       mkStore [Demo.admin; Demo.demo; Demo.alice] [Demo.beach; Demo.cabin]
               [Demo.r1; Demo.r2; Demo.r3; Review.mk "r-4" "u-demo" "p-cabin" "Nice" 10]) /\
  serve (reviews Demo.quiet "r-4" blank tt) Demo.store
    = (mkResponse (JObj (Review.to_dict (Review.mk "r-4" "u-demo" "p-cabin" "" 0))) 201,
       mkStore [Demo.admin; Demo.demo; Demo.alice] [Demo.beach; Demo.cabin]
               [Demo.r1; Demo.r2; Demo.r3; Review.mk "r-4" "u-demo" "p-cabin" "" 0]).
Proof. split; reflexivity. Qed.

(* ------------------------------------------------------------------ *)
(** ** Logging in *)

Section Login.

Variable env : Env.
Variable req : Request LoginData.t.
Variable u : User.t.
Variable s : Store.

Variables email password : string.

Hypothesis Hreq_email : LoginData.email (get_json req) = Some email.
Hypothesis Hreq_password : LoginData.password (get_json req) = Some password.
Hypothesis Hunique : NoDup (map User.email (user_table s)).
Hypothesis Hstored : In u (user_table s).
Hypothesis Hemail : normalized email = User.email u.
Hypothesis Hpassword : check_password_hash env (User.password u) password = true.
(* a valid pair: the request passes the presence test of the handler *)
Hypothesis Hpresent : normalized email <> "" /\ password <> "".
(* the codec's round trip, on the claims of this identity *)
Hypothesis Hcodec : decode_token env (encode_token env (claims_of u)) = Some (claims_of u).

(** C9. For a stored identity [u] and a valid (non-empty) e-mail and
    password, the e-mail being [u]'s once trimmed and lowercased and the
    password verifying against [u]'s stored hash: login is answered 200 with
    an access token, the database unchanged, and the token decodes to claims
    whose subject is [u]'s id and whose e-mail and admin flag are [u]'s. *)
Theorem login_token_subject :
  exists token claims,
    serve (login env req tt) s
      = (mkResponse (JObj [("access_token", JStr token)]) 200, s) /\
    decode_token env token = Some claims /\
    Jwt.sub claims = User.id u /\
    Jwt.email claims = User.email u /\
    Jwt.is_admin claims = User.is_admin u.
Proof.
  exists (encode_token env (claims_of u)), (claims_of u).
  split; [|now repeat split].
  destruct Hpresent as [Hne Hpw].
  unfold serve, login. rewrite Hreq_email, Hreq_password. cbn [Py.or_empty].
  unfold normalized in Hemail, Hne. unfold Py.truthy.
  destruct (String.eqb_spec (Py.lower (Py.strip email)) "") as [E|_]; [contradiction|].
  destruct (String.eqb_spec password "") as [E|_]; [contradiction|].
  cbn. unfold bind, query, view, Query.user_by_email. cbn.
  rewrite Hemail, (find_by_key User.email _ _ Hunique Hstored), Hpassword.
  reflexivity.
Qed.

End Login.

(* ------------------------------------------------------------------ *)
(** ** Reading one identity *)

Section GetUser.

Variable env : Env.
Variable s : Store.

Hypothesis Hs : consistent s.

(** C10. GET user by id needs no bearer token: whatever the request carries
    (no token, a token that does not verify, any claims), the id of a stored
    identity is answered 200 with that identity's id, first_name, last_name,
    email and is_admin and nothing else, so the answer is the same for two
    identities that differ in their password hash only, and an id that no
    identity has is answered 404; the database is not changed. Listing the
    users, by contrast, is behind the gate: a request without a token that
    verifies is answered 401, a request whose token verifies without the
    admin flag is answered 403, and only a request with an admin's token is
    answered 200 with the identities, each shown as GET user by id shows
    it. *)
Theorem get_user_public_projection :
  (forall (req : Request unit) (u : User.t),
     In u (user_table s) ->
     serve (get_user req (User.id u)) s
       = (mkResponse (JObj [ ("id", JStr (User.id u));
                             ("first_name", JStr (User.first_name u));
                             ("last_name", JStr (User.last_name u));
                             ("email", JStr (User.email u));
                             ("is_admin", JBool (User.is_admin u)) ]) 200, s)
     /\ ~ In "password" (keys (User.to_dict u))
     /\ (forall pw, User.to_dict (User.mk (User.id u) (User.first_name u)
                                     (User.last_name u) (User.email u) pw
                                     (User.is_admin u)) = User.to_dict u)) /\
  (forall (req : Request unit) (i : string),
     (forall u, In u (user_table s) -> User.id u <> i) ->
     serve (get_user req i) s
       = (mkResponse (jsonify_error "User not found") 404, s)) /\
  (forall (req : Request unit),
     verified env req = None ->
     serve (list_users env req tt) s = (unauthenticated, s)) /\
  (forall (req : Request unit) (claims : Jwt.t),
     verified env req = Some claims -> Jwt.is_admin claims = false ->
     serve (list_users env req tt) s = (forbidden, s)) /\
  (forall (req : Request unit) (claims : Jwt.t),
     verified env req = Some claims -> Jwt.is_admin claims = true ->
     serve (list_users env req tt) s
       = (mkResponse (JList (map (fun u => JObj (User.to_dict u)) (user_table s))) 200, s)).
Proof.
  destruct Hs as (Hnd & _).
  split; [|split; [|split; [|split]]].
  - intros req u HIn. split; [|split].
    + unfold serve, get_user, bind, query, view, ret. cbn.
      unfold Query.get_user. now rewrite (find_by_key User.id _ _ Hnd HIn).
    + cbn. intuition discriminate.
    + reflexivity.
  - intros req i Hnone.
    unfold serve, get_user, bind, query, view, ret. cbn.
    unfold Query.get_user.
    destruct (find (fun u => (User.id u =? i)%string) (user_table s)) as [u|] eqn:F.
    + apply find_some in F. destruct F as [HIn E].
      apply String.eqb_eq in E. now apply Hnone in HIn.
    + reflexivity.
  - intros req Hno. unfold serve, list_users.
    rewrite admin_required_eq. now rewrite Hno.
  - intros req claims Hv Hplain. unfold serve, list_users.
    rewrite admin_required_eq. now rewrite Hv, Hplain.
  - intros req claims Hv Hadm. unfold serve, list_users.
    rewrite admin_required_eq. now rewrite Hv, Hadm.
Qed.

End GetUser.

(* ------------------------------------------------------------------ *)
(** ** The statements at work on the demonstration database *)

Ltac distinct := repeat constructor; cbn; intuition discriminate.

Lemma demo_store_consistent : consistent Demo.store.
Proof. repeat split; distinct. Defined.

Lemma admin_required_gate_witness :
  let c := mkCtx Demo.store (fun x => x) [] 0%nat None in
  let anonymous := Demo.bare tt GET None in
  let forged := Demo.bare tt GET (Some "1010forged") in
  let as_demo := Demo.bare tt GET (Some (Demo.token_of Demo.demo)) in
  let as_admin := Demo.bare tt GET (Some (Demo.token_of Demo.admin)) in
  admin_required Demo.quiet list_users_view anonymous tt c = (inr unauthenticated, c) /\
  admin_required Demo.quiet list_users_view forged tt c = (inr unauthenticated, c) /\
  admin_required Demo.quiet list_users_view as_demo tt c
    = (inr forbidden, with_jwt (claims_of Demo.demo) c) /\
  admin_required Demo.quiet list_users_view as_admin tt c
    = list_users_view as_admin tt (with_jwt (claims_of Demo.admin) c).
Proof.
  intros c anonymous forged as_demo as_admin.
  split; [|split; [|split]].
  - apply (admin_required_gate Demo.quiet list_users_view anonymous tt c). reflexivity.
  - apply (admin_required_gate Demo.quiet list_users_view forged tt c). reflexivity.
  - apply (admin_required_gate Demo.quiet list_users_view as_demo tt c); reflexivity.
  - apply (admin_required_gate Demo.quiet list_users_view as_admin tt c); reflexivity.
Defined.

Lemma delete_place_cascade_atomic_witness :
  let req := Demo.bare tt DELETE (Some (Demo.token_of Demo.admin)) in
  (alone Demo.quiet /\ verified Demo.quiet req = Some (claims_of Demo.admin)
   /\ In Demo.beach (place_table Demo.store) /\ reliable Demo.quiet 3) /\
  serve (delete_place Demo.quiet req "p-beach") Demo.store
    = (mkResponse (jsonify_message "Place deleted successfully") 200,
       mkStore [Demo.admin; Demo.demo; Demo.alice] [Demo.cabin] [Demo.r1]) /\
  (forall r, In r (review_table (snd (serve (delete_place Demo.quiet req "p-beach") Demo.store)))
             -> Review.place_id r <> "p-beach") /\
  snd (serve (delete_place (Demo.failing 1) req "p-beach") Demo.store) = Demo.store.
Proof.
  intros req.
  assert (alone Demo.quiet) as Ha by (intros x; reflexivity).
  assert (reliable Demo.quiet 3) as Hr by (intros k _; reflexivity).
  assert (In Demo.beach (place_table Demo.store)) as HIn by (left; reflexivity).
  split; [repeat split; assumption|].
  destruct (delete_place_cascade_atomic Demo.quiet req (claims_of Demo.admin)
              Demo.beach Demo.store Ha eq_refl eq_refl HIn) as [Hok _].
  destruct (Hok Hr) as (_ & _ & _ & _ & _ & Hnone).
  split; [reflexivity|]. split; [exact Hnone|].
  apply (delete_place_cascade_atomic (Demo.failing 1) req (claims_of Demo.admin)
           Demo.beach Demo.store (fun x => eq_refl) eq_refl eq_refl HIn).
  exists 1%nat. split; [lia | reflexivity].
Defined.

Lemma delete_user_cascade_atomic_witness :
  let req := Demo.bare tt DELETE (Some (Demo.token_of Demo.admin)) in
  (alone Demo.quiet /\ verified Demo.quiet req = Some (claims_of Demo.admin)
   /\ In Demo.demo (user_table Demo.store) /\ reliable Demo.quiet 4) /\
  place_table (snd (serve (delete_user Demo.quiet req "u-demo") Demo.store))
    = [Place.mk "p-beach" "Beautiful Beach House"
         (Some "A beautiful beach house with amazing views.") (Some 150) None;
       Demo.cabin] /\
  (forall r, In r (review_table (snd (serve (delete_user Demo.quiet req "u-demo") Demo.store)))
             -> Review.user_id r <> "u-demo") /\
  ~ In Demo.demo (user_table (snd (serve (delete_user Demo.quiet req "u-demo") Demo.store))) /\
  snd (serve (delete_user (Demo.failing 3) req "u-demo") Demo.store) = Demo.store.
Proof.
  intros req.
  assert (alone Demo.quiet) as Ha by (intros x; reflexivity).
  assert (reliable Demo.quiet 4) as Hr by (intros k _; reflexivity).
  assert (In Demo.demo (user_table Demo.store)) as HIn by (right; left; reflexivity).
  split; [repeat split; assumption|].
  destruct (delete_user_cascade_atomic Demo.quiet req (claims_of Demo.admin)
              Demo.demo Demo.store Ha eq_refl eq_refl HIn) as [Hok _].
  destruct (Hok Hr) as (_ & _ & Hplaces & _ & Hreviews & _ & _ & Hgone).
  split; [exact Hplaces|]. split; [exact Hreviews|]. split; [exact Hgone|].
  apply (delete_user_cascade_atomic (Demo.failing 3) req (claims_of Demo.admin)
           Demo.demo Demo.store (fun x => eq_refl) eq_refl eq_refl HIn).
  exists 3%nat. split; [lia | reflexivity].
Defined.

Lemma create_review_duplicate_guard_witness :
  let demo := Some (Demo.token_of Demo.demo) in
  let again := Demo.bare (ReviewData.mk (Some "p-beach") (Some "  Great") (Some (Int 4)))
                 POST demo in
  let other := Demo.bare (ReviewData.mk (Some "p-beach") (Some "Great") (Some (Int 5)))
                 POST demo in
  let huge := Demo.bare (ReviewData.mk (Some "p-beach") (Some "Great")
                           (Some (Int 9223372036854775808))) POST demo in
  let twin := Review.mk "r-twin" "u-demo" "p-beach" "Great" 5 in
  (alone Demo.quiet /\ reliable Demo.quiet 2 /\ no_duplicate_reviews Demo.store) /\
  serve (reviews Demo.quiet "r-4" again tt) Demo.store
    = (mkResponse (jsonify_error "Duplicate review detected") 409, Demo.store) /\
  serve (reviews Demo.quiet "r-4" other tt) Demo.store
    = (mkResponse (JObj (Review.to_dict (Review.mk "r-4" "u-demo" "p-beach" "Great" 5))) 201,
       mkStore [Demo.admin; Demo.demo; Demo.alice] [Demo.beach; Demo.cabin]
               [Demo.r1; Demo.r2; Demo.r3; Review.mk "r-4" "u-demo" "p-beach" "Great" 5]) /\
  review_table (snd (serve (reviews (Demo.racing_review twin) "r-4" other tt) Demo.store))
    = [Demo.r1; Demo.r2; Demo.r3; twin; Review.mk "r-4" "u-demo" "p-beach" "Great" 5] /\
  serve (reviews Demo.quiet "r-4" huge tt) Demo.store = (internal_server_error, Demo.store) /\
  no_duplicate_reviews
    (run_all Demo.quiet [Reviews "r-4" other; Reviews "r-5" again; Reviews "r-6" other]
       Demo.store).
Proof.
  intros demo again other huge twin.
  assert (alone Demo.quiet) as Ha by (intros x; reflexivity).
  assert (reliable Demo.quiet 2) as Hr by (intros k _; reflexivity).
  assert (reliable (Demo.racing_review twin) 2) as Hr' by (intros k _; reflexivity).
  assert (no_duplicate_reviews Demo.store) as Hnd by (unfold no_duplicate_reviews; distinct).
  assert (exists p, In p (place_table Demo.store) /\ Place.id p = "p-beach") as Hp
    by (exists Demo.beach; split; [left|]; reflexivity).
  assert ("p-beach" <> "" /\ "  Great" <> "") as Hne1 by (split; discriminate).
  assert ("p-beach" <> "" /\ "Great" <> "") as Hne2 by (split; discriminate).
  assert (forall r, In r (review_table Demo.store) -> Review.id r <> "r-4") as Hfresh
    by (intros r [<- | [<- | [<- | []]]]; discriminate).
  assert (forall r, In r (review_table Demo.store) ->
                    Review.content r <> ("u-demo", "p-beach", "Great", 5)) as Hnew
    by (intros r [<- | [<- | [<- | []]]]; discriminate).
  split; [repeat split; assumption|].
  split; [|split; [|split; [|split]]].
  - destruct (create_review_duplicate_guard Demo.quiet again (claims_of Demo.demo) "r-4"
                Demo.store "p-beach" "  Great" (Int 4) eq_refl eq_refl eq_refl eq_refl
                eq_refl Hne1 Hp) as (Hin & _ & _).
    destruct (Hin 4 eq_refl eq_refl) as (Hdup & _ & _).
    apply Hdup. exists Demo.r3. split; [right; right; left|]; reflexivity.
  - destruct (create_review_duplicate_guard Demo.quiet other (claims_of Demo.demo) "r-4"
                Demo.store "p-beach" "Great" (Int 5) eq_refl eq_refl eq_refl eq_refl
                eq_refl Hne2 Hp) as (Hin & _ & _).
    destruct (Hin 5 eq_refl eq_refl) as (_ & Hadd & _).
    exact (Hadd Hnew Ha Hr Hfresh).
  - destruct (create_review_duplicate_guard (Demo.racing_review twin) other
                (claims_of Demo.demo) "r-4" Demo.store "p-beach" "Great" (Int 5)
                eq_refl eq_refl eq_refl eq_refl eq_refl Hne2 Hp) as (Hin & _ & _).
    destruct (Hin 5 eq_refl eq_refl) as (_ & _ & Hrace).
    destruct (Hrace twin Hnew eq_refl eq_refl) as [Hout _];
      [discriminate | exact Hr' | exact Hfresh |].
    now rewrite Hout.
  - destruct (create_review_duplicate_guard Demo.quiet huge (claims_of Demo.demo) "r-4"
                Demo.store "p-beach" "Great" (Int 9223372036854775808)
                eq_refl eq_refl eq_refl eq_refl eq_refl Hne2 Hp) as (_ & Hbig & _).
    apply Hbig. intros n Hn. injection Hn as <-. reflexivity.
  - destruct (create_review_duplicate_guard Demo.quiet other (claims_of Demo.demo) "r-4"
                Demo.store "p-beach" "Great" (Int 5) eq_refl eq_refl eq_refl eq_refl
                eq_refl Hne2 Hp) as (_ & _ & Hinv).
    exact (Hinv Ha _ _ Hnd).
Defined.

Lemma register_duplicate_email_witness :
  let req := Demo.bare (RegisterData.mk (Some "Alice") (Some "Doe")
                          (Some "  Alice@Example.COM ") (Some "another-pw")) POST None in
  let before := mkStore [Demo.admin; Demo.demo] [Demo.beach; Demo.cabin] [] in
  serve (register Demo.quiet "u-new" req tt) Demo.store
    = (mkResponse (jsonify_error "Email already registered") 400, Demo.store) /\
  serve (register (Demo.racing Demo.alice) "u-new" req tt) before
    = (mkResponse (jsonify_error "Email already registered") 400,
       mkStore [Demo.admin; Demo.demo; Demo.alice] [Demo.beach; Demo.cabin] []) /\
  Query.count (fun v => (User.email v =? "alice@example.com")%string)
    (user_table (snd (serve (register (Demo.racing Demo.alice) "u-new" req tt) before)))
  = 1%nat.
Proof.
  intros req before.
  assert (Py.truthy_opt (RegisterData.password (get_json req)) = true /\
          Py.truthy_opt (RegisterData.first_name (get_json req)) = true /\
          Py.truthy_opt (RegisterData.last_name (get_json req)) = true) as Hf
    by (repeat split; reflexivity).
  destruct (register_duplicate_email Demo.quiet req "u-new" Demo.store Hf) as [Hpre _].
  destruct (Hpre Demo.alice) as [Hout _].
  { right; right; left; reflexivity. }
  { reflexivity. }
  { discriminate. }
  { distinct. }
  destruct (register_duplicate_email (Demo.racing Demo.alice) req "u-new" before Hf)
    as [_ Hlate].
  destruct (Hlate Demo.alice) as [Hout' Hone].
  { intros v [<- | [<- | []]]; discriminate. }
  { right; right; left; reflexivity. }
  { reflexivity. }
  { discriminate. }
  { distinct. }
  { intros k _; reflexivity. }
  split; [exact Hout|]. split; [exact Hout'|exact Hone].
Defined.

Lemma delete_review_owner_or_admin_witness :
  let by_demo := Demo.bare tt DELETE (Some (Demo.token_of Demo.demo)) in
  let by_alice := Demo.bare tt DELETE (Some (Demo.token_of Demo.alice)) in
  let by_admin := Demo.bare tt DELETE (Some (Demo.token_of Demo.admin)) in
  (alone Demo.quiet /\ reliable Demo.quiet 2 /\ consistent Demo.store
   /\ In Demo.r1 (review_table Demo.store)) /\
  serve (delete_review Demo.quiet by_demo "r-1") Demo.store
    = (mkResponse (jsonify_message "Review deleted successfully") 200,
       mkStore [Demo.admin; Demo.demo; Demo.alice] [Demo.beach; Demo.cabin]
               [Demo.r2; Demo.r3]) /\
  serve (delete_review Demo.quiet by_alice "r-1") Demo.store
    = (mkResponse (jsonify_error "Unauthorized action") 403, Demo.store) /\
  status (fst (serve (delete_review Demo.quiet by_admin "r-1") Demo.store)) = 200.
Proof.
  intros by_demo by_alice by_admin.
  assert (alone Demo.quiet) as Ha by (intros x; reflexivity).
  assert (reliable Demo.quiet 2) as Hr by (intros k _; reflexivity).
  assert (In Demo.r1 (review_table Demo.store)) as HIn by (left; reflexivity).
  pose proof demo_store_consistent as Hc.
  split; [repeat split; try assumption; apply Hc|].
  split; [|split].
  - destruct (delete_review_owner_or_admin Demo.quiet by_demo (claims_of Demo.demo)
                Demo.r1 Demo.store Ha Hr eq_refl Hc HIn) as (Hok & _ & _).
    destruct (Hok (or_introl eq_refl)) as (Hresp & _).
    reflexivity.
  - destruct (delete_review_owner_or_admin Demo.quiet by_alice (claims_of Demo.alice)
                Demo.r1 Demo.store Ha Hr eq_refl Hc HIn) as (_ & Hno & _).
    destruct Hno as [Hresp Hstore].
    + intros [H | H]; discriminate.
    + reflexivity.
  - apply (delete_review_owner_or_admin Demo.quiet by_admin (claims_of Demo.admin)
             Demo.r1 Demo.store Ha Hr eq_refl Hc HIn).
    right. reflexivity.
Defined.

Lemma create_place_validation_witness :
  let admin := Some (Demo.token_of Demo.admin) in
  let unpriced := Demo.bare (PlaceData.mk (Some "Hut") (Some "By the lake") None) POST admin in
  let hut := Demo.bare (PlaceData.mk (Some "Hut") (Some "By the lake") (Some (Int (-5))))
               POST admin in
  (* 12.5 = 25 * 2^-1 *)
  let half := Demo.bare (PlaceData.mk (Some "Hut") (Some "By the lake")
                           (Some (Float (SpecFloat.S754_finite false 25 (-1))))) POST admin in
  let huge := Demo.bare (PlaceData.mk (Some "Hut") (Some "By the lake")
                           (Some (Int 9223372036854775808))) POST admin in
  (alone Demo.quiet /\ reliable Demo.quiet 2
   /\ forall p, In p (place_table Demo.store) -> Place.id p <> "p-hut") /\
  serve (create_place Demo.quiet "p-hut" unpriced tt) Demo.store
    = (mkResponse (jsonify_error "Missing fields") 400, Demo.store) /\
  serve (create_place Demo.quiet "p-hut" hut tt) Demo.store
    = (mkResponse (JObj (Place.to_dict
                           (Place.mk "p-hut" "Hut" (Some "By the lake") (Some (-5)) None))) 201,
       mkStore [Demo.admin; Demo.demo; Demo.alice]
               [Demo.beach; Demo.cabin;
                Place.mk "p-hut" "Hut" (Some "By the lake") (Some (-5)) None]
               [Demo.r1; Demo.r2; Demo.r3]) /\
  map Place.price
      (place_table (snd (serve (create_place Demo.quiet "p-hut" half tt) Demo.store)))
    = [Some 150; Some 100; Some 12] /\
  serve (create_place Demo.quiet "p-hut" huge tt) Demo.store
    = (internal_server_error, Demo.store).
Proof.
  intros admin unpriced hut half huge.
  assert (alone Demo.quiet) as Ha by (intros x; reflexivity).
  assert (reliable Demo.quiet 2) as Hr by (intros k _; reflexivity).
  assert (forall p, In p (place_table Demo.store) -> Place.id p <> "p-hut") as Hfresh
    by (intros p [<- | [<- | []]]; discriminate).
  split; [repeat split; assumption|].
  split; [|split; [|split]].
  - destruct (create_place_validation Demo.quiet unpriced (claims_of Demo.admin) "p-hut"
                Demo.store Ha eq_refl eq_refl) as [Hreject _].
    apply Hreject. right. reflexivity.
  - destruct (create_place_validation Demo.quiet hut (claims_of Demo.admin) "p-hut"
                Demo.store Ha eq_refl eq_refl) as (_ & Hcreate & _).
    apply (Hcreate "Hut" (Int (-5)) (-5));
      [reflexivity | discriminate | reflexivity | reflexivity | reflexivity
      | exact Hr | exact Hfresh].
  - destruct (create_place_validation Demo.quiet half (claims_of Demo.admin) "p-hut"
                Demo.store Ha eq_refl eq_refl) as (_ & Hcreate & _).
    rewrite (Hcreate "Hut" (Float (SpecFloat.S754_finite false 25 (-1))) 12);
      [reflexivity | reflexivity | discriminate | reflexivity | reflexivity | reflexivity
      | exact Hr | exact Hfresh].
  - destruct (create_place_validation Demo.quiet huge (claims_of Demo.admin) "p-hut"
                Demo.store Ha eq_refl eq_refl) as (_ & _ & Hbig).
    apply (Hbig "Hut" (Int 9223372036854775808)); [reflexivity | discriminate | reflexivity |].
    intros z Hz. injection Hz as <-. reflexivity.
Defined.

Lemma login_token_subject_witness :
  let req := Demo.bare (LoginData.mk (Some " Demo@Example.com ") (Some "DemoPass123"))
               POST None in
  (In Demo.demo (user_table Demo.store)
   /\ normalized " Demo@Example.com " = User.email Demo.demo
   /\ check_password_hash Demo.quiet (User.password Demo.demo) "DemoPass123" = true) /\
  exists token claims,
    serve (login Demo.quiet req tt) Demo.store
      = (mkResponse (JObj [("access_token", JStr token)]) 200, Demo.store) /\
    decode_token Demo.quiet token = Some claims /\
    Jwt.sub claims = "u-demo" /\
    Jwt.email claims = "demo@example.com" /\
    Jwt.is_admin claims = false.
Proof.
  intros req.
  assert (In Demo.demo (user_table Demo.store)) as HIn by (right; left; reflexivity).
  split; [repeat split; [exact HIn]|].
  apply (login_token_subject Demo.quiet req Demo.demo Demo.store
           " Demo@Example.com " "DemoPass123" eq_refl eq_refl).
  - distinct.
  - exact HIn.
  - reflexivity.
  - reflexivity.
  - split; discriminate.
  - reflexivity.
Defined.

Lemma get_user_public_projection_witness :
  let anonymous := Demo.bare tt GET None in
  let as_demo := Demo.bare tt GET (Some (Demo.token_of Demo.demo)) in
  let as_admin := Demo.bare tt GET (Some (Demo.token_of Demo.admin)) in
  consistent Demo.store /\
  serve (get_user anonymous "u-alice") Demo.store
    = (mkResponse (JObj [ ("id", JStr "u-alice");
                          ("first_name", JStr "Alice");
                          ("last_name", JStr "Doe");
                          ("email", JStr "alice@example.com");
                          ("is_admin", JBool false) ]) 200, Demo.store) /\
  serve (get_user anonymous "u-nobody") Demo.store
    = (mkResponse (jsonify_error "User not found") 404, Demo.store) /\
  serve (list_users Demo.quiet anonymous tt) Demo.store = (unauthenticated, Demo.store) /\
  serve (list_users Demo.quiet as_demo tt) Demo.store = (forbidden, Demo.store) /\
  serve (list_users Demo.quiet as_admin tt) Demo.store
    = (mkResponse (JList [ JObj (User.to_dict Demo.admin); JObj (User.to_dict Demo.demo);
                           JObj (User.to_dict Demo.alice) ]) 200, Demo.store).
Proof.
  intros anonymous as_demo as_admin.
  pose proof demo_store_consistent as Hc.
  split; [exact Hc|].
  destruct (get_user_public_projection Demo.quiet Demo.store Hc)
    as (Hfound & Hmissing & Hnone & Hplain & Hadmin).
  split; [|split; [|split; [|split]]].
  - apply (Hfound anonymous Demo.alice). right; right; left; reflexivity.
  - apply (Hmissing anonymous "u-nobody").
    intros u [<- | [<- | [<- | []]]]; discriminate.
  - apply (Hnone anonymous). reflexivity.
  - apply (Hplain as_demo (claims_of Demo.demo)); reflexivity.
  - apply (Hadmin as_admin (claims_of Demo.admin)); reflexivity.
Defined.

(* ================================================================== *)
(** * Further properties of the code *)

(* ------------------------------------------------------------------ *)
(** ** Trimming and lowercasing *)

Lemma isspace_lower_char (c : ascii) : Py.isspace (Py.lower_char c) = Py.isspace c.
Proof. destruct c as [[] [] [] [] [] [] [] []]; reflexivity. Qed.

Lemma isspace2_lower_char (c d : ascii) :
  Py.isspace2 (Py.lower_char c) (Py.lower_char d) = Py.isspace2 c d.
Proof.
  destruct c as [[] [] [] [] [] [] [] []]; try reflexivity.
  destruct d as [[] [] [] [] [] [] [] []]; reflexivity.
Qed.

Lemma isspace3_lower_char (c d e : ascii) :
  Py.isspace3 (Py.lower_char c) (Py.lower_char d) (Py.lower_char e) = Py.isspace3 c d e.
Proof.
  destruct c as [[] [] [] [] [] [] [] []]; try reflexivity;
    (destruct d as [[] [] [] [] [] [] [] []]; try reflexivity;
     destruct e as [[] [] [] [] [] [] [] []]; reflexivity).
Qed.

Lemma lower_char_idem (c : ascii) : Py.lower_char (Py.lower_char c) = Py.lower_char c.
Proof. destruct c as [[] [] [] [] [] [] [] []]; reflexivity. Qed.

Lemma lower_cons (c : ascii) (s : string) :
  Py.lower (String c s) = String (Py.lower_char c) (Py.lower s).
Proof. reflexivity. Qed.

Lemma lower_idem (s : string) : Py.lower (Py.lower s) = Py.lower s.
Proof.
  induction s as [|c s IH]; [reflexivity|].
  rewrite !lower_cons, lower_char_idem, IH. reflexivity.
Qed.

Lemma lower_append (a b : string) :
  Py.lower (a ++ b) = (Py.lower a ++ Py.lower b)%string.
Proof.
  induction a as [|c a IH]; [reflexivity|].
  cbn [append]. rewrite !lower_cons, IH. reflexivity.
Qed.

  (** [lstrip] skips white-space characters one after the other *)
Lemma lstrip_eq (s : string) :
  Py.lstrip s = match Py.skip_space s with
                | Some r => Py.lstrip r
                | None => s
                end.
Proof.
  destruct s as [|c [|d [|e r]]]; cbn; try reflexivity.
  - now destruct (Py.isspace c).
  - destruct (Py.isspace c); [reflexivity|]. now destruct (Py.isspace2 c d).
  - destruct (Py.isspace c); [reflexivity|]. destruct (Py.isspace2 c d); [reflexivity|].
    now destruct (Py.isspace3 c d e).
Qed.

Lemma skip_space_shorter (s r : string) :
  Py.skip_space s = Some r -> (String.length r < String.length s)%nat.
Proof.
  destruct s as [|c [|d [|e t]]]; cbn; try discriminate.
  - destruct (Py.isspace c); [|discriminate]. intros H. injection H as <-. cbn. lia.
  - destruct (Py.isspace c); [intros H; injection H as <-; cbn; lia|].
    destruct (Py.isspace2 c d); [|discriminate]. intros H. injection H as <-. cbn. lia.
  - destruct (Py.isspace c); [intros H; injection H as <-; cbn; lia|].
    destruct (Py.isspace2 c d); [intros H; injection H as <-; cbn; lia|].
    destruct (Py.isspace3 c d e); [|discriminate]. intros H. injection H as <-. cbn. lia.
Qed.

  (** induction on a string, one white-space character at a time *)
Lemma skip_space_ind (P : string -> Prop) :
  (forall s, Py.skip_space s = None -> P s) ->
  (forall s r, Py.skip_space s = Some r -> P r -> P s) ->
  forall s, P s.
Proof.
  intros Hnone Hsome s.
  remember (String.length s) as n eqn:Hn. revert s Hn.
  induction n as [n IH] using lt_wf_ind. intros s ->.
  destruct (Py.skip_space s) as [r|] eqn:E; [|now apply Hnone].
  apply (Hsome s r E). apply (IH (String.length r)); [|reflexivity].
  now apply skip_space_shorter.
Qed.

Lemma skip_space_append (a a' b : string) :
  Py.skip_space a = Some a' -> Py.skip_space (a ++ b) = Some (a' ++ b)%string.
Proof.
  destruct a as [|c [|d [|e t]]]; cbn; try discriminate.
  - destruct (Py.isspace c); [|discriminate]. intros H. injection H as <-. reflexivity.
  - destruct (Py.isspace c); [intros H; injection H as <-; reflexivity|].
    destruct (Py.isspace2 c d); [|discriminate]. intros H. injection H as <-. reflexivity.
  - destruct (Py.isspace c); [intros H; injection H as <-; reflexivity|].
    destruct (Py.isspace2 c d); [intros H; injection H as <-; reflexivity|].
    destruct (Py.isspace3 c d e); [|discriminate]. intros H. injection H as <-. reflexivity.
Qed.

Lemma skip_space_prefix (a b : string) :
  Py.skip_space (a ++ b) = None -> a <> "" -> Py.skip_space a = None.
Proof.
  destruct a as [|c [|d [|e t]]]; cbn; [congruence| | |].
  - intros H _. destruct (Py.isspace c); [discriminate | reflexivity].
  - intros H _. destruct (Py.isspace c); [discriminate|].
    destruct (Py.isspace2 c d); [discriminate | reflexivity].
  - intros H _. destruct (Py.isspace c); [discriminate|].
    destruct (Py.isspace2 c d); [discriminate|].
    destruct (Py.isspace3 c d e); [discriminate | reflexivity].
Qed.

Lemma lstrip_settled (s : string) : Py.skip_space (Py.lstrip s) = None.
Proof.
  induction s as [s E | s r E IH] using skip_space_ind; rewrite lstrip_eq, E; trivial.
Qed.

Lemma lstrip_of_settled (s : string) : Py.skip_space s = None -> Py.lstrip s = s.
Proof. intros E. now rewrite lstrip_eq, E. Qed.

Lemma blank_append (a b : string) :
  Py.blank a = true -> Py.lstrip (a ++ b) = Py.lstrip b.
Proof.
  unfold Py.blank.
  induction a as [a E | a r E IH] using skip_space_ind.
  - rewrite (lstrip_of_settled a E). destruct a; [reflexivity | discriminate].
  - rewrite (lstrip_eq a), E. intros H.
    rewrite lstrip_eq, (skip_space_append a r b E). now apply IH.
Qed.

Lemma rstrip_cons (c : ascii) (r : string) :
  Py.rstrip (String c r)
  = if Py.blank (String c r) then EmptyString else String c (Py.rstrip r).
Proof. reflexivity. Qed.

  (** what [rstrip] removes is white space *)
Lemma rstrip_split (s : string) :
  exists w, s = (Py.rstrip s ++ w)%string /\ Py.blank w = true.
Proof.
  induction s as [|c s (w & Hs & Hw)]; [now exists ""|].
  rewrite rstrip_cons. destruct (Py.blank (String c s)) eqn:B.
  - now exists (String c s).
  - exists w. split; [|exact Hw]. cbn [append]. now rewrite <- Hs.
Qed.

Lemma blank_rstrip (c : ascii) (s : string) :
  Py.blank (String c (Py.rstrip s)) = true -> Py.blank (String c s) = true.
Proof.
  intros H. destruct (rstrip_split s) as (w & Hs & Hw).
  rewrite Hs at 1. unfold Py.blank.
  change (String c (Py.rstrip s ++ w)) with (String c (Py.rstrip s) ++ w)%string.
  rewrite (blank_append _ w H). exact Hw.
Qed.

Lemma rstrip_idem (s : string) : Py.rstrip (Py.rstrip s) = Py.rstrip s.
Proof.
  induction s as [|c s IH]; [reflexivity|].
  rewrite rstrip_cons. destruct (Py.blank (String c s)) eqn:B; [reflexivity|].
  rewrite rstrip_cons, IH.
  destruct (Py.blank (String c (Py.rstrip s))) eqn:B'; [|reflexivity].
  apply blank_rstrip in B'. congruence.
Qed.

Lemma rstrip_settled (s : string) :
  Py.skip_space s = None -> Py.skip_space (Py.rstrip s) = None.
Proof.
  intros E. destruct (rstrip_split s) as (w & Hs & _).
  destruct (Py.rstrip s) as [|c r] eqn:R; [reflexivity|].
  apply (skip_space_prefix _ w); [now rewrite <- Hs | discriminate].
Qed.

Lemma strip_idem (s : string) : Py.strip (Py.strip s) = Py.strip s.
Proof.
  unfold Py.strip.
  rewrite (lstrip_of_settled (Py.rstrip (Py.lstrip s)))
    by apply rstrip_settled, lstrip_settled.
  apply rstrip_idem.
Qed.

Lemma skip_space_lower (s : string) :
  Py.skip_space (Py.lower s) = option_map Py.lower (Py.skip_space s).
Proof.
  destruct s as [|c [|d [|e r]]]; [reflexivity| | |];
    rewrite ?lower_cons; cbn [Py.skip_space option_map];
    rewrite ?isspace_lower_char, ?isspace2_lower_char, ?isspace3_lower_char.
  - now destruct (Py.isspace c).
  - destruct (Py.isspace c); [reflexivity|]. now destruct (Py.isspace2 c d).
  - destruct (Py.isspace c); [reflexivity|]. destruct (Py.isspace2 c d); [reflexivity|].
    now destruct (Py.isspace3 c d e).
Qed.

Lemma lstrip_lower (s : string) : Py.lstrip (Py.lower s) = Py.lower (Py.lstrip s).
Proof.
  induction s as [s E | s r E IH] using skip_space_ind;
    rewrite (lstrip_eq s), (lstrip_eq (Py.lower s)), skip_space_lower, E; cbn;
    [reflexivity | exact IH].
Qed.

Lemma blank_lower (s : string) : Py.blank (Py.lower s) = Py.blank s.
Proof.
  unfold Py.blank. rewrite lstrip_lower. now destruct (Py.lstrip s).
Qed.

Lemma rstrip_lower (s : string) : Py.rstrip (Py.lower s) = Py.lower (Py.rstrip s).
Proof.
  induction s as [|c s IH]; [reflexivity|].
  rewrite lower_cons, !rstrip_cons, <- lower_cons, blank_lower.
  destruct (Py.blank (String c s)); [reflexivity|].
  now rewrite !lower_cons, IH.
Qed.

Lemma strip_lower (s : string) : Py.strip (Py.lower s) = Py.lower (Py.strip s).
Proof. unfold Py.strip. now rewrite lstrip_lower, rstrip_lower. Qed.

Lemma normalized_idem (e : string) : normalized (normalized e) = normalized e.
Proof.
  unfold normalized. now rewrite strip_lower, strip_idem, lower_idem.
Qed.

  (** white space outside ASCII is trimmed, and characters are counted, not
      bytes: U+00A0 is C2 A0, U+3000 is E3 80 80 and "è" is C3 A8 *)
Example strip_no_break_space :
  Py.strip (String "194" (String "160" ("Great" ++ String "227" (String "128" (String "128" " ")))))
  = "Great".
Proof. reflexivity. Qed.

Example len_counts_characters :
  String.length ("Tr" ++ String "195" (String "168" "s joli")) = 10%nat /\
  Py.len ("Tr" ++ String "195" (String "168" "s joli")) = 9%nat.
Proof. split; reflexivity. Qed.

(* ------------------------------------------------------------------ *)
(** ** The steps of the API *)

Section Steps.

Variable env : Env.
Hypothesis Halone : alone env.

Lemma admin_required_changes {B A} (fn : Request B -> A -> App Response)
  (req : Request B) (args : A) (s : Store) :
  (forall claims,
     changes s (snd (let (r, c) := fn req args (mkCtx s (fun x => x) [] 0%nat (Some claims)) in
                     match r with
                     | inr resp => (resp, committed c)
                     | inl _ => (internal_server_error, committed c)
                     end))) ->
  changes s (snd (serve (admin_required env fn req args) s)).
Proof.
  intros H. unfold serve. rewrite admin_required_eq.
  destruct (verified env req) as [claims|]; [|constructor].
  destruct (Jwt.is_admin claims); [apply H | constructor].
Qed.

Lemma register_changes new_id req s :
  changes s (snd (serve (register env new_id req tt) s)).
Proof.
  unfold serve, register. unfold_app. split_run; rewrite ?Halone in *; try apply ch_same.
  all: cbn.
  all: match goal with
       | |- changes _ (with_users (_ ++ [?u]) _) =>
           apply (ch_register s u)
       end; cbn in *;
    [ now rewrite andb_true_r in * | reflexivity | apply normalized_idem ].
Qed.

Lemma create_place_changes new_id req s :
  changes s (snd (serve (create_place env new_id req tt) s)).
Proof.
  apply admin_required_changes. intros claims.
  unfold create_place_view. unfold_app. split_run; rewrite ?Halone in *; try apply ch_same.
  all: cbn.
  all: match goal with
       | |- changes _ (with_places (_ ++ [?p]) _) => apply (ch_create_place s p)
       end; cbn in *; [now rewrite andb_true_r in * | reflexivity].
Qed.

Lemma update_place_changes req place_id s :
  changes s (snd (serve (update_place env req place_id) s)).
Proof.
  apply admin_required_changes. intros claims.
  unfold update_place_view. unfold_app. split_run; rewrite ?Halone; try apply ch_same.
  all: split_update; cbn; try apply ch_same.
  all: match goal with
       | H : Query.get_place _ _ = Some ?old |- changes _ (Query.update_place ?p _) =>
           apply (ch_update_place s old p); cbn; [|reflexivity|reflexivity];
           now rewrite (get_place_id _ _ _ H)
       end.
Qed.

Lemma delete_place_changes req place_id s :
  changes s (snd (serve (delete_place env req place_id) s)).
Proof.
  apply admin_required_changes. intros claims.
  unfold delete_place_view. unfold_app. split_run; rewrite ?Halone; try apply ch_same.
  cbn. match goal with H : Query.get_place _ _ = Some _ |- _ =>
    rewrite <- (get_place_id _ _ _ H) end.
  apply ch_delete_place.
Qed.

Lemma delete_user_changes req user_id s :
  changes s (snd (serve (delete_user env req user_id) s)).
Proof.
  apply admin_required_changes. intros claims.
  unfold delete_user_view. unfold_app. split_run; rewrite ?Halone; try apply ch_same.
  cbn. match goal with H : Query.get_user _ _ = Some _ |- _ =>
    rewrite <- (get_user_id _ _ _ H) end.
  apply ch_delete_user.
Qed.

Lemma delete_review_changes req review_id s :
  changes s (snd (serve (delete_review env req review_id) s)).
Proof.
  unfold serve, delete_review. unfold_app. split_run; rewrite ?Halone; try apply ch_same.
  all: cbn; apply ch_delete_review.
Qed.

Lemma reviews_changes new_id req s :
  changes s (snd (serve (reviews env new_id req tt) s)).
Proof.
  unfold serve, reviews. unfold_app. split_run; rewrite ?Halone in *; try apply ch_same.
  all: cbn.
  all: match goal with
       | H : Query.get_place _ _ = Some ?p
         |- changes _ (with_reviews (_ ++ [?r]) _) =>
           apply (ch_create_review s r p)
       end; cbn in *;
    [ now rewrite andb_true_r in * | assumption | apply strip_idem ].
Qed.

Lemma run_changes (c : call) (s : Store) : changes s (run env c s).
Proof.
  destruct c; unfold run, route.
  - unfold serve, login. unfold_app. split_run; constructor.
  - apply register_changes.
  - constructor.
  - apply create_place_changes.
  - apply update_place_changes.
  - apply delete_place_changes.
  - unfold serve, get_place. unfold_app. split_run; constructor.
  - apply reviews_changes.
  - unfold serve, reviews_by_place. unfold_app. split_run; constructor.
  - apply delete_review_changes.
  - unfold serve, get_user. unfold_app. split_run; constructor.
  - apply admin_required_changes. intros claims. constructor.
  - apply delete_user_changes.
Qed.

End Steps.

(* ------------------------------------------------------------------ *)
(** ** What the API keeps true, read off its steps *)

Lemma changes_references (s s' : Store) :
  changes s s' -> references_ok s -> references_ok s'.
Proof.
  unfold references_ok.
  intros Hch Href.
  destruct Hch as [ | u _ _ _ | p _ _ | r p _ Hget _ | old p _ _ _ | p | r | u ]; cbn.
  - exact Href.
  - exact Href.
  - intros r HIn. destruct (Href r HIn) as (q & Hq & Hid).
    exists q. split; [apply in_or_app; now left | exact Hid].
  - intros r' HIn. apply in_app_or in HIn. destruct HIn as [HIn | [<- | []]].
    + exact (Href r' HIn).
    + exists p. apply find_some in Hget. destruct Hget as [Hp Hid].
      apply String.eqb_eq in Hid. now split.
  - intros r HIn. destruct (Href r HIn) as (q & Hq & Hid).
    exists (if (Place.id q =? Place.id p)%string then p else q). split.
    + apply in_map_iff. now exists q.
    + destruct (String.eqb_spec (Place.id q) (Place.id p)); congruence.
  - intros r HIn. apply filter_In in HIn. destruct HIn as [HIn Hne].
    destruct (Href r HIn) as (q & Hq & Hid).
    exists q. split; [|exact Hid]. apply filter_In. split; [exact Hq|].
    now rewrite Hid.
  - intros r' HIn. apply filter_In in HIn. destruct HIn as [HIn _].
    exact (Href r' HIn).
  - intros r HIn. apply filter_In in HIn. destruct HIn as [HIn _].
    destruct (Href r HIn) as (q & Hq & Hid).
    exists (if eqb_opt (Place.owner_id q) (User.id u) then Place.set_owner_id None q else q).
    split.
    + apply in_map_iff. now exists q.
    + now destruct (eqb_opt _ _).
Qed.

Lemma changes_admins (s s' : Store) (u : User.t) :
  changes s s' -> In u (user_table s') -> User.is_admin u = true -> In u (user_table s).
Proof.
  intros Hch HIn Hadm.
  destruct Hch as [ | v _ Hv _ | p _ _ | r p _ _ _ | old p _ _ _ | p | r | v ];
    cbn in HIn; trivial.
  - apply in_app_or in HIn. destruct HIn as [HIn | [<- | []]]; [exact HIn | congruence].
  - apply filter_In in HIn. tauto.
Qed.

Lemma changes_owners (s s' : Store) :
  changes s s' ->
  (forall p, In p (place_table s) -> Place.owner_id p = None) ->
  (forall p, In p (place_table s') -> Place.owner_id p = None).
Proof.
  intros Hch Hnone.
  destruct Hch as [ | v _ _ _ | p _ Hp | r p _ _ _ | old p Hget _ Hown | p | r | v ];
    cbn; trivial.
  - intros q HIn. apply in_app_or in HIn. destruct HIn as [HIn | [<- | []]]; auto.
  - intros q HIn. apply in_map_iff in HIn. destruct HIn as (q0 & Hq & HIn).
    destruct (Place.id q0 =? Place.id p)%string; subst q; [|auto].
    rewrite Hown. apply Hnone. apply find_some in Hget. tauto.
  - intros q HIn. apply filter_In in HIn. destruct HIn as [HIn _]. auto.
  - intros q HIn. apply in_map_iff in HIn. destruct HIn as (q0 & Hq & HIn).
    destruct (eqb_opt _ _); subst q; [reflexivity | auto].
Qed.

Lemma changes_normal_forms (s s' : Store) :
  changes s s' ->
  (forall u, In u (user_table s) -> normalized (User.email u) = User.email u) /\
  (forall r, In r (review_table s) -> Py.strip (Review.text r) = Review.text r) ->
  (forall u, In u (user_table s') -> normalized (User.email u) = User.email u) /\
  (forall r, In r (review_table s') -> Py.strip (Review.text r) = Review.text r).
Proof.
  intros Hch [Hu Hr].
  destruct Hch as [ | v _ _ Hv | p _ _ | r p _ _ Ht | old p _ _ _ | p | r | v ];
    cbn; split; trivial.
  - intros u HIn. apply in_app_or in HIn. destruct HIn as [HIn | [<- | []]]; auto.
  - intros r' HIn. apply in_app_or in HIn. destruct HIn as [HIn | [<- | []]]; auto.
  - intros r HIn. apply filter_In in HIn. destruct HIn as [HIn _]. auto.
  - intros r' HIn. apply filter_In in HIn. destruct HIn as [HIn _]. auto.
  - intros u HIn. apply filter_In in HIn. destruct HIn as [HIn _]. auto.
  - intros r HIn. apply filter_In in HIn. destruct HIn as [HIn _]. auto.
Qed.

Section Invariants.

Variable env : Env.
Hypothesis Halone : alone env.

(** X1. Whatever calls of the API are made, one after the other, on a
    database in which every review is on a stored place, every review is
    still on a stored place afterwards: Create Review checks that the place
    exists, Delete Place deletes the reviews of the place, and no other
    call removes a place or changes the id of one. *)
Theorem api_keeps_reviews_on_places (cs : list call) (s : Store) :
  references_ok s -> references_ok (run_all env cs s).
Proof.
  revert s. induction cs as [|c cs IH]; intros s Hs; [exact Hs|].
  cbn. apply IH. exact (changes_references _ _ (run_changes env Halone c s) Hs).
Qed.

(** X2. No call of the API makes an administrator: an identity that is an
    administrator after any sequence of calls was one, with the same row,
    before. (Only [init_db] grants the flag.) *)
Theorem api_never_grants_admin (cs : list call) (s : Store) (u : User.t) :
  In u (user_table (run_all env cs s)) -> User.is_admin u = true ->
  In u (user_table s).
Proof.
  revert s. induction cs as [|c cs IH]; intros s HIn Hadm; [exact HIn|].
  cbn in HIn. apply IH in HIn; [|exact Hadm].
  exact (changes_admins _ _ u (run_changes env Halone c s) HIn Hadm).
Qed.

(** X3. No call of the API gives a place an owner: Create Place stores no
    owner and Update Place keeps the one the place has, so on a database
    whose places have no owner, as [init_db] seeds them, the places have no
    owner after any sequence of calls. *)
Theorem api_never_sets_owner (cs : list call) (s : Store) :
  (forall p, In p (place_table s) -> Place.owner_id p = None) ->
  forall p, In p (place_table (run_all env cs s)) -> Place.owner_id p = None.
Proof.
  revert s. induction cs as [|c cs IH]; intros s Hs; [exact Hs|].
  cbn. apply IH. exact (changes_owners _ _ (run_changes env Halone c s) Hs).
Qed.

(** X4. The API stores e-mails and review texts in normal form: if every
    stored e-mail is its own trimmed, lowercased form and every stored
    review text is its own trimmed form, the same holds after any sequence
    of calls. *)
Theorem api_keeps_normal_forms (cs : list call) (s : Store) :
  (forall u, In u (user_table s) -> normalized (User.email u) = User.email u) /\
  (forall r, In r (review_table s) -> Py.strip (Review.text r) = Review.text r) ->
  (forall u, In u (user_table (run_all env cs s)) ->
             normalized (User.email u) = User.email u) /\
  (forall r, In r (review_table (run_all env cs s)) ->
             Py.strip (Review.text r) = Review.text r).
Proof.
  revert s. induction cs as [|c cs IH]; intros s Hs; [exact Hs|].
  cbn. apply IH. exact (changes_normal_forms _ _ (run_changes env Halone c s) Hs).
Qed.

End Invariants.

(* ------------------------------------------------------------------ *)
(** ** Who can change what *)

(** X5. The calls that only read (login, the lists, the lookups by id, GET
    on the reviews route) leave the database exactly as it is, whatever the
    token, the failures of the storage engine and the other requests. *)
Theorem reads_change_nothing (env : Env) (c : call) (s : Store) :
  reads c = true -> run env c s = s.
Proof.
  destruct c; cbn [reads]; try discriminate; intros Hr; unfold run, route.
  - unfold serve, login. unfold_app. split_run; reflexivity.
  - reflexivity.
  - unfold serve, get_place. unfold_app. split_run; reflexivity.
  - unfold serve, reviews. destruct (method req); try discriminate. reflexivity.
  - unfold serve, reviews_by_place. unfold_app. split_run; reflexivity.
  - unfold serve, get_user. unfold_app. split_run; reflexivity.
  - unfold serve, list_users. rewrite admin_required_eq.
    destruct (verified env req) as [j|]; [|reflexivity].
    destruct (Jwt.is_admin j); reflexivity.
Qed.

(** X6. Without a bearer token that verifies, the only call that changes
    the database is register: every other call that is not a read is
    answered 401 "Authentication required" and leaves the database as it
    is, whatever the environment. *)
Theorem unauthenticated_calls_rejected (env : Env) (c : call) (s : Store) :
  caller env c = None -> is_register c = false -> reads c = false ->
  serve (route env c) s = (unauthenticated, s).
Proof.
  unfold caller.
  destruct c; cbn [reads is_register bearer]; try discriminate; intros Hc _ Hr;
    unfold route.
  - unfold serve, create_place. rewrite admin_required_eq. unfold verified.
    destruct (authorization req); now rewrite ?Hc.
  - unfold serve, update_place. rewrite admin_required_eq. unfold verified.
    destruct (authorization req); now rewrite ?Hc.
  - unfold serve, delete_place. rewrite admin_required_eq. unfold verified.
    destruct (authorization req); now rewrite ?Hc.
  - unfold serve, reviews. destruct (method req); try discriminate;
      unfold_app; destruct (authorization req); now rewrite ?Hc.
  - unfold serve, delete_review.
    unfold_app; destruct (authorization req); now rewrite ?Hc.
  - unfold serve, delete_user. rewrite admin_required_eq. unfold verified.
    destruct (authorization req); now rewrite ?Hc.
Qed.

Section NonAdmin.

Variable env : Env.
Variable c : call.
Variable j : Jwt.t.
Variable s : Store.

Hypothesis Halone : alone env.
Hypothesis Hcaller : caller env c = Some j.
Hypothesis Hplain : Jwt.is_admin j = false.
Hypothesis Hs : consistent s.

(** X7. A caller whose token verifies without the admin flag cannot touch
    the places, cannot touch the identities except by registering one, and
    cannot remove a review of another user: every stored review whose
    [user_id] is not the caller's subject is still stored after the call. *)
Theorem non_admin_reach :
  place_table (run env c s) = place_table s /\
  (is_register c = false -> user_table (run env c s) = user_table s) /\
  (forall r, In r (review_table s) -> Review.user_id r <> Jwt.sub j ->
             In r (review_table (run env c s))).
Proof.
  assert (forall B (req : Request B), authorization req = bearer c ->
            verified env req = Some j) as Hv.
  { intros B req E. unfold verified. rewrite E. exact Hcaller. }
  unfold caller in Hcaller.
  destruct c; cbn [is_register].
  all: try (rewrite reads_change_nothing by reflexivity; now auto).
  all: unfold run, route.
  - unfold serve, register. unfold_app. split_run; rewrite ?Halone; cbn;
      repeat split; trivial; try discriminate; intros; apply in_or_app; tauto.
  - unfold serve, create_place. rewrite admin_required_eq, (Hv _ req eq_refl), Hplain.
    auto.
  - unfold serve, update_place. rewrite admin_required_eq, (Hv _ req eq_refl), Hplain.
    auto.
  - unfold serve, delete_place. rewrite admin_required_eq, (Hv _ req eq_refl), Hplain.
    auto.
  - unfold serve, reviews. unfold_app. split_run; rewrite ?Halone; cbn;
      repeat split; trivial; intros; apply in_or_app; tauto.
  - cbn [bearer] in Hcaller.
    unfold serve, delete_review. unfold_app.
    destruct (authorization req) as [tok|]; [|discriminate].
    rewrite Hcaller. cbn. rewrite Hplain. cbn.
    destruct (Query.get_review review_id s) as [found|] eqn:Hget; cbn; [|auto].
    destruct (String.eqb_spec (Review.user_id found) (Jwt.sub j)) as [Hown|Hother];
      cbn; [|auto].
    destruct (fails env 0); cbn; [auto|].
    destruct (fails env 1); cbn; rewrite Halone; [auto|].
    repeat split; trivial.
    intros r HIn Hne. apply filter_In. split; [exact HIn|].
    destruct (String.eqb_spec (Review.id r) (Review.id found)) as [E|_]; [|reflexivity].
    exfalso. apply Hne. rewrite <- Hown. f_equal.
    destruct Hs as (_ & _ & _ & Hnd).
    pose proof (find_by_key Review.id _ _ Hnd HIn) as F1.
    unfold Query.get_review in Hget. apply find_some in Hget.
    destruct Hget as [Hf _].
    pose proof (find_by_key Review.id _ _ Hnd Hf) as F2.
    rewrite E in F1. congruence.
  - unfold serve, delete_user. rewrite admin_required_eq, (Hv _ req eq_refl), Hplain.
    auto.
Qed.

End NonAdmin.

(* ------------------------------------------------------------------ *)
(** ** Logging in and registering *)

Lemma find_app_none {A} (f : A -> bool) (l : list A) (x : A) :
  find f l = None -> find f (l ++ [x]) = if f x then Some x else None.
Proof.
  induction l as [|a l IH]; cbn; [reflexivity|].
  destruct (f a); [discriminate | exact IH].
Qed.

  (** what login answers to a body that has an e-mail and a password *)
Lemma login_run (env : Env) (req : Request LoginData.t) (s : Store) :
  let email := normalized (Py.or_empty (LoginData.email (get_json req))) in
  let password := Py.or_empty (LoginData.password (get_json req)) in
  email <> "" -> password <> "" ->
  serve (login env req tt) s =
  (match Query.user_by_email email s with
   | Some u =>
       if check_password_hash env (User.password u) password
       then mkResponse (JObj [("access_token", JStr (encode_token env (claims_of u)))]) 200
       else mkResponse (jsonify_error "Invalid email or password") 401
   | None => mkResponse (jsonify_error "Invalid email or password") 401
   end, s).
Proof.
  cbn zeta. unfold normalized. intros He Hp.
  unfold serve, login, Py.truthy.
  destruct (String.eqb_spec (Py.lower (Py.strip (Py.or_empty (LoginData.email (get_json req))))) "")
    as [E|_]; [contradiction|].
  destruct (String.eqb_spec (Py.or_empty (LoginData.password (get_json req))) "")
    as [E|_]; [contradiction|].
  cbn. unfold bind, query, view. cbn.
  destruct (Query.user_by_email _ s) as [u|]; [|reflexivity].
  now destruct (check_password_hash env (User.password u) _).
Qed.

(** X8. Login tells nothing about which part of the credentials is wrong:
    a body without an e-mail (or with one of white space only) or without a
    password is answered 400; otherwise, for an e-mail of ASCII characters,
    an e-mail that no identity has and a password that does not verify
    against the hash of the identity found are both answered the same 401
    "Invalid email or password"; the database is not changed. *)
Theorem login_rejects_uniformly (env : Env) (req : Request LoginData.t) (s : Store) :
  let sent := Py.or_empty (LoginData.email (get_json req)) in
  let email := normalized sent in
  let password := Py.or_empty (LoginData.password (get_json req)) in
  (email = "" \/ password = "" ->
   serve (login env req tt) s
     = (mkResponse (jsonify_error "email and password required") 400, s)) /\
  (Py.isascii sent = true -> email <> "" -> password <> "" ->
   (forall u, Query.user_by_email email s = Some u ->
              check_password_hash env (User.password u) password = false) ->
   serve (login env req tt) s
     = (mkResponse (jsonify_error "Invalid email or password") 401, s)).
Proof.
  cbn zeta. split.
  - unfold normalized, serve, login, Py.truthy. intros [-> | ->]; cbn; [reflexivity|].
    now rewrite orb_true_r.
  - intros _ He Hp Hbad. rewrite (login_run env req s He Hp).
    destruct (Query.user_by_email _ s) as [u|]; [|reflexivity].
    now rewrite (Hbad u eq_refl).
Qed.

Section RegisterNew.

Variable env : Env.
Variable req : Request RegisterData.t.
Variable new_id : string.
Variable s : Store.
Variables first_name last_name email password : string.

Hypothesis Halone : alone env.
Hypothesis Hreliable : reliable env 2.
Hypothesis Hbody :
  get_json req = RegisterData.mk (Some first_name) (Some last_name) (Some email)
                   (Some password).
Hypothesis Hpresent :
  first_name <> "" /\ last_name <> "" /\ normalized email <> "" /\ password <> "".
Hypothesis Hnew : forall u, In u (user_table s) -> User.email u <> normalized email.
Hypothesis Hfresh : forall u, In u (user_table s) -> User.id u <> new_id.

Let user : User.t :=
  User.mk new_id first_name last_name (normalized email)
          (generate_password_hash env password) false.

Lemma register_run :
  serve (register env new_id req tt) s
    = (mkResponse (JObj [ ("user", JObj (User.to_dict user));
                          ("access_token", JStr (encode_token env (claims_of user))) ]) 201,
       mkStore (user_table s ++ [user]) (place_table s) (review_table s)).
Proof.
  destruct Hpresent as (Hf & Hl & He & Hp).
  assert (Query.user_by_email (normalized email) s = None) as F.
  { unfold Query.user_by_email.
    destruct (find (fun v => (User.email v =? normalized email)%string) (user_table s))
      as [v|] eqn:F; [|reflexivity].
    apply find_some in F. destruct F as [Hv E]. apply String.eqb_eq in E.
    now apply Hnew in Hv. }
  unfold serve, register. rewrite Hbody. cbn [RegisterData.email RegisterData.password
    RegisterData.first_name RegisterData.last_name Py.or_empty Py.truthy_opt].
  fold (normalized email). unfold Py.truthy.
  destruct (String.eqb_spec (normalized email) "") as [E|_]; [contradiction|].
  destruct (String.eqb_spec password "") as [E|_]; [contradiction|].
  destruct (String.eqb_spec first_name "") as [E|_]; [contradiction|].
  destruct (String.eqb_spec last_name "") as [E|_]; [contradiction|].
  cbn. unfold or_return, bind, try_except, query, view, db_session_add,
    db_session_commit, db_session_rollback, statement, ret. cbn.
  rewrite F. cbn.
  rewrite (Hreliable 0%nat) by lia; cbn.
  rewrite (Hreliable 1%nat) by lia; cbn.
  rewrite Halone.
  erewrite (count_fresh User.id); [|reflexivity|exact Hfresh].
  erewrite (count_fresh User.email); [|reflexivity|exact Hnew].
  reflexivity.
Qed.

(** X9. A register request with its four fields and an e-mail of ASCII
    characters that, trimmed and lowercased, no identity has yet (the
    request running alone, the storage engine not failing, the id fresh) is
    answered 201; exactly one identity is added, with the e-mail trimmed
    and lowercased, the hash of the password in place of the password, and
    never the admin flag; the answer shows the identity without any
    password field and carries a token for it. *)
Theorem register_creates_identity :
  Py.isascii email = true ->
  exists u token,
    serve (register env new_id req tt) s
      = (mkResponse (JObj [ ("user", JObj (User.to_dict u));
                            ("access_token", JStr token) ]) 201,
         mkStore (user_table s ++ [u]) (place_table s) (review_table s)) /\
    User.id u = new_id /\
    User.email u = normalized email /\
    User.password u = generate_password_hash env password /\
    User.is_admin u = false /\
    ~ In "password" (keys (User.to_dict u)) /\
    token = encode_token env (claims_of u).
Proof.
  intros _. exists user, (encode_token env (claims_of user)).
  split; [exact register_run|]. repeat split.
  cbn. intuition discriminate.
Qed.

(** X10. Who has registered can log in: after that registration, with an
    e-mail of ASCII characters, a login with any ASCII spelling of the
    e-mail that trims and lowercases to the same address, and the same
    password, is answered 200 with a token for the new identity, provided
    the hashing primitive verifies what it hashed. *)
Theorem register_then_login (login_req : Request LoginData.t) (spelling : string) :
  Py.isascii email = true -> Py.isascii spelling = true ->
  check_password_hash env (generate_password_hash env password) password = true ->
  get_json login_req = LoginData.mk (Some spelling) (Some password) ->
  normalized spelling = normalized email ->
  let s' := snd (serve (register env new_id req tt) s) in
  exists u,
    In u (user_table s') /\ User.id u = new_id /\
    serve (login env login_req tt) s'
      = (mkResponse (JObj [("access_token", JStr (encode_token env (claims_of u)))]) 200,
         s').
Proof.
  intros _ _ Hcheck Hlogin Hsame. cbn zeta. rewrite register_run. cbn [snd].
  exists user. split; [cbn; apply in_or_app; right; now left|]. split; [reflexivity|].
  destruct Hpresent as (_ & _ & He & Hp).
  rewrite login_run; rewrite Hlogin; cbn [LoginData.email LoginData.password Py.or_empty];
    rewrite ?Hsame; trivial.
  unfold Query.user_by_email. cbn [user_table].
  rewrite find_app_none.
  - cbn. rewrite String.eqb_refl. cbn. now rewrite Hcheck.
  - destruct (find _ (user_table s)) as [v|] eqn:F; [|reflexivity].
    apply find_some in F. destruct F as [Hv E]. apply String.eqb_eq in E.
    now apply Hnew in Hv.
Qed.

End RegisterNew.

(* ------------------------------------------------------------------ *)
(** ** Places: amenities, update, and reading back what was created *)

Lemma prefix_append (n b : string) : String.prefix n (n ++ b) = true.
Proof.
  induction n as [|c n IH]; cbn; [now destruct b|].
  destruct (ascii_dec c c); [exact IH | contradiction].
Qed.

Lemma prefix_split (n h : string) :
  String.prefix n h = true -> exists b, h = (n ++ b)%string.
Proof.
  revert h. induction n as [|c n IH]; intros h H.
  - now exists h.
  - destruct h as [|d h]; cbn in H; [discriminate|].
    destruct (ascii_dec c d) as [->|]; [|discriminate].
    destruct (IH h H) as [b ->]. now exists b.
Qed.

Lemma contains_occurs (n h : string) :
  Py.contains n h = true <-> exists a b, h = (a ++ n ++ b)%string.
Proof.
  split.
  - induction h as [|d h IH]; cbn [Py.contains]; intros H.
    + rewrite orb_false_r in H. apply prefix_split in H. destruct H as [b Hb].
      exists "", b. exact Hb.
    + apply orb_prop in H. destruct H as [H | H].
      * apply prefix_split in H. destruct H as [b Hb]. exists "", b. exact Hb.
      * destruct (IH H) as (a & b & ->). now exists (String d a), b.
  - intros (a & b & ->). induction a as [|d a IH].
    + cbn [append]. pose proof (prefix_append n b) as H.
      destruct (n ++ b)%string; cbn [Py.contains]; now rewrite H.
    + cbn [append Py.contains]. rewrite IH. apply orb_true_r.
Qed.

(** X11. The amenities of a place are read off its title, whatever the
    letter case: a title in which "beach" occurs, in any mix of upper and
    lower case, has the beach amenities even when another keyword occurs as
    well, and a place has no amenities exactly when none of "beach",
    "cabin", "apartment" and "modern" occurs in the lowercased title. *)
Theorem amenities_by_keyword (p : Place.t) :
  (forall a w b,
     Place.title p = (a ++ w ++ b)%string -> Py.lower w = "beach" ->
     Place.amenities p = ["WiFi"; "Sea view"; "Air conditioning"]) /\
  (Place.amenities p = [] <->
   forall k, In k ["beach"; "cabin"; "apartment"; "modern"] ->
             ~ exists a b, Py.lower (Place.title p) = (a ++ k ++ b)%string).
Proof.
  unfold Place.amenities. cbn zeta. split.
  - intros a w b Ht Hw. rewrite Ht, !lower_append, Hw.
    now rewrite (proj2 (contains_occurs "beach" _))
      by (exists (Py.lower a), (Py.lower b); reflexivity).
  - split.
    + intros H k Hk Hocc. apply contains_occurs in Hocc.
      destruct (Py.contains "beach" _) eqn:B; [discriminate|].
      destruct (Py.contains "cabin" _) eqn:C; [discriminate|].
      destruct (Py.contains "apartment" _) eqn:A; [discriminate|].
      destruct (Py.contains "modern" _) eqn:M; [discriminate|].
      destruct Hk as [<- | [<- | [<- | [<- | []]]]]; congruence.
    + intros H.
      assert (forall k, In k ["beach"; "cabin"; "apartment"; "modern"] ->
                Py.contains k (Py.lower (Place.title p)) = false) as Hno.
      { intros k Hk. destruct (Py.contains k _) eqn:E; [|reflexivity].
        exfalso. apply (H k Hk). now apply contains_occurs. }
      rewrite (Hno "beach"), (Hno "cabin"), (Hno "apartment"), (Hno "modern");
        cbn; tauto.
Qed.

Section UpdatePlace.

Variable env : Env.
Variable req : Request PlacePatch.t.
Variable claims : Jwt.t.
Variable old : Place.t.
Variable s : Store.

Hypothesis Halone : alone env.
Hypothesis Hreliable : reliable env 2.
Hypothesis Hverified : verified env req = Some claims.
Hypothesis Hadmin : Jwt.is_admin claims = true.
Hypothesis Hs : consistent s.
Hypothesis Hold : In old (place_table s).
(* the stored price is one that SQLite can hold *)
Hypothesis Hstored : Query.row_fits (RPlace old) = true.

Lemma count_updated (p : Place.t) :
  Place.id p = Place.id old ->
  Query.count (fun q => (Place.id q =? Place.id old)%string)
    (map (fun q => if (Place.id q =? Place.id old)%string then p else q) (place_table s))
  = 1%nat.
Proof.
  intros Hid. destruct Hs as (_ & _ & Hnd & _).
  rewrite <- (count_unique Place.id _ old Hnd Hold).
  unfold Query.count. clear Hnd Hold.
  induction (place_table s) as [|q l IH]; [reflexivity|]. cbn.
  destruct (String.eqb_spec (Place.id q) (Place.id old)) as [E|N].
  - rewrite Hid, String.eqb_refl. cbn. now rewrite IH.
  - apply String.eqb_neq in N. now rewrite N.
Qed.

  (** what an admin's Update Place on [old] answers *)
Lemma update_place_eq :
  serve (update_place env req (Place.id old)) s =
  let data := get_json req in
  match match PlacePatch.price data with
        | Some x =>
            match Py.int x with
            | inl e => inl e
            | inr z => inr (Some z)
            end
        | None => inr (Place.price old)
        end
  with
  | inl _ => (internal_server_error, s)
  | inr price =>
      match match PlacePatch.title data with
            | Some t => t
            | None => Some (Place.title old)
            end
      with
      | None => (internal_server_error, s)
      | Some title =>
          let p := Place.mk (Place.id old) title
                     match PlacePatch.description data with
                     | Some d => d
                     | None => Place.description old
                     end price (Place.owner_id old) in
          if fails env 0 then (internal_server_error, s)
          else if fails env 1 then (internal_server_error, s)
          else if negb (Query.row_fits (RPlace p)) then (internal_server_error, s)
          else (mkResponse (JObj (Place.to_dict p)) 200,
                mkStore (user_table s)
                        (map (fun q => if (Place.id q =? Place.id old)%string then p else q)
                             (place_table s))
                        (review_table s))
      end
  end.
Proof.
  cbn zeta. pose proof Hs as (_ & _ & Hnd & _).
  pose proof (find_by_key Place.id _ _ Hnd Hold) as Hget.
  unfold serve, update_place. rewrite admin_required_eq, Hverified, Hadmin.
  unfold update_place_view, bind, query, view, db_session_commit, statement, eval, raise,
    ret, with_jwt. cbn. unfold Query.get_place. rewrite Hget. cbn.
  assert (forall title description price,
            (let (s0, c) :=
               match title with
               | Some title =>
                   fun c : Ctx =>
                     let p := Place.mk (Place.id old) title description price
                                (Place.owner_id old) in
                     let (s0, c') :=
                       if fails env (tick c)
                       then (inl OperationalError,
                             mkCtx (committed c) (txn c) (added c) (S (tick c)) (jwt c))
                       else (inr tt,
                             mkCtx (committed c) (fun s0 => Query.update_place p (txn c s0))
                                   (RPlace p :: added c) (S (tick c)) (jwt c)) in
                     match s0 with
                     | inl e => (inl e, c')
                     | inr _ =>
                         let (s1, c'0) :=
                           if fails env (tick c')
                           then (inl OperationalError,
                                 mkCtx (race env (committed c')) (txn c') (added c')
                                       (S (tick c')) (jwt c'))
                           else if negb (forallb Query.row_fits (added c'))
                           then (inl OverflowError,
                                 mkCtx (race env (committed c')) (txn c') (added c')
                                       (S (tick c')) (jwt c'))
                           else if forallb (Query.row_ok (txn c' (race env (committed c'))))
                                     (added c')
                           then (inr tt,
                                 mkCtx (txn c' (race env (committed c'))) (fun s1 => s1) []
                                       (S (tick c')) (jwt c'))
                           else (inl IntegrityError,
                                 mkCtx (race env (committed c')) (txn c') (added c')
                                       (S (tick c')) (jwt c')) in
                         match s1 with
                         | inl e => (inl e, c'0)
                         | inr _ => (inr (mkResponse (JObj (Place.to_dict p)) 200), c'0)
                         end
                     end
               | None => fun c : Ctx => (inl IntegrityError, c)
               end (mkCtx s (fun x => x) [] 0%nat (Some claims)) in
             match s0 with
             | inl _ => (internal_server_error, committed c)
             | inr resp => (resp, committed c)
             end)
            = match title with
              | None => (internal_server_error, s)
              | Some title =>
                  let p := Place.mk (Place.id old) title description price
                             (Place.owner_id old) in
                  if fails env 0 then (internal_server_error, s)
                  else if fails env 1 then (internal_server_error, s)
                  else if negb (Query.row_fits (RPlace p)) then (internal_server_error, s)
                  else (mkResponse (JObj (Place.to_dict p)) 200,
                        mkStore (user_table s)
                                (map (fun q => if (Place.id q =? Place.id old)%string
                                               then p else q) (place_table s))
                                (review_table s))
              end) as Hrun.
  { intros [title|] description price; [|reflexivity]. cbn.
    destruct (fails env 0); [reflexivity|]. cbn.
    destruct (fails env 1); cbn; rewrite Halone; [reflexivity|].
    rewrite andb_true_r.
    destruct (match price with Some z => Query.fits_integer z | None => true end);
      [|reflexivity]. cbn.
    now rewrite count_updated by reflexivity. }
  destruct (PlacePatch.price (get_json req)) as [x|]; [|apply Hrun].
  cbn. destruct (Py.int x) as [e|z]; [reflexivity | apply Hrun].
Qed.

(** X12. An admin's Update Place on a stored place changes the fields the
    body has and keeps the others: an absent [title] or [description] and an
    absent or null [price] keep the stored value, a null [description]
    clears it, a price is stored as [int()] gives it when that is an integer
    of the signed 64-bit range, the id and the owner never change, and every
    other row is untouched; the answer is 200 with the place as updated. A
    null [title] is not stored, nor is a price that [int()] refuses or that
    does not fit in 64 bits: the answer is 500 and the database is what it
    was. *)
Theorem update_place_partial :
  let data := get_json req in
  let out := serve (update_place env req (Place.id old)) s in
  (PlacePatch.title data = Some None -> status (fst out) = 500 /\ snd out = s) /\
  (forall x,
     PlacePatch.price data = Some x ->
     (forall z, Py.int x = inr z -> Query.fits_integer z = false) ->
     status (fst out) = 500 /\ snd out = s) /\
  (forall price,
     PlacePatch.title data <> Some None ->
     match PlacePatch.price data with
     | Some x => exists z, Py.int x = inr z /\ Query.fits_integer z = true /\ price = Some z
     | None => price = Place.price old
     end ->
     exists p,
       out = (mkResponse (JObj (Place.to_dict p)) 200,
              mkStore (user_table s)
                      (map (fun q => if (Place.id q =? Place.id old)%string then p else q)
                           (place_table s))
                      (review_table s)) /\
       Place.id p = Place.id old /\
       Place.owner_id p = Place.owner_id old /\
       Place.title p = match PlacePatch.title data with
                       | Some (Some t) => t
                       | _ => Place.title old
                       end /\
       Place.description p = match PlacePatch.description data with
                             | Some d => d
                             | None => Place.description old
                             end /\
       Place.price p = price /\
       (forall q, In q (place_table s) -> q <> old -> In q (place_table (snd out)))).
Proof.
  cbn zeta. rewrite update_place_eq. cbn zeta.
  pose proof Hs as (_ & _ & Hnd & _).
  split; [|split].
  - intros ->. destruct (PlacePatch.price (get_json req)) as [x|]; [|now split].
    destruct (Py.int x); now split.
  - intros x -> Hbad. destruct (Py.int x) as [e|z] eqn:Hx; [now split|].
    pose proof (Hbad z eq_refl) as Hz.
    destruct (PlacePatch.title (get_json req)) as [[t|]|]; try (now split);
      destruct (fails env 0); try (now split);
      destruct (fails env 1); try (now split);
      cbn; rewrite Hz; now split.
  - intros price Ht Hprice.
    assert (match PlacePatch.price (get_json req) with
            | Some x =>
                match Py.int x with
                | inl e => inl e
                | inr z => inr (Some z)
                end
            | None => inr (Place.price old)
            end = (inr price : exn + option Z)
            /\ match price with
               | Some z => Query.fits_integer z
               | None => true
               end = true) as [-> Hfit].
    { destruct (PlacePatch.price (get_json req)) as [x|].
      - destruct Hprice as (z & -> & Hf & ->). now split.
      - subst price. now split. }
    rewrite (Hreliable 0%nat), (Hreliable 1%nat) by lia.
    destruct (PlacePatch.title (get_json req)) as [[t|]|] eqn:Et; [|contradiction|];
      cbn [Query.row_fits Place.price]; rewrite Hfit; cbn [negb];
      (eexists; split; [reflexivity|]; cbn; repeat split;
       intros q Hq Hne; apply in_map_iff; exists q; split; [|exact Hq];
       destruct (String.eqb_spec (Place.id q) (Place.id old)) as [E|_]; [|reflexivity];
       exfalso; apply Hne;
       pose proof (find_by_key Place.id _ _ Hnd Hq) as F; rewrite E in F;
       pose proof (find_by_key Place.id _ _ Hnd Hold) as F'; congruence).
Qed.

End UpdatePlace.

Section CreateThenGet.

Variable env : Env.
Variable req : Request PlaceData.t.
Variable new_id : string.
Variable s : Store.

Hypothesis Halone : alone env.

  (** Create Place either stores nothing, or answers 201 with the place it
      has stored, under an id that no other place has *)
Lemma create_place_step :
  let created := serve (create_place env new_id req tt) s in
  (status (fst created) <> 201 /\ snd created = s) \/
  exists place,
    created = (mkResponse (JObj (Place.to_dict place)) 201,
               mkStore (user_table s) (place_table s ++ [place]) (review_table s)) /\
    Place.id place = new_id /\
    (forall p, In p (place_table s) -> Place.id p <> new_id).
Proof.
  cbn zeta. unfold serve, create_place. rewrite admin_required_eq.
  destruct (verified env req) as [claims|]; [|left; now split].
  destruct (Jwt.is_admin claims); [|left; now split].
  unfold create_place_view, bind, db_session_add, db_session_commit, statement, eval,
    ret, with_jwt.
  destruct (PlaceData.price (get_json req)) as [price|]; [|left; now split].
  destruct (Py.truthy_opt (PlaceData.title (get_json req))); [|left; now split]. cbn.
  destruct (Py.int price) as [e|z]; [left; now split|].
  destruct (fails env 0); [left; now split|]. cbn.
  destruct (fails env 1); cbn; rewrite Halone; [left; now split|].
  rewrite !andb_true_r.
  destruct (Query.fits_integer z); cbn; [|left; now split].
  destruct (Nat.eqb _ 1) eqn:Hcount; [|left; now split].
  right. eexists. split; [reflexivity|]. split; [reflexivity|].
  apply Nat.eqb_eq in Hcount.
  erewrite (count_app_last Place.id) in Hcount by reflexivity.
  injection Hcount as Hcount. apply count_zero_fresh in Hcount.
  intros p Hp Hid. apply Hcount. rewrite <- Hid. now apply in_map.
Qed.

(** X13. A place that was created can be read back: whenever Create Place,
    running alone, is answered 201, GET on the new id, by anyone, is
    answered 200 with the very body the creation returned (amenities
    included), and the list of places ends with it. *)
Theorem create_place_then_get (anyone : Request unit) :
  let created := serve (create_place env new_id req tt) s in
  status (fst created) = 201 ->
  serve (get_place anyone new_id) (snd created)
    = (mkResponse (body (fst created)) 200, snd created) /\
  exists earlier place,
    body (fst created) = JObj (Place.to_dict place) /\
    fst (serve (list_places anyone tt) (snd created))
      = mkResponse (JList (earlier ++ [JObj (Place.to_dict place)])) 200.
Proof.
  cbn zeta. intros Hok.
  destruct create_place_step as [[Hno _] | (place & -> & Hid & Hfresh)]; [contradiction|].
  cbn [fst snd body]. split.
  - unfold serve, get_place, bind, query, view, ret. cbn.
    unfold Query.get_place. cbn [place_table].
    rewrite find_app_none.
    + cbn. now rewrite Hid, String.eqb_refl.
    + destruct (find _ (place_table s)) as [q|] eqn:F; [|reflexivity].
      apply find_some in F. destruct F as [Hq E]. apply String.eqb_eq in E.
      now apply Hfresh in Hq.
  - exists (map (fun p => JObj (Place.to_dict p)) (place_table s)), place.
    split; [reflexivity|].
    unfold serve, list_places, bind, query, view, ret. cbn.
    now rewrite map_app.
Qed.

End CreateThenGet.

(* ------------------------------------------------------------------ *)
(** ** Reviews: listing by place, and tokens of deleted identities *)

Section ReviewThenList.

Variable env : Env.
Variable req : Request ReviewData.t.
Variable new_id : string.
Variable s : Store.
Variable place_id : string.

Hypothesis Halone : alone env.

  (** Create Review either stores nothing, or answers 201 with the review it
      has stored, on the place of the request, which is a stored place *)
Lemma reviews_step :
  let created := serve (reviews env new_id req tt) s in
  (status (fst created) <> 201 /\ snd created = s) \/
  exists review p,
    created = (mkResponse (JObj (Review.to_dict review)) 201,
               mkStore (user_table s) (place_table s) (review_table s ++ [review])) /\
    ReviewData.place_id (get_json req) = Some (Review.place_id review) /\
    Query.get_place (Review.place_id review) s = Some p.
Proof.
  cbn zeta. unfold serve, reviews.
  destruct (method req); [left; now split | | |];
    (unfold or_return, bind, try_except, verify_jwt_in_request, get_jwt_identity,
       get_jwt, bind, query_binding, query, view, db_session_add, db_session_commit,
       statement, eval, raise, ret;
     destruct (authorization req) as [tok|]; [|left; now split];
     destruct (decode_token env tok) as [claims|]; [|left; now split]; cbn;
     destruct (ReviewData.rating (get_json req)) as [rating|]; [|left; now split];
     destruct (ReviewData.place_id (get_json req)) as [pid|]; [|left; now split];
     cbn [Py.truthy_opt Py.or_empty];
     destruct (Py.truthy pid); [|left; now split];
     destruct (Py.truthy_opt (ReviewData.text (get_json req))); [|left; now split]; cbn;
     destruct (Query.get_place pid s) as [p|] eqn:Hget; [|left; now split]; cbn;
     destruct (Py.int rating) as [e|n]; [left; now split|];
     destruct (Query.fits_integer n) eqn:Hfits; [|left; now split]; cbn;
     destruct (Query.review_by_content _ _ _ _ s); [left; now split|]; cbn;
     destruct (fails env 0); [left; now split|]; cbn;
     destruct (fails env 1); cbn; rewrite Halone; [left; now split|];
     rewrite Hfits; cbn; rewrite andb_true_r;
     destruct (Nat.eqb _ 1); [|left; now split];
     right; eexists; exists p; split; [reflexivity|]; split; [reflexivity | exact Hget]).
Qed.

(** X14. A review that was created is listed: whenever Create Review,
    running alone, is answered 201 for a place, the reviews of that place,
    asked by anyone, are the ones listed before followed by the new review,
    as the creation returned it; the lists of the other places are what they
    were; a place that is not stored is answered 404. *)
Theorem create_review_then_list (anyone : Request unit) :
  let created := serve (reviews env new_id req tt) s in
  status (fst created) = 201 ->
  ReviewData.place_id (get_json req) = Some place_id ->
  (exists before review,
     body (fst created) = JObj (Review.to_dict review) /\
     serve (reviews_by_place anyone place_id) s = (mkResponse (JList before) 200, s) /\
     serve (reviews_by_place anyone place_id) (snd created)
       = (mkResponse (JList (before ++ [JObj (Review.to_dict review)])) 200, snd created)) /\
  (forall other,
     other <> place_id ->
     fst (serve (reviews_by_place anyone other) (snd created))
       = fst (serve (reviews_by_place anyone other) s)) /\
  (forall unknown,
     (forall p, In p (place_table s) -> Place.id p <> unknown) ->
     serve (reviews_by_place anyone unknown) (snd created)
       = (mkResponse (jsonify_error "Place not found") 404, snd created)).
Proof.
  cbn zeta. intros Hok Hpid.
  destruct reviews_step as [[Hno _] | (review & p & -> & Hplace & Hget)]; [contradiction|].
  rewrite Hpid in Hplace. injection Hplace as Hplace. rewrite <- Hplace in Hget.
  cbn [fst snd body].
  unfold serve, reviews_by_place, bind, query, view, ret. cbn.
  unfold Query.get_place in *. cbn [place_table review_table].
  split; [|split].
  - rewrite Hget. cbn.
    exists (map (fun r => JObj (Review.to_dict r))
              (filter (fun r => (Review.place_id r =? place_id)%string) (review_table s))),
      review.
    split; [reflexivity|]. split; [reflexivity|].
    rewrite filter_app, map_app. cbn. now rewrite <- Hplace, String.eqb_refl.
  - intros other Hne.
    destruct (find (fun q => (Place.id q =? other)%string) (place_table s));
      [|reflexivity]. cbn.
    rewrite filter_app. cbn. rewrite <- Hplace.
    destruct (String.eqb_spec place_id other) as [E|_]; [now symmetry in E|].
    now rewrite app_nil_r.
  - intros unknown Hnone.
    destruct (find (fun q => (Place.id q =? unknown)%string) (place_table s)) as [q|] eqn:F;
      [|reflexivity].
    apply find_some in F. destruct F as [Hq E]. apply String.eqb_eq in E.
    now apply Hnone in Hq.
Qed.

End ReviewThenList.

Section TokenOutlivesIdentity.

Variable env : Env.
Variable admin_req : Request unit.
Variable admin_claims : Jwt.t.
Variable U : User.t.
Variable req : Request ReviewData.t.
Variable new_id : string.
Variable s : Store.
Variables place_id text : string.
Variable rating : number.
Variable n : Z.

Hypothesis Halone : alone env.
Hypothesis Hreliable : reliable env 4.
Hypothesis Hs : consistent s.
Hypothesis HU : In U (user_table s).
Hypothesis Hadmin : verified env admin_req = Some admin_claims /\
                    Jwt.is_admin admin_claims = true.
(* the request carries a token issued to [U] *)
Hypothesis Htoken : verified env req = Some (claims_of U).
Hypothesis Hpost : method req = POST.
Hypothesis Hbody :
  get_json req = ReviewData.mk (Some place_id) (Some text) (Some rating).
Hypothesis Hpresent : place_id <> "" /\ text <> "".
(* the rating is an integer that SQLite can hold *)
Hypothesis Hrating : Py.int rating = inr n /\ Query.fits_integer n = true.
Hypothesis Hplace : exists p, In p (place_table s) /\ Place.id p = place_id.
Hypothesis Hfresh : forall r, In r (review_table s) -> Review.id r <> new_id.

Lemma delete_user_run :
  serve (delete_user env admin_req (User.id U)) s
    = (mkResponse (jsonify_message "User deleted successfully") 200,
       Query.delete_row (RUser U)
         (Query.disown_places (User.id U) (Query.delete_reviews_of_user (User.id U) s))).
Proof.
  destruct Hadmin as [Hv Ha]. destruct Hs as (Hnd & _).
  pose proof (find_by_key User.id _ _ Hnd HU) as Hget.
  unfold serve, delete_user. rewrite admin_required_eq, Hv, Ha.
  unfold delete_user_view, or_return, bind, try_except, query, view,
    db_session_delete, db_session_commit, db_session_rollback, statement, ret.
  cbn. unfold Query.get_user. rewrite Hget. cbn.
  rewrite (Hreliable 0%nat) by lia; cbn.
  rewrite (Hreliable 1%nat) by lia; cbn.
  rewrite (Hreliable 2%nat) by lia; cbn.
  rewrite (Hreliable 3%nat) by lia; cbn.
  now rewrite Halone.
Qed.

(** X15. Deleting an identity does not withdraw its tokens: after an admin
    has deleted the identity [U], a Create Review that carries a token
    issued to [U] is still answered 201, and the review is stored under
    [U]'s id although no identity has that id any more. (The handlers trust
    the claims of the token and never look the subject up.) *)
Theorem token_outlives_identity :
  let s1 := snd (serve (delete_user env admin_req (User.id U)) s) in
  let review := Review.mk new_id (User.id U) place_id (Py.strip text) n in
  (forall u, In u (user_table s1) -> User.id u <> User.id U) /\
  serve (reviews env new_id req tt) s1
    = (mkResponse (JObj (Review.to_dict review)) 201,
       mkStore (user_table s1) (place_table s1) (review_table s1 ++ [review])).
Proof.
  cbn zeta. rewrite delete_user_run. cbn [snd].
  set (s1 := Query.delete_row _ _).
  destruct Hrating as [Hint Hfits].
  split.
  - intros u HIn Hid. cbn in HIn. apply filter_In in HIn. destruct HIn as [_ HIn].
    now rewrite Hid, String.eqb_refl in HIn.
  - assert (exists p, In p (place_table s1) /\ Place.id p = place_id) as Hplace1.
    { destruct Hplace as (p & Hp & Hid).
      exists (if eqb_opt (Place.owner_id p) (User.id U) then Place.set_owner_id None p else p).
      split; [|now destruct (eqb_opt _ _)].
      cbn. apply in_map_iff. now exists p. }
    assert (reliable env 2) as Hrel2 by (intros k Hk; apply Hreliable; lia).
    rewrite (reviews_post_eq env req (claims_of U) new_id s1 place_id text rating
               Hpost Htoken); try (now rewrite Hbody); trivial.
    cbn zeta. cbn [claims_of Jwt.sub]. rewrite Hint, Hfits. cbn [negb].
    rewrite (proj2 (review_by_content_none _ _ _ _ _)).
    + rewrite (Hrel2 0%nat), (Hrel2 1%nat), Halone by lia.
      erewrite (count_fresh Review.id); [reflexivity | reflexivity |].
      intros r HIn. cbn in HIn. apply filter_In in HIn. now apply Hfresh.
    + intros r HIn Hc. cbn in HIn. apply filter_In in HIn. destruct HIn as [_ HIn].
      unfold Review.content in Hc. injection Hc as Hu _ _ _.
      now rewrite Hu, String.eqb_refl in HIn.
Qed.

End TokenOutlivesIdentity.

(* ------------------------------------------------------------------ *)
(** ** Seeding *)

Section InitDb.

Variable env : Env.
Variable i : Seed.ids.

Hypothesis Halone : alone env.
Hypothesis Hnf : never_fails env.

Ltac decide_eqb :=
  repeat match goal with
         | |- context [(?a =? ?a)%string] => rewrite (String.eqb_refl a)
         | |- context [(?a =? ?b)%string] =>
             rewrite (proj2 (String.eqb_neq a b))
               by (assumption || (apply not_eq_sym; assumption))
         end.

Lemma seed_places_run (s : Store) (n : nat) (j : option Jwt.t) :
  NoDup [Seed.p1 i; Seed.p2 i; Seed.p3 i; Seed.p4 i] ->
  exists n',
    seed_places env i (mkCtx s (fun x => x) [] n j)
    = (inr tt,
       mkCtx (match place_table s with
              | [] => with_places [Seed.place1 i; Seed.place2 i;
                                   Seed.place3 i; Seed.place4 i] s
              | _ => s
              end) (fun x => x) [] n' j).
Proof.
  intros Hnd. unfold seed_places, bind, query, view, statement, db_session_commit, ret.
  cbn. destruct (place_table s) as [|p l] eqn:E; cbn.
  - rewrite !Hnf. cbn. rewrite Halone, E.
    inversion Hnd as [|? ? H1 Hnd1]; subst. inversion Hnd1 as [|? ? H2 Hnd2]; subst.
    inversion Hnd2 as [|? ? H3 Hnd3]; subst. cbn in H1, H2, H3.
    assert (Seed.p1 i <> Seed.p2 i /\ Seed.p1 i <> Seed.p3 i /\ Seed.p1 i <> Seed.p4 i /\
            Seed.p2 i <> Seed.p3 i /\ Seed.p2 i <> Seed.p4 i /\ Seed.p3 i <> Seed.p4 i)
      as (? & ? & ? & ? & ? & ?) by (repeat split; intros ?; intuition congruence).
    unfold Query.count. cbn. decide_eqb. cbn. eexists. reflexivity.
  - eexists. reflexivity.
Qed.

Lemma find_app_some {A} (f : A -> bool) (l l' : list A) (x : A) :
  find f l = Some x -> find f (l ++ l') = Some x.
Proof.
  induction l as [|a l IH]; cbn; [discriminate|].
  destruct (f a); [trivial | exact IH].
Qed.

Lemma find_none_forall {A} (f : A -> bool) (l : list A) :
  find f l = None -> forall x, In x l -> f x = false.
Proof. intros H x Hx. exact (find_none f l H x Hx). Qed.

Lemma count_app {A} (f : A -> bool) (l l' : list A) :
  Query.count f (l ++ l') = (Query.count f l + Query.count f l')%nat.
Proof. unfold Query.count. now rewrite filter_app, length_app. Qed.

Lemma count_none {A} (f : A -> bool) (l : list A) :
  (forall x, In x l -> f x = false) -> Query.count f l = 0%nat.
Proof.
  unfold Query.count. induction l as [|a l IH]; cbn; intros H; [reflexivity|].
  rewrite (H a) by now left. apply IH. intros x Hx. apply H. now right.
Qed.

Lemma ensure_accounts_run (s : Store) (n : nat) (j : option Jwt.t) :
  (forall u, In u (user_table s) -> User.id u <> Seed.admin i /\ User.id u <> Seed.demo i) ->
  Seed.admin i <> Seed.demo i ->
  exists n',
    ensure_accounts env i (mkCtx s (fun x => x) [] n j)
    = (inr tt,
       mkCtx (with_users
                ((user_table s
                  ++ match Query.user_by_email Seed.admin_email s with
                     | None => [User.mk (Seed.admin i) "Admin" "User" Seed.admin_email
                                  (generate_password_hash env Seed.admin_pw) true]
                     | Some _ => []
                     end)
                 ++ match Query.user_by_email Seed.demo_email s with
                    | None => [User.mk (Seed.demo i) "Demo" "User" Seed.demo_email
                                 (generate_password_hash env Seed.demo_pw) false]
                    | Some _ => []
                    end) s)
             (fun x => x) [] n' j).
Proof.
  intros Hfresh Hne.
  assert (forall u, In u (user_table s) -> User.id u <> Seed.admin i) as Hfa
    by (intros u Hu; now apply Hfresh).
  assert (forall u, In u (user_table s) -> User.id u <> Seed.demo i) as Hfd
    by (intros u Hu; now apply Hfresh).
  unfold ensure_accounts, bind, query, view, db_session_add, statement,
    db_session_commit, ret.
  cbn. unfold Query.user_by_email.
  destruct (find (fun u => (User.email u =? Seed.admin_email)%string) (user_table s))
    as [a|] eqn:Fa; cbn.
  - destruct (find (fun u => (User.email u =? Seed.demo_email)%string) (user_table s))
      as [d|] eqn:Fd; cbn.
    + rewrite ?Hnf; cbn; rewrite ?Halone; cbn. rewrite !app_nil_r.
      destruct s; eexists; reflexivity.
    + rewrite ?Hnf; cbn; rewrite ?Hnf; cbn; rewrite ?Halone; cbn. rewrite !app_nil_r.
      erewrite (count_fresh User.id); [|reflexivity|exact Hfd].
      erewrite (count_fresh User.email);
        [|reflexivity|intros y Hy; apply String.eqb_neq; exact (find_none_forall _ _ Fd y Hy)].
      cbn. eexists. reflexivity.
  - rewrite ?Hnf; cbn.
    destruct (find (fun u => (User.email u =? Seed.demo_email)%string) (user_table s))
      as [d|] eqn:Fd; cbn.
    + rewrite (find_app_some _ _ _ _ Fd). cbn.
      rewrite ?Hnf; cbn; rewrite ?Halone; cbn. rewrite !app_nil_r.
      erewrite (count_fresh User.id); [|reflexivity|exact Hfa].
      erewrite (count_fresh User.email);
        [|reflexivity|intros y Hy; apply String.eqb_neq; exact (find_none_forall _ _ Fa y Hy)].
      cbn. eexists. reflexivity.
    + rewrite (find_app_none _ _ _ Fd). cbn.
      rewrite ?Hnf; cbn; rewrite ?Hnf; cbn; rewrite ?Halone; cbn.
      rewrite !count_app.
      rewrite (count_none (fun v => (User.id v =? Seed.admin i)%string) (user_table s))
        by (intros y Hy; apply String.eqb_neq; now apply Hfa).
      rewrite (count_none (fun v => (User.email v =? Seed.admin_email)%string) (user_table s))
        by (exact (find_none_forall _ _ Fa)).
      rewrite (count_none (fun v => (User.id v =? Seed.demo i)%string) (user_table s))
        by (intros y Hy; apply String.eqb_neq; now apply Hfd).
      rewrite (count_none (fun v => (User.email v =? Seed.demo_email)%string) (user_table s))
        by (exact (find_none_forall _ _ Fd)).
      unfold Query.count. cbn. decide_eqb. cbn. eexists. reflexivity.
Qed.

Lemma only_admin_run (s : Store) (n : nat) (j : option Jwt.t) :
  exists n',
    only_admin env (mkCtx s (fun x => x) [] n j)
    = (inr tt,
       mkCtx (match Query.user_by_email Seed.admin_email (Seed.revoke_all s) with
              | Some admin_row => Seed.grant admin_row (Seed.revoke_all s)
              | None => Seed.revoke_all s
              end) (fun x => x) [] n' j).
Proof.
  unfold only_admin, try_except, bind, query, view, statement, db_session_commit, ret.
  cbn. rewrite ?Hnf; cbn; rewrite ?Hnf; cbn; rewrite ?Halone; cbn.
  match goal with
  | |- context [find ?f ?l] => destruct (find f l) as [r|]
  end; cbn.
  - rewrite ?Hnf; cbn; rewrite ?Hnf; cbn; rewrite ?Halone; cbn.
    eexists. reflexivity.
  - eexists. reflexivity.
Qed.

Lemma ensure_extra_place_run (s : Store) (n : nat) (j : option Jwt.t) :
  (forall p, In p (place_table s) -> Place.id p <> Seed.p_extra i) ->
  exists n',
    ensure_extra_place env i (mkCtx s (fun x => x) [] n j)
    = (inr tt,
       mkCtx (match Seed.beach_exists s with
              | None => with_places (place_table s ++ [Seed.place_extra i]) s
              | Some _ => s
              end) (fun x => x) [] n' j).
Proof.
  intros Hfresh.
  unfold ensure_extra_place, try_except, bind, query, view, db_session_add, statement,
    db_session_commit, ret.
  cbn. destruct (Seed.beach_exists s) as [p|]; cbn.
  - eexists. reflexivity.
  - rewrite ?Hnf; cbn; rewrite ?Hnf; cbn; rewrite ?Halone; cbn.
    erewrite (count_fresh Place.id); [|reflexivity|exact Hfresh].
    cbn. eexists. reflexivity.
Qed.

Variable s : Store.

Hypothesis Hplaces : NoDup [Seed.p1 i; Seed.p2 i; Seed.p3 i; Seed.p4 i; Seed.p_extra i].
Hypothesis Husers :
  Seed.admin i <> Seed.demo i /\
  forall u, In u (user_table s) -> User.id u <> Seed.admin i /\ User.id u <> Seed.demo i.
Hypothesis Hextra : forall p, In p (place_table s) -> Place.id p <> Seed.p_extra i.

  (** the database [init_db] leaves, block after block *)
Let seeded : Store :=
  match place_table s with
  | [] => with_places [Seed.place1 i; Seed.place2 i; Seed.place3 i; Seed.place4 i] s
  | _ => s
  end.

Let with_accounts : Store :=
  with_users
    ((user_table seeded
      ++ match Query.user_by_email Seed.admin_email seeded with
         | None => [User.mk (Seed.admin i) "Admin" "User" Seed.admin_email
                      (generate_password_hash env Seed.admin_pw) true]
         | Some _ => []
         end)
     ++ match Query.user_by_email Seed.demo_email seeded with
        | None => [User.mk (Seed.demo i) "Demo" "User" Seed.demo_email
                     (generate_password_hash env Seed.demo_pw) false]
        | Some _ => []
        end) seeded.

Let one_admin : Store :=
  match Query.user_by_email Seed.admin_email (Seed.revoke_all with_accounts) with
  | Some admin_row => Seed.grant admin_row (Seed.revoke_all with_accounts)
  | None => Seed.revoke_all with_accounts
  end.

Let booted : Store :=
  match Seed.beach_exists one_admin with
  | None => with_places (place_table one_admin ++ [Seed.place_extra i]) one_admin
  | Some _ => one_admin
  end.

Lemma boot_run : boot env i s = (None, booted).
Proof.
  assert (NoDup [Seed.p1 i; Seed.p2 i; Seed.p3 i; Seed.p4 i]) as Hnd4.
  { apply (NoDup_remove_1 [_; _; _; _] []) in Hplaces.
    now rewrite app_nil_r in Hplaces. }
  assert (~ In (Seed.p_extra i) [Seed.p1 i; Seed.p2 i; Seed.p3 i; Seed.p4 i]) as Hx.
  { apply (NoDup_remove_2 [_; _; _; _] []) in Hplaces.
    now rewrite app_nil_r in Hplaces. }
  destruct Husers as [Hne Hfresh].
  unfold boot, init_db, bind.
  destruct (seed_places_run s 0 None Hnd4) as [n1 ->]. fold seeded.
  destruct (ensure_accounts_run seeded n1 None) as [n2 ->]; trivial.
  { unfold seeded. destruct (place_table s); exact Hfresh. }
  fold with_accounts.
  destruct (only_admin_run with_accounts n2 None) as [n3 ->]. fold one_admin.
  destruct (ensure_extra_place_run one_admin n3 None) as [n4 ->]; [|reflexivity].
  assert (place_table one_admin = place_table seeded) as ->.
  { unfold one_admin.
    destruct (Query.user_by_email Seed.admin_email (Seed.revoke_all with_accounts));
      reflexivity. }
  unfold seeded. destruct (place_table s) as [|p l] eqn:E; [|now rewrite <- E in *].
  cbn. intros p [<- | [<- | [<- | [<- | []]]]] Hid; apply Hx; cbn in *; tauto.
Qed.

Hypothesis Hs : consistent s.

Lemma NoDup_snoc {A} (key : A -> string) (l : list A) (x : A) :
  NoDup (map key l) -> (forall y, In y l -> key y <> key x) ->
  NoDup (map key (l ++ [x])).
Proof.
  intros Hnd Hfresh. rewrite map_app. cbn.
  apply NoDup_app; [exact Hnd | repeat constructor; easy |].
  intros k Hk [<- | []]. apply in_map_iff in Hk. destruct Hk as (y & Hy & HIn).
  now apply (Hfresh y HIn).
Qed.

Lemma seeded_users : user_table seeded = user_table s.
Proof. unfold seeded. now destruct (place_table s). Qed.

Lemma with_accounts_unique :
  NoDup (map User.id (user_table with_accounts)) /\
  NoDup (map User.email (user_table with_accounts)) /\
  (exists a, In a (user_table with_accounts) /\ User.email a = Seed.admin_email) /\
  (exists d, In d (user_table with_accounts) /\ User.email d = Seed.demo_email).
Proof.
  destruct Hs as (Hid & Hem & _). destruct Husers as [Hne Hfresh].
  unfold with_accounts. cbn [user_table with_users].
  unfold Query.user_by_email. rewrite seeded_users.
  destruct (find (fun u => (User.email u =? Seed.admin_email)%string) (user_table s))
    as [a|] eqn:Fa;
    destruct (find (fun u => (User.email u =? Seed.demo_email)%string) (user_table s))
      as [d|] eqn:Fd; rewrite ?app_nil_r.
  - repeat split; trivial.
    + exists a. apply find_some in Fa. now rewrite String.eqb_eq in Fa.
    + exists d. apply find_some in Fd. now rewrite String.eqb_eq in Fd.
  - repeat split.
    + apply NoDup_snoc; [exact Hid|]. intros y Hy. now apply Hfresh.
    + apply NoDup_snoc; [exact Hem|]. intros y Hy.
      apply String.eqb_neq. exact (find_none_forall _ _ Fd y Hy).
    + exists a. apply find_some in Fa. rewrite String.eqb_eq in Fa.
      split; [apply in_or_app; now left | tauto].
    + eexists. split; [apply in_or_app; right; now left | reflexivity].
  - repeat split.
    + apply NoDup_snoc; [exact Hid|]. intros y Hy. now apply Hfresh.
    + apply NoDup_snoc; [exact Hem|]. intros y Hy.
      apply String.eqb_neq. exact (find_none_forall _ _ Fa y Hy).
    + eexists. split; [apply in_or_app; right; now left | reflexivity].
    + exists d. apply find_some in Fd. rewrite String.eqb_eq in Fd.
      split; [apply in_or_app; now left | tauto].
  - repeat split.
    + apply NoDup_snoc; [apply NoDup_snoc; [exact Hid|]|].
      * intros y Hy. now apply Hfresh.
      * intros y Hy. apply in_app_or in Hy. destruct Hy as [Hy | [<- | []]].
        -- now apply Hfresh.
        -- exact Hne.
    + apply NoDup_snoc; [apply NoDup_snoc; [exact Hem|]|].
      * intros y Hy. apply String.eqb_neq. exact (find_none_forall _ _ Fa y Hy).
      * intros y Hy. apply in_app_or in Hy. destruct Hy as [Hy | [<- | []]].
        -- apply String.eqb_neq. exact (find_none_forall _ _ Fd y Hy).
        -- discriminate.
    + eexists. split; [apply in_or_app; left; apply in_or_app; right; now left
                      | reflexivity].
    + eexists. split; [apply in_or_app; right; now left | reflexivity].
Qed.

Lemma key_injective {A} (key : A -> string) (l : list A) (a b : A) :
  NoDup (map key l) -> In a l -> In b l -> key a = key b -> a = b.
Proof.
  intros Hnd Ha Hb E.
  pose proof (find_by_key key l a Hnd Ha) as Fa.
  pose proof (find_by_key key l b Hnd Hb) as Fb.
  rewrite E in Fa. congruence.
Qed.

Lemma only_admin_flags (x : Store) :
  NoDup (map User.id (user_table x)) ->
  NoDup (map User.email (user_table x)) ->
  (exists a, In a (user_table x) /\ User.email a = Seed.admin_email) ->
  exists r,
    Query.user_by_email Seed.admin_email (Seed.revoke_all x) = Some r /\
    forall u, In u (user_table (Seed.grant r (Seed.revoke_all x))) ->
              (User.is_admin u = true <-> User.email u = Seed.admin_email).
Proof.
  intros Hid Hem (a & Ha & Hae).
  unfold Query.user_by_email.
  destruct (find (fun u => (User.email u =? Seed.admin_email)%string)
              (user_table (Seed.revoke_all x))) as [r|] eqn:F.
  - exists r. split; [reflexivity|].
    apply find_some in F. destruct F as [Hr Hre]. apply String.eqb_eq in Hre.
    cbn in Hr. apply in_map_iff in Hr. destruct Hr as (w0 & <- & Hw0). cbn in Hre.
    intros u Hu. cbn in Hu. rewrite map_map in Hu.
    apply in_map_iff in Hu. destruct Hu as (w & <- & Hw). cbn.
    destruct (String.eqb_spec (User.id w) (User.id w0)) as [E|N]; cbn.
    + rewrite (key_injective User.id _ w w0 Hid Hw Hw0 E). tauto.
    + split; [discriminate|]. intros Hwe. exfalso. apply N. f_equal.
      apply (key_injective User.email _ w w0 Hem Hw Hw0). congruence.
  - exfalso.
    assert (In (User.mk (User.id a) (User.first_name a) (User.last_name a)
                  (User.email a) (User.password a) false)
               (user_table (Seed.revoke_all x))) as HIn
      by (cbn; apply in_map_iff; now exists a).
    apply (find_none _ _ F) in HIn. cbn in HIn.
    now rewrite Hae, String.eqb_refl in HIn.
Qed.

(** X16. After [init_db], the storage engine not failing and the ids drawn
    being fresh, there is an identity with the e-mail admin@example.com, and
    an identity is an administrator exactly when it has that e-mail:
    whoever else was an administrator has lost the flag. *)
Theorem init_db_only_admin :
  fst (boot env i s) = None /\
  (exists a, In a (user_table (snd (boot env i s))) /\
             User.email a = Seed.admin_email) /\
  (forall u, In u (user_table (snd (boot env i s))) ->
             (User.is_admin u = true <-> User.email u = Seed.admin_email)).
Proof.
  rewrite boot_run. cbn [fst snd]. split; [reflexivity|].
  destruct with_accounts_unique as (Hid & Hem & Hadm & _).
  destruct (only_admin_flags with_accounts Hid Hem Hadm) as (r & Hr & Hflags).
  assert (user_table booted = user_table (Seed.grant r (Seed.revoke_all with_accounts)))
    as ->.
  { unfold booted. destruct (Seed.beach_exists one_admin); cbn [user_table with_places];
      unfold one_admin; now rewrite Hr. }
  split; [|exact Hflags].
  destruct Hadm as (a & Ha & Hae).
  eexists. split.
  - cbn. rewrite map_map. apply in_map_iff. exists a. split; [reflexivity | exact Ha].
  - cbn. now destruct (User.id a =? User.id r)%string.
Qed.

Lemma revoke_grant_revoke (r : User.t) (x : Store) :
  user_table (Seed.revoke_all (Seed.grant r (Seed.revoke_all x)))
  = user_table (Seed.revoke_all x).
Proof.
  cbn. rewrite !map_map. apply map_ext. intros u. cbn.
  now destruct (User.id u =? User.id r)%string.
Qed.

Lemma revoke_revoke (x : Store) :
  user_table (Seed.revoke_all (Seed.revoke_all x)) = user_table (Seed.revoke_all x).
Proof. cbn. rewrite !map_map. now apply map_ext. Qed.

Lemma booted_tables :
  review_table booted = review_table s /\
  (exists more, place_table booted = (place_table s ++ more)%list) /\
  (exists more, user_table (Seed.revoke_all booted)
                = (user_table (Seed.revoke_all s) ++ more)%list).
Proof.
  assert (review_table one_admin = review_table s
          /\ place_table one_admin = place_table seeded
          /\ user_table (Seed.revoke_all one_admin)
             = user_table (Seed.revoke_all with_accounts)) as (Hr & Hp & Hu).
  { unfold one_admin.
    destruct (Query.user_by_email Seed.admin_email (Seed.revoke_all with_accounts)).
    - rewrite revoke_grant_revoke. cbn. unfold seeded. now destruct (place_table s).
    - rewrite revoke_revoke. cbn. unfold seeded. now destruct (place_table s). }
  assert (exists more, place_table seeded = (place_table s ++ more)%list) as [m1 Hm1].
  { unfold seeded. destruct (place_table s) as [|p l] eqn:E.
    - eexists. cbn. reflexivity.
    - exists []. now rewrite E, app_nil_r. }
  assert (exists more, user_table (Seed.revoke_all with_accounts)
                       = (user_table (Seed.revoke_all s) ++ more)%list) as [m2 Hm2].
  { unfold with_accounts. cbn. rewrite seeded_users, <- app_assoc, map_app.
    eexists. reflexivity. }
  unfold booted. destruct (Seed.beach_exists one_admin).
  - rewrite Hr, Hp, Hu. split; [reflexivity|]. split; [now exists m1 | now exists m2].
  - cbn [review_table place_table with_places].
    split; [exact Hr|]. split.
    + rewrite Hp, Hm1, <- app_assoc. eexists. reflexivity.
    + exists m2. rewrite <- Hm2, <- Hu. reflexivity.
Qed.

(** X17. [init_db] removes nothing: the reviews are what they were, the
    places that were stored are still the first places, unchanged, and the
    identities that were stored are still the first identities, unchanged
    but for the admin flag. *)
Theorem init_db_keeps_rows :
  review_table (snd (boot env i s)) = review_table s /\
  (exists more, place_table (snd (boot env i s)) = (place_table s ++ more)%list) /\
  (exists more, user_table (Seed.revoke_all (snd (boot env i s)))
                = (user_table (Seed.revoke_all s) ++ more)%list).
Proof. rewrite boot_run. exact booted_tables. Qed.

Lemma find_email_exists (e : string) (l : list User.t) :
  (exists a, In a l /\ User.email a = e) ->
  exists r, find (fun u => (User.email u =? e)%string) l = Some r.
Proof.
  intros (a & Ha & Hae).
  destruct (find (fun u => (User.email u =? e)%string) l) as [r|] eqn:F; [now exists r|].
  apply (find_none _ _ F) in Ha. now rewrite Hae, String.eqb_refl in Ha.
Qed.

  (** what a second run of [init_db] finds *)
Lemma boot_settled :
  place_table (snd (boot env i s)) <> [] /\
  (exists a, Query.user_by_email Seed.admin_email (snd (boot env i s)) = Some a) /\
  (exists d, Query.user_by_email Seed.demo_email (snd (boot env i s)) = Some d) /\
  (exists b, Seed.beach_exists (snd (boot env i s)) = Some b) /\
  (exists r, Query.user_by_email Seed.admin_email (Seed.revoke_all (snd (boot env i s)))
             = Some r /\
             Seed.grant r (Seed.revoke_all (snd (boot env i s))) = snd (boot env i s)).
Proof.
  rewrite boot_run. cbn [snd].
  destruct with_accounts_unique as (Hid & Hem & Hadm & Hdemo).
  destruct (only_admin_flags with_accounts Hid Hem Hadm) as (r & Hr & _).
  assert (one_admin = Seed.grant r (Seed.revoke_all with_accounts)) as Hone
    by (unfold one_admin; now rewrite Hr).
  assert (user_table booted = user_table one_admin) as Hbu
    by (unfold booted; now destruct (Seed.beach_exists one_admin)).
  assert (forall e, (exists a, In a (user_table with_accounts) /\ User.email a = e) ->
                    exists a, In a (user_table booted) /\ User.email a = e) as Hkeep.
  { intros e (a & Ha & Hae). rewrite Hbu, Hone. cbn. rewrite map_map.
    eexists. split; [apply in_map_iff; exists a; split; [reflexivity | exact Ha]|].
    cbn. now destruct (User.id a =? User.id r)%string. }
  split; [|split; [|split; [|split]]].
  - unfold booted. destruct (Seed.beach_exists one_admin).
    + rewrite Hone. cbn. unfold seeded. destruct (place_table s) eqn:E; cbn;
        [discriminate | now rewrite E].
    + cbn. now destruct (place_table one_admin).
  - apply find_email_exists, Hkeep, Hadm.
  - apply find_email_exists, Hkeep, Hdemo.
  - unfold booted. destruct (Seed.beach_exists one_admin) as [b|] eqn:B.
    + now exists b.
    + unfold Seed.beach_exists in *. cbn [place_table with_places].
      rewrite (find_app_none _ _ _ B). cbn. eexists. reflexivity.
  - exists r.
    assert (user_table (Seed.revoke_all booted) = user_table (Seed.revoke_all with_accounts))
      as Hrev.
    { cbn. rewrite Hbu, Hone. apply revoke_grant_revoke. }
    split.
    + unfold Query.user_by_email in *. now rewrite Hrev.
    + unfold Seed.grant at 1. rewrite Hrev.
      assert (forall l x, with_users l (Seed.revoke_all x) = with_users l x) as Hw
        by (intros l x; reflexivity).
      rewrite Hw.
      unfold booted. destruct (Seed.beach_exists one_admin); rewrite Hone; reflexivity.
Qed.

End InitDb.

Section InitDbAgain.

Variable env : Env.
Variables i i' : Seed.ids.
Variable s : Store.

Hypothesis Halone : alone env.
Hypothesis Hnf : never_fails env.
Hypothesis Hplaces : NoDup [Seed.p1 i; Seed.p2 i; Seed.p3 i; Seed.p4 i; Seed.p_extra i].
Hypothesis Husers :
  Seed.admin i <> Seed.demo i /\
  forall u, In u (user_table s) -> User.id u <> Seed.admin i /\ User.id u <> Seed.demo i.
Hypothesis Hextra : forall p, In p (place_table s) -> Place.id p <> Seed.p_extra i.
Hypothesis Hs : consistent s.

(** X18. [init_db] is idempotent: run again on the database it has left,
    whatever ids are drawn the second time, it inserts nothing and leaves
    that database as it is. *)
Theorem init_db_idempotent :
  boot env i' (snd (boot env i s)) = (None, snd (boot env i s)).
Proof.
  destruct (boot_settled env i Halone Hnf s Hplaces Husers Hextra Hs)
    as (Hne & (a & Ha) & (d & Hd) & (b & Hb) & (r & Hr & Hfix)).
  set (B := snd (boot env i s)) in *.
  unfold boot, init_db, bind.
  assert (seed_places env i' (mkCtx B (fun x => x) [] 0%nat None)
          = (inr tt, mkCtx B (fun x => x) [] 0%nat None)) as ->.
  { unfold seed_places, bind, query, view, ret. cbn.
    destruct (place_table B); [contradiction | reflexivity]. }
  assert (ensure_accounts env i' (mkCtx B (fun x => x) [] 0%nat None)
          = (inr tt, mkCtx B (fun x => x) [] 1%nat None)) as ->.
  { unfold ensure_accounts, bind, query, view, db_session_commit, ret. cbn.
    rewrite Ha. cbn. rewrite Hd. cbn. now rewrite Hnf, Halone. }
  destruct (only_admin_run env Halone Hnf B 1 None) as [n ->].
  rewrite Hr, Hfix.
  unfold ensure_extra_place, try_except, bind, query, view, ret. cbn.
  now rewrite Hb.
Qed.

End InitDbAgain.

(* ------------------------------------------------------------------ *)
(** ** The in-memory comment server (server_simple.py) *)

Lemma handle_add_review_step (now : Z) (data : ServerSimple.review_data)
  (db : list ServerSimple.review) :
  (status (fst (ServerSimple.handle_add_review now data db)) = 400 /\
   snd (ServerSimple.handle_add_review now data db) = db) \/
  exists r,
    snd (ServerSimple.handle_add_review now data db) = (db ++ [r])%list /\
    fst (ServerSimple.handle_add_review now data db)
      = mkResponse (JObj [ ("success", JBool true);
                           ("message", JStr "Commentaire ajouté avec succès");
                           ("review", ServerSimple.review_to_json r) ]) 201 /\
    simple_valid r /\
    ServerSimple.id r = (Z.of_nat (List.length db) + 1)%Z /\
    ServerSimple.timestamp r = now /\
    Some (ServerSimple.place_id r) = ServerSimple.d_place_id data.
Proof.
  unfold ServerSimple.handle_add_review.
  destruct data as [[p|] [c|] [z|] [u|]]; cbn;
    try (left; split; reflexivity);
    try (rewrite ?andb_false_r; cbn; left; split; reflexivity).
  unfold Py.truthy.
  destruct (String.eqb_spec p "") as [|Hp]; cbn; [left; now split|].
  destruct (String.eqb_spec c "") as [|Hc]; cbn; [left; now split|].
  destruct (Z.eqb_spec z 0) as [|Hz]; cbn; [left; now split|].
  destruct (String.eqb_spec u "") as [|Hu]; cbn; [left; now split|].
  destruct (Z.ltb_spec z 1); cbn; [left; now split|].
  destruct (Z.gtb_spec z 5); cbn; [left; now split|].
  destruct (Nat.leb_spec (Py.len (Py.strip c)) 9); cbn; [left; now split|].
  right. eexists. split; [reflexivity|]. split; [reflexivity|].
  unfold simple_valid. cbn.
  repeat split; trivial; try lia. apply strip_idem.
Qed.

(** X19. Whatever comments are posted to server_simple.py, starting from the
    empty list, every comment it holds has a rating between 1 and 5, a
    trimmed text of at least ten characters (characters, not bytes: an
    accented letter counts once), a place and an author, and the comments
    are numbered 1, 2, 3, ... in the order of their arrival. *)
Theorem simple_reviews_always_valid (posts : list (Z * ServerSimple.review_data)) :
  let db := simple_posts posts [] in
  (forall r, In r db -> simple_valid r) /\
  map ServerSimple.id db = map Z.of_nat (seq 1 (List.length db)).
Proof.
  cbn zeta.
  assert (forall db,
            (forall r, In r db -> simple_valid r) /\
            map ServerSimple.id db = map Z.of_nat (seq 1 (List.length db)) ->
            (forall r, In r (simple_posts posts db) -> simple_valid r) /\
            map ServerSimple.id (simple_posts posts db)
              = map Z.of_nat (seq 1 (List.length (simple_posts posts db)))) as H.
  { induction posts as [|[now data] rest IH]; intros db Hdb; [exact Hdb|].
    cbn [simple_posts]. apply IH. destruct Hdb as [Hv Hid].
    destruct (handle_add_review_step now data db)
      as [[_ ->] | (r & -> & _ & Hr & Hrid & _)]; [now split|].
    split.
    - intros r' HIn. apply in_app_or in HIn. destruct HIn as [HIn | [<- | []]]; auto.
    - rewrite map_app, length_app, Hid. cbn [List.length map].
      rewrite Nat.add_1_r, seq_S, map_app. cbn. rewrite Hrid. do 2 f_equal. lia. }
  apply H. split; [intros r [] | reflexivity].
Qed.

(** X20. A comment that was accepted is listed: when POST /api/reviews is
    answered 201 for a place, GET /api/reviews filtered on that place lists
    the comments it listed before followed by the new one, and its count is
    one more; without a filter the count is the number of comments held. *)
Theorem simple_add_then_get (now : Z) (data : ServerSimple.review_data)
  (db : list ServerSimple.review) (p : string) :
  status (fst (ServerSimple.handle_add_review now data db)) = 201 ->
  ServerSimple.d_place_id data = Some p ->
  let db' := snd (ServerSimple.handle_add_review now data db) in
  let before := filter (fun r => (ServerSimple.place_id r =? p)%string) db in
  exists r,
    db' = (db ++ [r])%list /\
    ServerSimple.handle_api_get (Some p) db'
      = mkResponse
          (JObj [ ("success", JBool true);
                  ("reviews", JList (map ServerSimple.review_to_json before
                                       ++ [ServerSimple.review_to_json r]));
                  ("count", JInt (Z.of_nat (List.length before) + 1)) ]) 200 /\
    ServerSimple.handle_api_get None db'
      = mkResponse
          (JObj [ ("success", JBool true);
                  ("reviews", JList (map ServerSimple.review_to_json db'));
                  ("count", JInt (Z.of_nat (List.length db) + 1)) ]) 200.
Proof.
  intros Hok Hp. cbn zeta.
  destruct (handle_add_review_step now data db)
    as [[Hbad _] | (r & -> & _ & _ & _ & _ & Hplace)]; [congruence|].
  exists r. split; [reflexivity|].
  rewrite Hp in Hplace. injection Hplace as Hplace.
  unfold ServerSimple.handle_api_get. cbn [Py.truthy_opt Py.or_empty].
  split.
  - unfold Py.truthy.
    destruct (String.eqb_spec p "") as [->|_].
    + exfalso. revert Hok. unfold ServerSimple.handle_add_review. rewrite Hp. cbn.
      discriminate.
    + cbn. rewrite filter_app. cbn. rewrite Hplace, String.eqb_refl.
      rewrite map_app, length_app, Nat2Z.inj_add. reflexivity.
  - rewrite length_app, Nat2Z.inj_add. reflexivity.
Qed.

(** X21. Login of server_simple.py matches the credentials exactly as they
    are sent: it is answered 200 exactly when the table has the e-mail, as
    sent, with that password, and 401 otherwise; the token is "token_"
    followed by the e-mail with every "@" and "." replaced by "_", so it is
    the same for whoever logs in with that e-mail, whatever the table and
    the password. *)
Theorem simple_login_exact (db : list (string * ServerSimple.account))
  (email password : option string) :
  let resp := ServerSimple.handle_login db email password in
  (status resp = 200 \/ status resp = 401) /\
  (status resp = 200 <->
   exists e acc, email = Some e /\ ServerSimple.lookup db e = Some acc /\
                 password = Some (ServerSimple.password acc)) /\
  (status resp = 200 ->
   exists e rest,
     email = Some e /\
     body resp = JObj (("success", JBool true)
                       :: ("token",
                           JStr ("token_" ++ ServerSimple.replace_char "." "_"
                                               (ServerSimple.replace_char "@" "_" e)))
                       :: rest)).
Proof.
  cbn zeta. unfold ServerSimple.handle_login.
  destruct email as [e|]; cbn.
  2: { split; [now right|]. split; [|discriminate].
       split; [discriminate|]. intros (e & acc & H & _). discriminate. }
  destruct (ServerSimple.lookup db e) as [acc|] eqn:L; cbn.
  2: { split; [now right|]. split; [|discriminate].
       split; [discriminate|]. intros (e' & acc & H & H' & _). congruence. }
  destruct password as [pw|]; cbn.
  2: { split; [now right|]. split; [|discriminate].
       split; [discriminate|]. intros (e' & acc' & _ & _ & H). discriminate. }
  destruct (String.eqb_spec pw (ServerSimple.password acc)) as [->|N]; cbn.
  - split; [now left|]. split.
    + split; [|reflexivity]. intros _. now exists e, acc.
    + intros _. eexists e, _. split; reflexivity.
  - split; [now right|]. split; [|discriminate].
    split; [discriminate|]. intros (e' & acc' & He & Hl & Hp).
    injection He as <-. rewrite L in Hl. injection Hl as <-. congruence.
Qed.

(* ------------------------------------------------------------------ *)
(** ** The reviews of the mock server (mock_server.py) *)

Lemma str_nat_inj (n m : nat) : MockServer.str_nat n = MockServer.str_nat m -> n = m.
Proof.
  unfold MockServer.str_nat. intros H.
  assert (forall k, Nat.to_uint k <> Decimal.Nil) as Hnn.
  { intros k. rewrite <- (DecimalNat.Unsigned.of_to k) at 1.
    rewrite DecimalNat.Unsigned.to_of. apply DecimalFacts.unorm_nonnil. }
  apply DecimalNat.Unsigned.to_uint_inj.
  pose proof (DecimalString.NilZero.usu _ (Hnn n)) as Hn.
  pose proof (DecimalString.NilZero.usu _ (Hnn m)) as Hm.
  rewrite H in Hn. congruence.
Qed.

Lemma NoDup_map_injective {A B} (f : A -> B) (l : list A) :
  (forall a b, f a = f b -> a = b) -> NoDup l -> NoDup (map f l).
Proof.
  intros Hinj Hnd. induction Hnd as [|a l Hnotin Hnd IH]; cbn; constructor; trivial.
  intros HIn. apply in_map_iff in HIn. destruct HIn as (b & E & Hb).
  apply Hinj in E. now subst b.
Qed.

Lemma mock_reviews_list_step (m : http_method) (data : MockServer.review_data)
  (R : list MockServer.review) :
  snd (MockServer.reviews_list m data R) = R \/
  exists text rating user place,
    data = MockServer.mkReviewData (Some text) (Some rating) (Some user) (Some place) /\
    MockServer.already_reviewed user place R = false /\
    text <> "" /\ rating <> 0%Z /\ user <> "" /\ place <> "" /\
    snd (MockServer.reviews_list m data R)
      = (R ++ [MockServer.mkReview ("r" ++ MockServer.str_nat (List.length R + 1))
                                   text rating user place])%list.
Proof.
  unfold MockServer.reviews_list.
  destruct m; [now left | | |];
    (destruct data as [[t|] [z|] [u|] [p|]]; cbn; try (now left);
     unfold Py.truthy;
     destruct (String.eqb_spec t "") as [|Ht]; cbn; [now left|];
     destruct (Z.eqb_spec z 0) as [|Hz]; cbn; [now left|];
     destruct (String.eqb_spec u "") as [|Hu]; cbn; [now left|];
     destruct (String.eqb_spec p "") as [|Hp]; cbn; [now left|];
     destruct (MockServer.already_reviewed u p R) eqn:E; cbn; [now left|];
     right; exists t, z, u, p; repeat split; trivial).
Qed.

(** X22. Whatever requests reach the reviews route of the mock server,
    starting from no review, it never holds two reviews of the same user on
    the same place (a second one is refused, whatever its text and rating),
    and its reviews are named r1, r2, r3, ... in the order of their arrival,
    so no two have the same id. *)
Theorem mock_one_review_per_user_and_place
  (reqs : list (http_method * MockServer.review_data)) :
  let R := mock_requests reqs [] in
  NoDup (map (fun r => (MockServer.user_id r, MockServer.place_id r)) R) /\
  map MockServer.id R
    = map (fun n => ("r" ++ MockServer.str_nat n)%string) (seq 1 (List.length R)) /\
  NoDup (map MockServer.id R).
Proof.
  cbn zeta.
  assert (forall R,
            NoDup (map (fun r => (MockServer.user_id r, MockServer.place_id r)) R) /\
            map MockServer.id R
              = map (fun n => ("r" ++ MockServer.str_nat n)%string) (seq 1 (List.length R)) ->
            NoDup (map (fun r => (MockServer.user_id r, MockServer.place_id r))
                       (mock_requests reqs R)) /\
            map MockServer.id (mock_requests reqs R)
              = map (fun n => ("r" ++ MockServer.str_nat n)%string)
                    (seq 1 (List.length (mock_requests reqs R)))) as H.
  { induction reqs as [|[m data] rest IH]; intros R HR; [exact HR|].
    cbn [mock_requests]. apply IH. destruct HR as [Hnd Hid].
    destruct (mock_reviews_list_step m data R)
      as [-> | (t & z & u & p & _ & Hnew & _ & _ & _ & _ & ->)]; [now split|].
    split.
    - rewrite map_app. cbn. apply NoDup_app; [exact Hnd | repeat constructor; easy |].
      intros k Hk [<- | []]. apply in_map_iff in Hk. destruct Hk as (r & Hr & HIn).
      injection Hr as Hu Hp.
      unfold MockServer.already_reviewed in Hnew.
      assert (existsb (fun r => ((MockServer.user_id r =? u)%string
                                 && (MockServer.place_id r =? p)%string)%bool) R = true)
        as Habs; [|congruence].
      apply existsb_exists. exists r. split; [exact HIn|].
      now rewrite Hu, Hp, !String.eqb_refl.
    - rewrite map_app, length_app, Hid. cbn [List.length map].
      rewrite Nat.add_1_r, seq_S, map_app. reflexivity. }
  destruct (H []) as [Hnd Hid]; [split; [constructor | reflexivity]|].
  split; [exact Hnd|]. split; [exact Hid|].
  rewrite Hid. apply NoDup_map_injective; [|apply seq_NoDup].
  intros a b E. injection E as E. now apply str_nat_inj.
Qed.

(* ------------------------------------------------------------------ *)
(** ** Passwords of the User model (app/models/user.py) *)

(** X23. With either library the model hashes and verifies consistently:
    when the bcrypt object is Flask-Bcrypt's, or when it is the plain bcrypt
    module, and the library verifies what it has hashed, the password set by
    [hash_password] is accepted by [verify_password] and by its alias
    [check_password]. And whatever the object, a user whose password is not
    set or is empty is never verified, and no method of the object is
    called. *)
Theorem user_model_hash_then_verify (b : UserModel.bcrypt) (password : string) :
  (forall generate check,
     UserModel.generate_password_hash b = Some generate ->
     UserModel.check_password_hash b = Some check ->
     generate password <> "" ->
     check (generate password) password = true ->
     UserModel.hash_password b password = UserModel.Returned (generate password) /\
     UserModel.verify_password b (Some (generate password)) password
       = UserModel.Returned true /\
     UserModel.check_password b (Some (generate password)) password
       = UserModel.Returned true) /\
  (forall hashpw salt checkpw,
     UserModel.generate_password_hash b = None ->
     UserModel.check_password_hash b = None ->
     UserModel.hashpw b = Some hashpw ->
     UserModel.gensalt b = Some salt ->
     UserModel.checkpw b = Some checkpw ->
     hashpw password salt <> "" ->
     checkpw password (hashpw password salt) = true ->
     UserModel.hash_password b password = UserModel.Returned (hashpw password salt) /\
     UserModel.verify_password b (Some (hashpw password salt)) password
       = UserModel.Returned true /\
     UserModel.check_password b (Some (hashpw password salt)) password
       = UserModel.Returned true) /\
  UserModel.verify_password b None password = UserModel.Returned false /\
  UserModel.verify_password b (Some "") password = UserModel.Returned false.
Proof.
  unfold UserModel.check_password, UserModel.hash_password, UserModel.verify_password.
  split; [|split; [|split; reflexivity]].
  - intros generate check -> -> Hne Hok. cbn. unfold Py.truthy.
    destruct (String.eqb_spec (generate password) "") as [E|_]; [contradiction|].
    cbn. now rewrite Hok.
  - intros hashpw salt checkpw -> -> -> -> -> Hne Hok. cbn. unfold Py.truthy.
    destruct (String.eqb_spec (hashpw password salt) "") as [E|_]; [contradiction|].
    cbn. now rewrite Hok.
Qed.

(** X24. The dictionary of a user never has the password: whatever the base
    model's [to_dict] returns, the result has no "password" key and has
    every other item of it, in the same order. *)
Theorem user_model_to_dict_drops_password (result : list (string * json)) :
  ~ In "password" (keys (UserModel.to_dict result)) /\
  (forall k v, k <> "password" ->
               (In (k, v) (UserModel.to_dict result) <-> In (k, v) result)) /\
  (forall (others : list (string * json)) hash,
     ~ In "password" (keys others) ->
     UserModel.to_dict (("password", hash) :: others) = others).
Proof.
  unfold UserModel.to_dict, keys. split; [|split].
  - intros HIn. apply in_map_iff in HIn. destruct HIn as ([k v] & Hk & HIn).
    apply filter_In in HIn. cbn in *. subst k. destruct HIn as [_ H]. discriminate.
  - intros k v Hk. rewrite filter_In. cbn.
    destruct (String.eqb_spec k "password"); [contradiction | tauto].
  - intros others hash Hno. cbn.
    induction others as [|[k v] l IH]; [reflexivity|]. cbn.
    destruct (String.eqb_spec k "password") as [->|_]; cbn.
    + exfalso. apply Hno. now left.
    + f_equal. apply IH. intros H. apply Hno. now right.
Qed.

(* ------------------------------------------------------------------ *)
(** ** The further properties at work *)

Lemma demo_quiet_alone : alone Demo.quiet.
Proof. intros x. reflexivity. Defined.

Lemma api_keeps_reviews_on_places_witness :
  let admin := Some (Demo.token_of Demo.admin) in
  let demo := Some (Demo.token_of Demo.demo) in
  let calls :=
    [ DeletePlace (Demo.bare tt DELETE admin) "p-beach";
      Reviews "r-9" (Demo.bare (ReviewData.mk (Some "p-cabin") (Some "Quiet") (Some (Int 4)))
                       POST demo) ] in
  references_ok Demo.store /\
  references_ok (run_all Demo.quiet calls Demo.store) /\
  map Review.id (review_table (run_all Demo.quiet calls Demo.store)) = ["r-1"; "r-9"].
Proof.
  intros admin demo calls.
  assert (references_ok Demo.store) as H.
  { intros r [<- | [<- | [<- | []]]].
    - exists Demo.cabin. split; [right; left|]; reflexivity.
    - exists Demo.beach. split; [left|]; reflexivity.
    - exists Demo.beach. split; [left|]; reflexivity. }
  split; [exact H|]. split; [|reflexivity].
  exact (api_keeps_reviews_on_places Demo.quiet demo_quiet_alone calls Demo.store H).
Defined.

Lemma api_never_grants_admin_witness :
  let calls :=
    [ Register "u-bob" (Demo.bare (RegisterData.mk (Some "Bob") (Some "Ray")
                                     (Some "bob@example.com") (Some "pw")) POST None) ] in
  In Demo.admin (user_table (run_all Demo.quiet calls Demo.store)) /\
  In Demo.admin (user_table Demo.store) /\
  List.length (user_table (run_all Demo.quiet calls Demo.store)) = 4%nat.
Proof.
  intros calls.
  assert (In Demo.admin (user_table (run_all Demo.quiet calls Demo.store))) as H
    by (left; reflexivity).
  split; [exact H|]. split; [|reflexivity].
  exact (api_never_grants_admin Demo.quiet demo_quiet_alone calls Demo.store Demo.admin
           H eq_refl).
Defined.

Lemma api_never_sets_owner_witness :
  let admin := Some (Demo.token_of Demo.admin) in
  let s := mkStore [Demo.admin] [Demo.cabin] [] in
  let calls :=
    [ CreatePlace "p-hut" (Demo.bare (PlaceData.mk (Some "Hut") None (Some (Int 40))) POST admin);
      UpdatePlace (Demo.bare (PlacePatch.mk None None (Some (Int 45))) PUT admin) "p-cabin" ] in
  map Place.price (place_table (run_all Demo.quiet calls s)) = [Some 45; Some 40] /\
  forall p, In p (place_table (run_all Demo.quiet calls s)) -> Place.owner_id p = None.
Proof.
  intros admin s calls. split; [reflexivity|].
  apply (api_never_sets_owner Demo.quiet demo_quiet_alone calls s).
  intros p [<- | []]. reflexivity.
Defined.

Lemma api_keeps_normal_forms_witness :
  let calls :=
    [ Register "u-bob" (Demo.bare (RegisterData.mk (Some "Bob") (Some "Ray")
                                     (Some "  Bob@Example.COM ") (Some "pw")) POST None);
      Reviews "r-9" (Demo.bare (ReviewData.mk (Some "p-cabin") (Some "  Quiet ") (Some (Int 4)))
                       POST (Some (Demo.token_of Demo.demo))) ] in
  map User.email (user_table (run_all Demo.quiet calls Demo.store))
    = ["admin@example.com"; "demo@example.com"; "alice@example.com"; "bob@example.com"] /\
  (forall r, In r (review_table (run_all Demo.quiet calls Demo.store)) ->
             Py.strip (Review.text r) = Review.text r).
Proof.
  intros calls. split; [reflexivity|].
  apply (api_keeps_normal_forms Demo.quiet demo_quiet_alone calls Demo.store).
  split.
  - intros u [<- | [<- | [<- | []]]]; reflexivity.
  - intros r [<- | [<- | [<- | []]]]; reflexivity.
Defined.

Lemma reads_change_nothing_witness :
  run Demo.quiet (GetUser (Demo.bare tt GET None) "u-alice") Demo.store = Demo.store /\
  run (Demo.failing 0)
      (Login (Demo.bare (LoginData.mk (Some "demo@example.com") (Some "DemoPass123"))
                POST None)) Demo.store = Demo.store.
Proof.
  split.
  - apply (reads_change_nothing Demo.quiet). reflexivity.
  - apply (reads_change_nothing (Demo.failing 0)). reflexivity.
Defined.

Lemma unauthenticated_calls_rejected_witness :
  serve (route Demo.quiet (DeletePlace (Demo.bare tt DELETE None) "p-beach")) Demo.store
    = (unauthenticated, Demo.store) /\
  serve (route Demo.quiet
           (Reviews "r-9" (Demo.bare (ReviewData.mk (Some "p-cabin") (Some "Quiet") (Some (Int 4)))
                             POST (Some "not-a-token")))) Demo.store
    = (unauthenticated, Demo.store).
Proof.
  split.
  - apply (unauthenticated_calls_rejected Demo.quiet); reflexivity.
  - apply (unauthenticated_calls_rejected Demo.quiet); reflexivity.
Defined.

Lemma non_admin_reach_witness :
  let c := DeleteReview (Demo.bare tt DELETE (Some (Demo.token_of Demo.alice))) "r-2" in
  caller Demo.quiet c = Some (claims_of Demo.alice) /\
  place_table (run Demo.quiet c Demo.store) = place_table Demo.store /\
  user_table (run Demo.quiet c Demo.store) = user_table Demo.store /\
  In Demo.r1 (review_table (run Demo.quiet c Demo.store)) /\
  review_table (run Demo.quiet c Demo.store) = [Demo.r1; Demo.r3].
Proof.
  intros c.
  destruct (non_admin_reach Demo.quiet c (claims_of Demo.alice) Demo.store
              demo_quiet_alone eq_refl eq_refl demo_store_consistent)
    as (Hp & Hu & Hr).
  split; [reflexivity|]. split; [exact Hp|]. split; [exact (Hu eq_refl)|].
  split; [|reflexivity].
  apply Hr; [left; reflexivity | discriminate].
Defined.

Lemma login_rejects_uniformly_witness :
  let wrong := Demo.bare (LoginData.mk (Some "demo@example.com") (Some "guess")) POST None in
  let nobody := Demo.bare (LoginData.mk (Some "nobody@example.com") (Some "guess")) POST None in
  let blank := Demo.bare (LoginData.mk (Some "   ") (Some "guess")) POST None in
  serve (login Demo.quiet wrong tt) Demo.store
    = serve (login Demo.quiet nobody tt) Demo.store /\
  serve (login Demo.quiet nobody tt) Demo.store
    = (mkResponse (jsonify_error "Invalid email or password") 401, Demo.store) /\
  serve (login Demo.quiet blank tt) Demo.store
    = (mkResponse (jsonify_error "email and password required") 400, Demo.store).
Proof.
  intros wrong nobody blank.
  destruct (login_rejects_uniformly Demo.quiet wrong Demo.store) as [_ Hwrong].
  destruct (login_rejects_uniformly Demo.quiet nobody Demo.store) as [_ Hnobody].
  destruct (login_rejects_uniformly Demo.quiet blank Demo.store) as [Hblank _].
  assert (serve (login Demo.quiet wrong tt) Demo.store
          = (mkResponse (jsonify_error "Invalid email or password") 401, Demo.store)) as Hw.
  { apply Hwrong; [reflexivity | discriminate | discriminate |].
    intros u H. injection H as <-. reflexivity. }
  assert (serve (login Demo.quiet nobody tt) Demo.store
          = (mkResponse (jsonify_error "Invalid email or password") 401, Demo.store)) as Hn.
  { apply Hnobody; [reflexivity | discriminate | discriminate |].
    intros u H. discriminate. }
  split; [now rewrite Hw, Hn|]. split; [exact Hn|].
  apply Hblank. left. reflexivity.
Defined.

Lemma demo_quiet_reliable (n : nat) : reliable Demo.quiet n.
Proof. intros k _. reflexivity. Defined.

Lemma register_creates_identity_witness :
  let req := Demo.bare (RegisterData.mk (Some "Bob") (Some "Ray")
                          (Some "  Bob@Example.COM ") (Some "bob-pw")) POST None in
  Py.isascii "  Bob@Example.COM " = true /\
  exists u token,
    serve (register Demo.quiet "u-bob" req tt) Demo.store
      = (mkResponse (JObj [ ("user", JObj (User.to_dict u));
                            ("access_token", JStr token) ]) 201,
         mkStore [Demo.admin; Demo.demo; Demo.alice; u] [Demo.beach; Demo.cabin]
                 [Demo.r1; Demo.r2; Demo.r3]) /\
    User.email u = "bob@example.com" /\
    User.password u = "plain$bob-pw" /\
    User.is_admin u = false.
Proof.
  intros req. split; [reflexivity|].
  destruct (register_creates_identity Demo.quiet req "u-bob" Demo.store
              "Bob" "Ray" "  Bob@Example.COM " "bob-pw"
              demo_quiet_alone (demo_quiet_reliable 2) eq_refl)
    as (u & token & Hout & Hid & Hemail & Hpw & Hadm & _).
  - repeat split; discriminate.
  - intros v [<- | [<- | [<- | []]]]; discriminate.
  - intros v [<- | [<- | [<- | []]]]; discriminate.
  - reflexivity.
  - exists u, token. repeat split; assumption.
Defined.

Lemma register_then_login_witness :
  let req := Demo.bare (RegisterData.mk (Some "Bob") (Some "Ray")
                          (Some "  Bob@Example.COM ") (Some "bob-pw")) POST None in
  let login_req := Demo.bare (LoginData.mk (Some "BOB@example.com") (Some "bob-pw"))
                     POST None in
  let s' := snd (serve (register Demo.quiet "u-bob" req tt) Demo.store) in
  (Py.isascii "  Bob@Example.COM " = true /\ Py.isascii "BOB@example.com" = true) /\
  exists u,
    In u (user_table s') /\ User.id u = "u-bob" /\
    serve (login Demo.quiet login_req tt) s'
      = (mkResponse (JObj [("access_token", JStr (Demo.encode (claims_of u)))]) 200, s').
Proof.
  intros req login_req. split; [split; reflexivity|].
  apply (register_then_login Demo.quiet req "u-bob" Demo.store
           "Bob" "Ray" "  Bob@Example.COM " "bob-pw"
           demo_quiet_alone (demo_quiet_reliable 2) eq_refl)
    with (spelling := "BOB@example.com").
  - repeat split; discriminate.
  - intros v [<- | [<- | [<- | []]]]; discriminate.
  - intros v [<- | [<- | [<- | []]]]; discriminate.
  - reflexivity.
  - reflexivity.
  - reflexivity.
  - reflexivity.
  - reflexivity.
Defined.

Lemma amenities_by_keyword_witness :
  Place.amenities (Place.mk "p" "Log Cabin on the BEACH" None (Some 90) None)
    = ["WiFi"; "Sea view"; "Air conditioning"] /\
  Place.amenities (Place.mk "q" "Studio" None (Some 35) None) = [].
Proof.
  split.
  - destruct (amenities_by_keyword (Place.mk "p" "Log Cabin on the BEACH" None (Some 90) None))
      as [Hbeach _].
    apply (Hbeach "Log Cabin on the " "BEACH" ""); reflexivity.
  - destruct (amenities_by_keyword (Place.mk "q" "Studio" None (Some 35) None))
      as [_ [Hnone _]].
    reflexivity.
Defined.

Lemma update_place_partial_witness :
  let admin := Some (Demo.token_of Demo.admin) in
  let req := Demo.bare (PlacePatch.mk None (Some None) (Some (Int 120))) PUT admin in
  let huge := Demo.bare (PlacePatch.mk None None (Some (Int 9223372036854775808)))
                PUT admin in
  (exists p,
     serve (update_place Demo.quiet req "p-cabin") Demo.store
       = (mkResponse (JObj (Place.to_dict p)) 200,
          mkStore [Demo.admin; Demo.demo; Demo.alice] [Demo.beach; p]
                  [Demo.r1; Demo.r2; Demo.r3]) /\
     p = Place.mk "p-cabin" "Cozy Cabin" None (Some 120) None) /\
  status (fst (serve (update_place Demo.quiet huge "p-cabin") Demo.store)) = 500 /\
  snd (serve (update_place Demo.quiet huge "p-cabin") Demo.store) = Demo.store.
Proof.
  intros admin req huge.
  assert (In Demo.cabin (place_table Demo.store)) as HIn by (right; left; reflexivity).
  split.
  - destruct (update_place_partial Demo.quiet req (claims_of Demo.admin) Demo.cabin
                Demo.store demo_quiet_alone (demo_quiet_reliable 2) eq_refl eq_refl
                demo_store_consistent HIn eq_refl) as (_ & _ & Hok).
    destruct (Hok (Some 120)) as (p & Hout & Hid & Hown & Ht & Hd & Hp & _);
      [discriminate | exists 120; repeat split |].
    exists p. split; [exact Hout|].
    destruct p; cbn in *; congruence.
  - destruct (update_place_partial Demo.quiet huge (claims_of Demo.admin) Demo.cabin
                Demo.store demo_quiet_alone (demo_quiet_reliable 2) eq_refl eq_refl
                demo_store_consistent HIn eq_refl) as (_ & Hbig & _).
    apply (Hbig (Int 9223372036854775808)); [reflexivity|].
    intros z Hz. injection Hz as <-. reflexivity.
Defined.

Lemma create_place_then_get_witness :
  let admin := Some (Demo.token_of Demo.admin) in
  let req := Demo.bare (PlaceData.mk (Some "Beach Hut") None (Some (Int 50))) POST admin in
  let created := serve (create_place Demo.quiet "p-hut" req tt) Demo.store in
  status (fst created) = 201 /\
  serve (get_place (Demo.bare tt GET None) "p-hut") (snd created)
    = (mkResponse (body (fst created)) 200, snd created) /\
  body (fst created)
    = JObj [ ("id", JStr "p-hut"); ("title", JStr "Beach Hut"); ("description", JNull);
             ("price", JInt 50); ("owner_id", JNull);
             ("amenities", JList [JStr "WiFi"; JStr "Sea view"; JStr "Air conditioning"]) ].
Proof.
  intros admin req created. split; [reflexivity|]. split; [|reflexivity].
  apply (create_place_then_get Demo.quiet req "p-hut" Demo.store demo_quiet_alone).
  reflexivity.
Defined.

Lemma create_review_then_list_witness :
  let req := Demo.bare (ReviewData.mk (Some "p-beach") (Some "Sunny") (Some (Int 5))) POST
               (Some (Demo.token_of Demo.alice)) in
  let created := serve (reviews Demo.quiet "r-9" req tt) Demo.store in
  status (fst created) = 201 /\
  body (fst (serve (reviews_by_place (Demo.bare tt GET None) "p-beach") (snd created)))
    = JList [ JObj (Review.to_dict Demo.r2); JObj (Review.to_dict Demo.r3);
              JObj (Review.to_dict (Review.mk "r-9" "u-alice" "p-beach" "Sunny" 5)) ] /\
  fst (serve (reviews_by_place (Demo.bare tt GET None) "p-cabin") (snd created))
    = fst (serve (reviews_by_place (Demo.bare tt GET None) "p-cabin") Demo.store).
Proof.
  intros req created. split; [reflexivity|]. split; [reflexivity|].
  destruct (create_review_then_list Demo.quiet req "r-9" Demo.store "p-beach"
              demo_quiet_alone (Demo.bare tt GET None) eq_refl eq_refl)
    as (_ & Hother & _).
  apply Hother. discriminate.
Defined.

Lemma token_outlives_identity_witness :
  let admin_req := Demo.bare tt DELETE (Some (Demo.token_of Demo.admin)) in
  let req := Demo.bare (ReviewData.mk (Some "p-cabin") (Some "Still here") (Some (Int 3)))
               POST (Some (Demo.token_of Demo.demo)) in
  let s1 := snd (serve (delete_user Demo.quiet admin_req "u-demo") Demo.store) in
  map User.id (user_table s1) = ["u-admin"; "u-alice"] /\
  serve (reviews Demo.quiet "r-9" req tt) s1
    = (mkResponse (JObj (Review.to_dict
                           (Review.mk "r-9" "u-demo" "p-cabin" "Still here" 3))) 201,
       mkStore (user_table s1) (place_table s1)
               (review_table s1 ++ [Review.mk "r-9" "u-demo" "p-cabin" "Still here" 3])).
Proof.
  intros admin_req req s1. split; [reflexivity|].
  apply (token_outlives_identity Demo.quiet admin_req (claims_of Demo.admin) Demo.demo req
           "r-9" Demo.store "p-cabin" "Still here" (Int 3) 3
           demo_quiet_alone (demo_quiet_reliable 4) demo_store_consistent).
  - right; left; reflexivity.
  - split; reflexivity.
  - reflexivity.
  - reflexivity.
  - reflexivity.
  - split; discriminate.
  - split; reflexivity.
  - exists Demo.cabin. split; [right; left|]; reflexivity.
  - intros r [<- | [<- | [<- | []]]]; discriminate.
Defined.

Lemma demo_quiet_never_fails : never_fails Demo.quiet.
Proof. intros k. reflexivity. Defined.

Lemma init_db_only_admin_witness :
  let i := Seed.mk "s-1" "s-2" "s-3" "s-4" "s-admin" "s-demo" "s-extra" in
  let promoted :=
    mkStore [ User.mk "u-root" "Root" "User" "root@example.com" "h" true;
              User.mk "u-adm" "Admin" "User" "admin@example.com" "h" false ] [] [] in
  map (fun u => (User.email u, User.is_admin u)) (user_table (snd (boot Demo.quiet i promoted)))
    = [ ("root@example.com", false); ("admin@example.com", true);
        ("demo@example.com", false) ] /\
  (forall u, In u (user_table (snd (boot Demo.quiet i promoted))) ->
             (User.is_admin u = true <-> User.email u = Seed.admin_email)).
Proof.
  intros i promoted. split; [reflexivity|].
  apply (init_db_only_admin Demo.quiet i demo_quiet_alone demo_quiet_never_fails promoted).
  - distinct.
  - split; [discriminate|]. intros u [<- | [<- | []]]; split; discriminate.
  - intros p [].
  - repeat split; distinct.
Defined.

Lemma init_db_keeps_rows_witness :
  let i := Seed.mk "s-1" "s-2" "s-3" "s-4" "s-admin" "s-demo" "s-extra" in
  review_table (snd (boot Demo.quiet i Demo.store)) = review_table Demo.store /\
  map Place.id (place_table (snd (boot Demo.quiet i Demo.store)))
    = ["p-beach"; "p-cabin"; "s-extra"] /\
  exists more,
    place_table (snd (boot Demo.quiet i Demo.store)) = (place_table Demo.store ++ more)%list.
Proof.
  intros i.
  destruct (init_db_keeps_rows Demo.quiet i demo_quiet_alone demo_quiet_never_fails
              Demo.store) as (Hr & Hp & _).
  - distinct.
  - split; [discriminate|]. intros u [<- | [<- | [<- | []]]]; split; discriminate.
  - intros p [<- | [<- | []]]; discriminate.
  - split; [exact Hr|]. split; [reflexivity | exact Hp].
Defined.

Lemma init_db_idempotent_witness :
  let i := Seed.mk "s-1" "s-2" "s-3" "s-4" "s-admin" "s-demo" "s-extra" in
  let i' := Seed.mk "t-1" "t-2" "t-3" "t-4" "t-admin" "t-demo" "t-extra" in
  let empty := mkStore [] [] [] in
  List.length (place_table (snd (boot Demo.quiet i empty))) = 4%nat /\
  boot Demo.quiet i' (snd (boot Demo.quiet i empty)) = (None, snd (boot Demo.quiet i empty)).
Proof.
  intros i i' empty. split; [reflexivity|].
  apply (init_db_idempotent Demo.quiet i i' empty demo_quiet_alone demo_quiet_never_fails).
  - distinct.
  - split; [discriminate|]. intros u [].
  - intros p [].
  - repeat split; constructor.
Defined.

Lemma simple_add_then_get_witness :
  let data := ServerSimple.mkReviewData (Some "place-1") (Some "  Very nice stay  ")
                (Some 5) (Some "Marie") in
  let db' := snd (ServerSimple.handle_add_review 1700000000 data []) in
  db' = [ServerSimple.mkReview 1 "place-1" "Marie" "Very nice stay" 5 1700000000] /\
  exists r,
    db' = [r] /\
    ServerSimple.handle_api_get (Some "place-1") db'
      = mkResponse (JObj [ ("success", JBool true);
                           ("reviews", JList [ServerSimple.review_to_json r]);
                           ("count", JInt 1) ]) 200.
Proof.
  intros data db'. split; [reflexivity|].
  destruct (simple_add_then_get 1700000000 data [] "place-1" eq_refl eq_refl)
    as (r & Hdb & Hget & _).
  exists r. split; [exact Hdb | exact Hget].
Defined.

Lemma simple_login_exact_witness :
  status (ServerSimple.handle_login ServerSimple.users_db (Some "demo@hbnb.com")
            (Some "demo123")) = 200 /\
  status (ServerSimple.handle_login ServerSimple.users_db (Some "Demo@hbnb.com")
            (Some "demo123")) = 401.
Proof.
  split.
  - apply (simple_login_exact ServerSimple.users_db (Some "demo@hbnb.com") (Some "demo123")).
    eexists _, _. repeat split; reflexivity.
  - destruct (simple_login_exact ServerSimple.users_db (Some "Demo@hbnb.com")
                (Some "demo123")) as ([H | H] & Hiff & _); [|exact H].
    exfalso. apply Hiff in H. destruct H as (e & acc & He & Hl & _).
    injection He as <-. discriminate.
Defined.

Lemma user_model_hash_then_verify_witness :
  let flask := UserModel.mkBcrypt (Some Demo.hash) (Some Demo.check) None None None in
  let plain := UserModel.mkBcrypt None None (Some (fun p salt => (salt ++ Demo.hash p)%string))
                 (Some "$2b$") (Some (fun p h => (h =? "$2b$" ++ Demo.hash p)%string)) in
  UserModel.verify_password flask (Some (Demo.hash "secret")) "secret"
    = UserModel.Returned true /\
  UserModel.verify_password plain (Some ("$2b$" ++ Demo.hash "secret")%string) "secret"
    = UserModel.Returned true /\
  UserModel.verify_password plain None "secret" = UserModel.Returned false.
Proof.
  intros flask plain.
  destruct (user_model_hash_then_verify flask "secret") as (Hflask & _ & _ & _).
  destruct (user_model_hash_then_verify plain "secret") as (_ & Hplain & Hnone & _).
  split; [|split].
  - apply (Hflask Demo.hash Demo.check); try reflexivity. discriminate.
  - apply (Hplain (fun p salt => (salt ++ Demo.hash p)%string) "$2b$"
             (fun p h => (h =? "$2b$" ++ Demo.hash p)%string)); try reflexivity.
    discriminate.
  - exact Hnone.
Defined.

Lemma user_model_to_dict_drops_password_witness :
  UserModel.to_dict [ ("id", JStr "u-1"); ("password", JStr "$2b$12$abc");
                      ("email", JStr "a@b.c") ]
    = [ ("id", JStr "u-1"); ("email", JStr "a@b.c") ] /\
  UserModel.to_dict [ ("password", JStr "$2b$12$abc"); ("email", JStr "a@b.c") ]
    = [ ("email", JStr "a@b.c") ].
Proof.
  split; [reflexivity|].
  apply (user_model_to_dict_drops_password [("email", JStr "a@b.c")]).
  cbn. intuition discriminate.
Defined.
